(** * Traffic accidents: merge-and-reproject pipeline, exporter, encoding fixer

    A shallow embedding of [manage_csv.py], [csv_to_json.py] and
    [data/fix_encoding.py], and the properties of the specification that
    are settled on it.

    Conventions of the embedding.
    - A Python [str] is a [string] whose characters are read as code points
      below 256; text decoded from a file is a list of code points ([N]).
    - A Python/NumPy float is a primitive binary64 [float]; NaN is pandas'
      missing value.
    - Console output is a list of [message]s, returned next to the value.
    - Library functions that the scripts call but do not define (pandas' CSV
      parser and numeric coercion, pyproj's transformer, Python's [float],
      [int], [round], [json] and [gzip]) are the fields of small classes;
      every definition of the scripts is written over them. *)

From Stdlib Require Import Floats ZArith NArith Lia Bool Ascii String List Sorted.
From Stdlib Require Strings.Byte.
From stdpp Require Import base tactics option list strings gmap pretty.

Local Open Scope Z_scope.
Local Open Scope string_scope.
Local Open Scope list_scope.

(** ** Python strings *)

Module PyStr.

(** [str.isspace] on one character (code points below 256). *)
Definition is_space (a : ascii) : bool :=
  let n := N_of_ascii a in
  ((9 <=? n) && (n <=? 13) || (28 <=? n) && (n <=? 32) || (n =? 133) || (n =? 160))%N.

(** [\d] on one character and its decimal value. *)
Definition is_digit (a : ascii) : bool :=
  let n := N_of_ascii a in ((48 <=? n) && (n <=? 57))%N.

Definition digit_value (a : ascii) : Z := Z.of_N (N_of_ascii a) - 48.

Fixpoint lstrip (s : string) : string :=
  match s with
  | EmptyString => EmptyString
  | String a s' => if is_space a then lstrip s' else s
  end.

Fixpoint rstrip (s : string) : string :=
  match s with
  | EmptyString => EmptyString
  | String a s' =>
      match rstrip s' with
      | EmptyString => if is_space a then EmptyString else String a EmptyString
      | t => String a t
      end
  end.

(** [s.strip()] *)
Definition strip (s : string) : string := rstrip (lstrip s).

Fixpoint all_space (s : string) : bool :=
  match s with
  | EmptyString => true
  | String a s' => is_space a && all_space s'
  end.

(** [s.startswith(p)] *)
Fixpoint startswith (p s : string) : bool :=
  match p, s with
  | EmptyString, _ => true
  | String a p', String b s' => Ascii.eqb a b && startswith p' s'
  | String _ _, EmptyString => false
  end.

Fixpoint drop (n : nat) (s : string) : string :=
  match n, s with
  | O, _ => s
  | S n', String _ s' => drop n' s'
  | S _, EmptyString => EmptyString
  end.

(** [s.endswith(p)] *)
Definition endswith (p s : string) : bool :=
  (String.length p <=? String.length s)%nat
  && String.eqb (drop (String.length s - String.length p) s) p.

End PyStr.

(** ** Floats *)

Module PyFloat.

(** [!=] on floats: true as soon as one side is NaN. *)
Definition neb (x y : float) : bool := negb (x =? y)%float.

(** [bool(x)]: a float is falsy exactly when it compares equal to zero. *)
Definition truthy (x : float) : bool := neb x 0%float.

End PyFloat.

(** ** Data frames *)

(** One cell of a frame. Missing values are the float NaN, as in pandas. *)
Inductive cell :=
| CStr (s : string)
| CInt (z : Z)
| CFloat (f : float).

Definition NaN : cell := CFloat nan.

(** [pd.isna] on one cell. *)
Definition isna (c : cell) : bool :=
  match c with
  | CFloat f => is_nan f
  | _ => false
  end.

(** A row maps column names to cells; a frame is its column index and its
    rows in positional order. *)
Record DataFrame := mkDataFrame {
  columns : list string;
  rows : list (gmap string cell)
}.

(** The cell of row [r] in column [c]; a column the row does not carry
    reads as missing. *)
Definition cell_at (r : gmap string cell) (c : string) : cell :=
  default NaN (r !! c).

(** [c in df.columns] *)
Definition has_column (c : string) (df : DataFrame) : bool :=
  bool_decide (c ∈ columns df).

(** [df[c]] as the list of its values. *)
Definition column (c : string) (df : DataFrame) : list cell :=
  map (fun r => cell_at r c) (rows df).

(** [df[c] = v] with a scalar [v]: the column is appended when it is new,
    and every row gets [v]. *)
Definition set_column (c : string) (v : cell) (df : DataFrame) : DataFrame :=
  {| columns := if has_column c df then columns df else columns df ++ [c];
     rows := map (fun r => <[c := v]> r) (rows df) |}.

(** The rows of [df.loc[mask, c] = values]: the rows selected by [mask]
    take the values in order; [None] when the number of values is not the
    number of selected rows (pandas raises). *)
Fixpoint loc_assign_rows (mask : list bool) (c : string) (values : list float)
    (rs : list (gmap string cell)) : option (list (gmap string cell)) :=
  match rs, mask with
  | [], _ => match values with [] => Some [] | _ => None end
  | r :: rs', true :: mask' =>
      match values with
      | [] => None
      | v :: values' =>
          match loc_assign_rows mask' c values' rs' with
          | Some out => Some (<[c := CFloat v]> r :: out)
          | None => None
          end
      end
  | r :: rs', false :: mask' =>
      match loc_assign_rows mask' c values rs' with
      | Some out => Some (r :: out)
      | None => None
      end
  | r :: rs', [] =>
      match loc_assign_rows [] c values rs' with
      | Some out => Some (r :: out)
      | None => None
      end
  end.

Definition loc_assign (mask : list bool) (c : string) (values : list float)
    (df : DataFrame) : option DataFrame :=
  match loc_assign_rows mask c values (rows df) with
  | Some rs => Some {| columns := columns df; rows := rs |}
  | None => None
  end.

(** [series[mask].values] *)
Fixpoint select {A} (mask : list bool) (xs : list A) : list A :=
  match mask, xs with
  | true :: mask', x :: xs' => x :: select mask' xs'
  | false :: mask', _ :: xs' => select mask' xs'
  | _, _ => []
  end.

(** [mask.sum()] *)
Definition mask_sum (mask : list bool) : nat := length (List.filter (fun b => b) mask).

(** The position, among the selected rows, of row [i]: how many rows before
    it the mask selects. *)
Definition rank (mask : list bool) (i : nat) : nat := mask_sum (take i mask).

(** [df.dropna(subset=cs)]: a row goes as soon as one cell of [cs] is missing. *)
Definition dropna (subset : list string) (df : DataFrame) : DataFrame :=
  {| columns := columns df;
     rows := List.filter (fun r => forallb (fun c => negb (isna (cell_at r c))) subset) (rows df) |}.

(** Keeps, of the elements with the same key, the first one. *)
Fixpoint keep_first_aux {A K} (same : K -> K -> bool) (key : A -> K)
    (seen : list K) (l : list A) : list A :=
  match l with
  | [] => []
  | x :: l' =>
      if existsb (same (key x)) seen
      then keep_first_aux same key seen l'
      else x :: keep_first_aux same key (key x :: seen) l'
  end.

Definition keep_first {A K} (same : K -> K -> bool) (key : A -> K) (l : list A) : list A :=
  keep_first_aux same key [] l.

(** The first element of [l] whose key is [k], as a list of at most one. *)
Definition first_with {A K} (same : K -> K -> bool) (key : A -> K) (k : K) (l : list A)
    : list A :=
  match List.find (fun x => same (key x) k) l with
  | Some x => [x]
  | None => []
  end.

(** Two cells count as the same value for [drop_duplicates]: equal strings,
    equal integers, floats that compare equal, and two missing values. Cells
    of different kinds are kept apart. *)
Definition same_cell (a b : cell) : bool :=
  match a, b with
  | CStr s, CStr t => String.eqb s t
  | CInt x, CInt y => Z.eqb x y
  | CFloat f, CFloat g => (f =? g)%float || (is_nan f && is_nan g)
  | _, _ => false
  end.

Fixpoint same_key (k1 k2 : list cell) : bool :=
  match k1, k2 with
  | [], [] => true
  | a :: k1', b :: k2' => same_cell a b && same_key k1' k2'
  | _, _ => false
  end.

Definition key_of (subset : list string) (r : gmap string cell) : list cell :=
  map (cell_at r) subset.

(** [df.drop_duplicates(subset=cs)] (keep='first'). *)
Definition drop_duplicates (subset : list string) (df : DataFrame) : DataFrame :=
  {| columns := columns df;
     rows := keep_first same_key (key_of subset) (rows df) |}.

(** The row [r] laid out on the columns [cols]: cells of columns it lacks
    are missing. *)
Definition reindex (cols : list string) (r : gmap string cell) : gmap string cell :=
  foldr (fun c m => <[c := cell_at r c]> m) ∅ cols.

(** [pd.concat(dfs, ignore_index=True)]: the columns are the union in order
    of first appearance, the rows follow frame order, then row order. *)
Definition concat_columns (dfs : list DataFrame) : list string :=
  keep_first String.eqb (fun c => c) (List.concat (map columns dfs)).

Definition pd_concat (dfs : list DataFrame) : DataFrame :=
  let cols := concat_columns dfs in
  {| columns := cols;
     rows := List.concat (map (fun df => map (reindex cols) (rows df)) dfs) |}.

(** [series.nunique()]: distinct values, missing ones left out. *)
Definition nunique (xs : list cell) : nat :=
  length (keep_first same_cell (fun c => c) (List.filter (fun c => negb (isna c)) xs)).

(** ** Text encodings *)

Module Codec.

Definition is_continuation (b : N) : bool := ((128 <=? b) && (b <=? 191))%N.

(** Strict UTF-8, as Python's codec decodes it: shortest forms only, no
    surrogates, nothing above U+10FFFF. *)
Fixpoint utf8_decode (bs : list N) : option (list N) :=
  match bs with
  | [] => Some []
  | b0 :: r0 =>
      if (b0 <? 128)%N then option_map (cons b0) (utf8_decode r0)
      else if ((194 <=? b0) && (b0 <=? 223))%N then
        match r0 with
        | b1 :: r1 =>
            if is_continuation b1
            then option_map (cons ((b0 - 192) * 64 + (b1 - 128))%N) (utf8_decode r1)
            else None
        | _ => None
        end
      else if ((224 <=? b0) && (b0 <=? 239))%N then
        match r0 with
        | b1 :: b2 :: r2 =>
            let lo := if (b0 =? 224)%N then 160%N else 128%N in
            let hi := if (b0 =? 237)%N then 159%N else 191%N in
            if ((lo <=? b1) && (b1 <=? hi))%N && is_continuation b2
            then option_map
                   (cons ((b0 - 224) * 4096 + (b1 - 128) * 64 + (b2 - 128))%N)
                   (utf8_decode r2)
            else None
        | _ => None
        end
      else if ((240 <=? b0) && (b0 <=? 244))%N then
        match r0 with
        | b1 :: b2 :: b3 :: r3 =>
            let lo := if (b0 =? 240)%N then 144%N else 128%N in
            let hi := if (b0 =? 244)%N then 143%N else 191%N in
            if ((lo <=? b1) && (b1 <=? hi))%N && is_continuation b2 && is_continuation b3
            then option_map
                   (cons ((b0 - 240) * 262144 + (b1 - 128) * 4096
                          + (b2 - 128) * 64 + (b3 - 128))%N)
                   (utf8_decode r3)
            else None
        | _ => None
        end
      else None
  end.

(** The upper halves (bytes 128..255) of the two single-byte code pages. *)
Definition iso8859_2_table : list (option N) :=
  [Some 128; Some 129; Some 130; Some 131; Some 132; Some 133; Some 134; Some 135;
   Some 136; Some 137; Some 138; Some 139; Some 140; Some 141; Some 142; Some 143;
   Some 144; Some 145; Some 146; Some 147; Some 148; Some 149; Some 150; Some 151;
   Some 152; Some 153; Some 154; Some 155; Some 156; Some 157; Some 158; Some 159;
   Some 160; Some 260; Some 728; Some 321; Some 164; Some 317; Some 346; Some 167;
   Some 168; Some 352; Some 350; Some 356; Some 377; Some 173; Some 381; Some 379;
   Some 176; Some 261; Some 731; Some 322; Some 180; Some 318; Some 347; Some 711;
   Some 184; Some 353; Some 351; Some 357; Some 378; Some 733; Some 382; Some 380;
   Some 340; Some 193; Some 194; Some 258; Some 196; Some 313; Some 262; Some 199;
   Some 268; Some 201; Some 280; Some 203; Some 282; Some 205; Some 206; Some 270;
   Some 272; Some 323; Some 327; Some 211; Some 212; Some 336; Some 214; Some 215;
   Some 344; Some 366; Some 218; Some 368; Some 220; Some 221; Some 354; Some 223;
   Some 341; Some 225; Some 226; Some 259; Some 228; Some 314; Some 263; Some 231;
   Some 269; Some 233; Some 281; Some 235; Some 283; Some 237; Some 238; Some 271;
   Some 273; Some 324; Some 328; Some 243; Some 244; Some 337; Some 246; Some 247;
   Some 345; Some 367; Some 250; Some 369; Some 252; Some 253; Some 355; Some 729]%N.

Definition cp1250_table : list (option N) :=
  [Some 8364; None; Some 8218; None; Some 8222; Some 8230; Some 8224; Some 8225;
   None; Some 8240; Some 352; Some 8249; Some 346; Some 356; Some 381; Some 377;
   None; Some 8216; Some 8217; Some 8220; Some 8221; Some 8226; Some 8211; Some 8212;
   None; Some 8482; Some 353; Some 8250; Some 347; Some 357; Some 382; Some 378;
   Some 160; Some 711; Some 728; Some 321; Some 164; Some 260; Some 166; Some 167;
   Some 168; Some 169; Some 350; Some 171; Some 172; Some 173; Some 174; Some 379;
   Some 176; Some 177; Some 731; Some 322; Some 180; Some 181; Some 182; Some 183;
   Some 184; Some 261; Some 351; Some 187; Some 317; Some 733; Some 318; Some 380;
   Some 340; Some 193; Some 194; Some 258; Some 196; Some 313; Some 262; Some 199;
   Some 268; Some 201; Some 280; Some 203; Some 282; Some 205; Some 206; Some 270;
   Some 272; Some 323; Some 327; Some 211; Some 212; Some 336; Some 214; Some 215;
   Some 344; Some 366; Some 218; Some 368; Some 220; Some 221; Some 354; Some 223;
   Some 341; Some 225; Some 226; Some 259; Some 228; Some 314; Some 263; Some 231;
   Some 269; Some 233; Some 281; Some 235; Some 283; Some 237; Some 238; Some 271;
   Some 273; Some 324; Some 328; Some 243; Some 244; Some 337; Some 246; Some 247;
   Some 345; Some 367; Some 250; Some 369; Some 252; Some 253; Some 355; Some 729]%N.

(** A single-byte code page: ASCII as it is, the upper half through the
    table; a byte the table leaves undefined fails the whole decode. *)
Definition charmap_byte (table : list (option N)) (b : N) : option N :=
  if (b <? 128)%N then Some b
  else match nth_error table (N.to_nat (b - 128)) with
       | Some (Some cp) => Some cp
       | _ => None
       end.

Fixpoint charmap_decode (table : list (option N)) (bs : list N) : option (list N) :=
  match bs with
  | [] => Some []
  | b :: bs' =>
      match charmap_byte table b with
      | Some cp => option_map (cons cp) (charmap_decode table bs')
      | None => None
      end
  end.

(** [raw.decode(encoding)] for the four names the scripts use
    ([windows-1250] and [cp1250] name the same codec); [None] when the
    decode raises. *)
Definition decode (encoding : string) (raw : list Byte.byte) : option (list N) :=
  let bs := map Byte.to_N raw in
  if String.eqb encoding "utf-8" then utf8_decode bs
  else if String.eqb encoding "iso-8859-2" then charmap_decode iso8859_2_table bs
  else if String.eqb encoding "windows-1250" || String.eqb encoding "cp1250"
       then charmap_decode cp1250_table bs
  else None.

(** The loop both scripts use: try the candidates in order and stop at the
    first one for which [attempt] does not raise. *)
Fixpoint try_encodings {A} (attempt : string -> option A) (candidates : list string)
    : option (string * A) :=
  match candidates with
  | [] => None
  | encoding :: rest =>
      match attempt encoding with
      | Some a => Some (encoding, a)
      | None => try_encodings attempt rest
      end
  end.

(** [text.encode('utf-8')] on one code point; [None] where Python raises
    UnicodeEncodeError, which is on a surrogate. *)
Definition utf8_encode_char (c : N) : option (list N) :=
  if (c <? 128)%N then Some [c]
  else if (c <? 2048)%N then Some [192 + c / 64; 128 + c mod 64]%N
  else if ((55296 <=? c) && (c <=? 57343))%N then None
  else if (c <? 65536)%N then
    Some [224 + c / 4096; 128 + (c / 64) mod 64; 128 + c mod 64]%N
  else if (c <? 1114112)%N then
    Some [240 + c / 262144; 128 + (c / 4096) mod 64; 128 + (c / 64) mod 64;
          128 + c mod 64]%N
  else None.

Fixpoint utf8_encode (text : list N) : option (list N) :=
  match text with
  | [] => Some []
  | c :: text' =>
      match utf8_encode_char c, utf8_encode text' with
      | Some bs, Some rest => Some (bs ++ rest)
      | _, _ => None
      end
  end.

(** The code points a Python string decoded from bytes holds: Unicode
    scalar values. *)
Definition is_scalar (c : N) : bool :=
  ((c <? 55296) || ((57343 <? c) && (c <? 1114112)))%N.

End Codec.

(** ** Library interfaces *)

(** What raising an exception carries: its message. *)
Definition exn := string.

(** pandas: the CSV parser run on decoded text with [sep=';'] ([None] when
    it raises), [pd.to_numeric(..., errors='coerce')] on one string (NaN
    when it is not a number), and the text of a float under [astype(str)]. *)
Class Pandas := {
  parse_csv : list N -> option DataFrame;
  to_numeric : string -> float;
  float_repr : float -> string
}.

(** pyproj: building the EPSG:3794 to EPSG:4326 transformer ([always_xy])
    and running it on two aligned arrays, first the easting operand, then the
    northing operand; it returns longitudes and latitudes, or raises. *)
Class PyProj := {
  transform : list float -> list float -> exn + (list float * list float)
}.

(** ** manage_csv.py *)

Record Config := {
  START_YEAR : option Z;
  END_YEAR : option Z;
  SPECIFIC_YEARS : list Z
}.

(** The constants as the script sets them. *)
Definition script_config : Config :=
  {| START_YEAR := Some 2015; END_YEAR := Some 2024; SPECIFIC_YEARS := [] |}.

Record File := {
  file_name : string;
  file_bytes : list Byte.byte
}.

Inductive message :=
| MsgNoValidCoordinates
| MsgTransformError (e : exn)
| MsgProcessing (filename : string) (year : Z)
| MsgCouldNotRead
| MsgConverting
| MsgLoaded (rows_after rows_skipped : nat)
| MsgBoundsWarning (n : nat)
| MsgLoadedNoCoordinates (n : nat)
| MsgFolderNotFound
| MsgNoFilesFound
| MsgFound (n : nat)
| MsgSkipping (filename : string)
| MsgNoneProcessed
| MsgMerging (n : nat)
| MsgSaved
| MsgSummary (total : nat) (first_year last_year : Z) (years : list Z)
| MsgAccidentTypes (n : nat)
| MsgValidCoordinates (n total : nat).

(** The match of [pn(\d{4})] at the start of [s]. *)
Definition match_pn_year (s : string) : option Z :=
  match s with
  | String "p" (String "n" (String d1 (String d2 (String d3 (String d4 _))))) =>
      if PyStr.is_digit d1 && PyStr.is_digit d2 && PyStr.is_digit d3 && PyStr.is_digit d4
      then Some (1000 * PyStr.digit_value d1 + 100 * PyStr.digit_value d2
                 + 10 * PyStr.digit_value d3 + PyStr.digit_value d4)
      else None
  | _ => None
  end.

(** [re.search(r'pn(\d{4})', filename)]: the leftmost match. *)
Fixpoint get_year_from_filename (filename : string) : option Z :=
  match match_pn_year filename with
  | Some year => Some year
  | None =>
      match filename with
      | EmptyString => None
      | String _ rest => get_year_from_filename rest
      end
  end.

(** [series.replace(['', ' '], np.nan)] on one element. *)
Definition replace_blank (s : string) : option string :=
  if String.eqb s "" || String.eqb s " " then None else Some s.

(** The Slovenia bounds test of one row. *)
Definition outside_bounds (r : gmap string cell) : bool :=
  match cell_at r "latitude", cell_at r "longitude" with
  | CFloat lat, CFloat lon =>
      (lat <? 45)%float || (47 <? lat)%float || (lon <? 13)%float || (16 <? lon)%float
  | _, _ => false
  end.

(** [sorted] on file names (insertion into a sorted list). *)
Fixpoint insert_sorted (f : File) (l : list File) : list File :=
  match l with
  | [] => [f]
  | g :: l' =>
      if String.leb (file_name f) (file_name g) then f :: l
      else g :: insert_sorted f l'
  end.

Definition sorted (l : list File) : list File := foldr insert_sorted [] l.

(** [glob.glob(os.path.join(data_folder, 'pn*.csv'))] on the files of the
    folder: the names that start with [pn] and, after it, end with [.csv]
    (case matters, as on POSIX). *)
Definition glob_pn_csv (folder : list File) : list File :=
  List.filter
    (fun f => PyStr.startswith "pn" (file_name f)
              && PyStr.endswith ".csv" (PyStr.drop 2 (file_name f)))
    folder.

Section ManageCsv.
Context {pandas : Pandas} {pyproj : PyProj}.

(** [series.astype(str)] on one element. *)
Definition astype_str (c : cell) : string :=
  match c with
  | CStr s => s
  | CInt z => pretty z
  | CFloat f => float_repr f
  end.

(** [pd.to_numeric(series, errors='coerce')] on one element: a missing value
    stays missing. *)
Definition to_numeric_coerce (o : option string) : float :=
  match o with
  | Some s => to_numeric s
  | None => nan
  end.

(** The numeric reading of a raw coordinate column, step by step as the
    script rebinds [x_coords]. *)
Definition numeric_column (c : string) (df : DataFrame) : list float :=
  let coords := column c df in
  let coords := map (fun v => PyStr.strip (astype_str v)) coords in
  let coords := map replace_blank coords in
  map to_numeric_coerce coords.

(** The same reading on one cell. *)
Definition numeric_cell (v : cell) : float :=
  to_numeric_coerce (replace_blank (PyStr.strip (astype_str v))).

(** [(x_coords != 0) & (y_coords != 0) & x_coords.notna() & y_coords.notna()] *)
Definition valid_pair (x y : float) : bool :=
  PyFloat.neb x 0%float && PyFloat.neb y 0%float && negb (is_nan x) && negb (is_nan y).

Fixpoint valid_mask_of (xs ys : list float) : list bool :=
  match xs, ys with
  | x :: xs', y :: ys' => valid_pair x y :: valid_mask_of xs' ys'
  | _, _ => []
  end.

(** A row and a frame after [df['latitude'] = np.nan] and
    [df['longitude'] = np.nan]. *)
Definition blank_row (r : gmap string cell) : gmap string cell :=
  <["longitude" := NaN]> (<["latitude" := NaN]> r).

Definition blank_coordinates (df : DataFrame) : DataFrame :=
  set_column "longitude" NaN (set_column "latitude" NaN df).

(** [convert_coordinates_batch]. The [try] block is the transform and the
    two assignments; whatever raises in it is caught, printed, and the frame
    is returned as it stands at that point. *)
Definition convert_coordinates_batch (df : DataFrame) (year : Z)
    : DataFrame * list message :=
  if negb (has_column "GeoKoordinataX" df) || negb (has_column "GeoKoordinataY" df)
  then (df, [])
  else
    let x_coords := numeric_column "GeoKoordinataX" df in
    let y_coords := numeric_column "GeoKoordinataY" df in
    let valid_mask := valid_mask_of x_coords y_coords in
    let df := set_column "latitude" NaN df in
    let df := set_column "longitude" NaN df in
    if (mask_sum valid_mask =? 0)%nat then (df, [MsgNoValidCoordinates])
    else
      let valid_x := select valid_mask x_coords in
      let valid_y := select valid_mask y_coords in
      match transform valid_y valid_x with
      | inl e => (df, [MsgTransformError e])
      | inr (lons, lats) =>
          match loc_assign valid_mask "longitude" lons df with
          | None => (df, [MsgTransformError "ValueError"])
          | Some df =>
              match loc_assign valid_mask "latitude" lats df with
              | None => (df, [MsgTransformError "ValueError"])
              | Some df => (df, [])
              end
          end
      end.

(** [pd.read_csv(csv_file, sep=';', encoding=encoding)]: decode, then parse. *)
Definition read_csv (csv_file : File) (encoding : string) : option DataFrame :=
  match Codec.decode encoding (file_bytes csv_file) with
  | Some text => parse_csv text
  | None => None
  end.

(** The encoding loop of [process_file]: the first candidate that
    [read_csv] accepts, with the frame it gave. *)
Definition read_any_encoding (csv_file : File) : option (string * DataFrame) :=
  Codec.try_encodings (read_csv csv_file)
    ["utf-8"; "iso-8859-2"; "windows-1250"; "cp1250"].

(** The years that pass the three tests at the head of [process_file]. *)
Definition year_selected (cfg : Config) (year : Z) : bool :=
  negb (negb (bool_decide (SPECIFIC_YEARS cfg = []))
        && negb (bool_decide (year ∈ SPECIFIC_YEARS cfg)))
  && negb (match START_YEAR cfg with Some s => (year <? s)%Z | None => false end)
  && negb (match END_YEAR cfg with Some e => (e <? year)%Z | None => false end).

(** [process_file]. [None] is the script's [return None]. Past the
    encoding loop nothing in the body raises in this embedding, so the outer
    [except Exception] clause has no counterpart here. *)
Definition process_file (cfg : Config) (csv_file : File) (year : Z)
    : option DataFrame * list message :=
  if negb (bool_decide (SPECIFIC_YEARS cfg = [])) && negb (bool_decide (year ∈ SPECIFIC_YEARS cfg))
  then (None, [])
  else if match START_YEAR cfg with Some s => (year <? s)%Z | None => false end
  then (None, [])
  else if match END_YEAR cfg with Some e => (e <? year)%Z | None => false end
  then (None, [])
  else
    let filename := file_name csv_file in
    let log := [MsgProcessing filename year] in
    match read_any_encoding csv_file with
    | None => (None, log ++ [MsgCouldNotRead])
    | Some (_, df) =>
        let df := set_column "year" (CInt year) df in
        if has_column "GeoKoordinataX" df && has_column "GeoKoordinataY" df then
          let rows_before := length (rows df) in
          let '(df, log_convert) := convert_coordinates_batch df year in
          let df := dropna ["latitude"; "longitude"] df in
          let rows_after := length (rows df) in
          let rows_skipped := (rows_before - rows_after)%nat in
          let invalid := List.filter outside_bounds (rows df) in
          (Some df,
           log ++ [MsgConverting] ++ log_convert
               ++ [MsgLoaded rows_after rows_skipped]
               ++ (if (0 <? length invalid)%nat then [MsgBoundsWarning (length invalid)] else []))
        else (Some df, log ++ [MsgLoadedNoCoordinates (length (rows df))])
    end.

(** The loop of [merge_all_files] over the sorted file list: the frames and
    years of the files that were processed, and what was printed. *)
Fixpoint process_all (cfg : Config) (csv_files : list File)
    : list DataFrame * list Z * list message :=
  match csv_files with
  | [] => ([], [], [])
  | csv_file :: rest =>
      let '(dfs, years_processed, log_rest) := process_all cfg rest in
      match get_year_from_filename (file_name csv_file) with
      | None => (dfs, years_processed, MsgSkipping (file_name csv_file) :: log_rest)
      | Some year =>
          match process_file cfg csv_file year with
          | (Some df, log) => (df :: dfs, year :: years_processed, log ++ log_rest)
          | (None, log) => (dfs, years_processed, log ++ log_rest)
          end
      end
  end.

(** The merge proper: concatenation, then the duplicates of
    (year, ZaporednaStevilkaPN) dropped when both columns exist. *)
Definition merge_frames (dfs : list DataFrame) : DataFrame :=
  let merged := pd_concat dfs in
  if has_column "ZaporednaStevilkaPN" merged && has_column "year" merged
  then drop_duplicates ["year"; "ZaporednaStevilkaPN"] merged
  else merged.

Record Run := {
  returned : bool;
  written : option DataFrame;
  console : list message
}.

Definition summary (merged : DataFrame) (years_processed : list Z) : list message :=
  [MsgSaved;
   MsgSummary (length (rows merged))
     (foldr Z.min (hd 0 years_processed) years_processed)
     (foldr Z.max (hd 0 years_processed) years_processed)
     years_processed]
  ++ (if has_column "TipNesrece" merged
      then [MsgAccidentTypes (nunique (column "TipNesrece" merged))] else [])
  ++ (if has_column "latitude" merged && has_column "longitude" merged
      then [MsgValidCoordinates
              (length (rows (dropna ["latitude"; "longitude"] merged)))
              (length (rows merged))]
      else []).

(** [merge_all_files(data_folder, output_file)]. The folder is [None] when
    the path does not exist, and otherwise the files in it; [written] is what
    [to_csv] put in the output file, if it ran. *)
Definition merge_all_files (cfg : Config) (data_folder : option (list File)) : Run :=
  match data_folder with
  | None => {| returned := false; written := None; console := [MsgFolderNotFound] |}
  | Some folder =>
      let csv_files := sorted (glob_pn_csv folder) in
      match csv_files with
      | [] => {| returned := false; written := None; console := [MsgNoFilesFound] |}
      | _ =>
          let '(dfs, years_processed, log) := process_all cfg csv_files in
          match dfs with
          | [] => {| returned := false; written := None;
                     console := MsgFound (length csv_files) :: log ++ [MsgNoneProcessed] |}
          | _ =>
              let merged := merge_frames dfs in
              {| returned := true; written := Some merged;
                 console := MsgFound (length csv_files) :: log
                            ++ [MsgMerging (length dfs)] ++ summary merged years_processed |}
          end
      end
  end.

(** What one file gives the loop of [merge_all_files]: its year and its
    frame, when the name has a year and [process_file] returns a frame. *)
Definition processed (cfg : Config) (csv_file : File) : option (Z * DataFrame) :=
  match get_year_from_filename (file_name csv_file) with
  | None => None
  | Some year =>
      match fst (process_file cfg csv_file year) with
      | Some df => Some (year, df)
      | None => None
      end
  end.

End ManageCsv.

(** ** csv_to_json.py *)

(** Python's [float(s)] and [int(s)] on a string ([None] when they raise
    ValueError) and [round(x, ndigits)]. *)
Class Builtins := {
  py_float : string -> option float;
  py_int : string -> option Z;
  py_round : float -> Z -> float
}.

Module CsvToJson.

(** One object of the exported array. A descriptive field is [None] when the
    reader gave Python's [None] for it (JSON [null]). *)
Record Accident := {
  latitude : float;
  longitude : float;
  year : Z;
  KlasifikacijaNesrece : option string;
  TipNesrece : option string;
  VremenskeOkoliscine : option string;
  StanjePrometa : option string;
  StanjeVozisca : option string;
  VNaselju : option string;
  TekstCesteNaselja : option string;
  DatumPN : option string;
  UraPN : option string
}.

(** What one pass of the loop body does. *)
Inductive outcome :=
| Emit (o : Accident)
| Skip
| Uncaught (e : exn).

(** [row.get(k, '')] on a row of [csv.DictReader]: the value of a present
    key is a string, or Python's [None] ([None] here) when the line was
    shorter than the header. *)
Definition row_get (row : gmap string (option string)) (k : string) : option string :=
  default (Some "") (row !! k).

(** A row whose three parsed fields are strings: every row of a CSV whose
    lines have as many fields as the header, as [to_csv] writes them. *)
Definition rectangular (row : gmap string (option string)) : Prop :=
  row_get row "latitude" <> None /\ row_get row "longitude" <> None
  /\ row_get row "year" <> None.

Section Exporter.
Context {builtins : Builtins}.

(** The body of the loop. [float(None)] and [int(None)] raise TypeError,
    which the [except (ValueError, KeyError)] clause does not catch. *)
Definition convert_row (row : gmap string (option string)) : outcome :=
  match row_get row "latitude" with
  | None => Uncaught "TypeError"
  | Some s_lat =>
  match py_float s_lat with
  | None => Skip
  | Some lat =>
  match row_get row "longitude" with
  | None => Uncaught "TypeError"
  | Some s_lon =>
  match py_float s_lon with
  | None => Skip
  | Some lon =>
  match row_get row "year" with
  | None => Uncaught "TypeError"
  | Some s_year =>
  match py_int s_year with
  | None => Skip
  | Some y =>
      if PyFloat.truthy lat && PyFloat.truthy lon
      then Emit {| latitude := py_round lat 6;
                   longitude := py_round lon 6;
                   year := y;
                   KlasifikacijaNesrece := row_get row "KlasifikacijaNesrece";
                   TipNesrece := row_get row "TipNesrece";
                   VremenskeOkoliscine := row_get row "VremenskeOkoliscine";
                   StanjePrometa := row_get row "StanjePrometa";
                   StanjeVozisca := row_get row "StanjeVozisca";
                   VNaselju := row_get row "VNaselju";
                   TekstCesteNaselja := row_get row "TekstCesteNaselja";
                   DatumPN := row_get row "DatumPN";
                   UraPN := row_get row "UraPN" |}
      else Skip
  end end end end end end.

(** The specification's reading of a row that is exported: latitude and
    longitude are valid (they parse, and neither is zero) and the year parses. *)
Definition exportable (row : gmap string (option string)) : option (float * float * Z) :=
  match row_get row "latitude", row_get row "longitude", row_get row "year" with
  | Some s_lat, Some s_lon, Some s_year =>
      match py_float s_lat, py_float s_lon, py_int s_year with
      | Some lat, Some lon, Some y =>
          if PyFloat.truthy lat && PyFloat.truthy lon then Some (lat, lon, y) else None
      | _, _, _ => None
      end
  | _, _, _ => None
  end.

(** The triple of an exported row. *)
Definition exported_triple (row : gmap string (option string)) : list (Z * float * float) :=
  match exportable row with
  | Some (lat, lon, y) => [(y, py_round lat 6, py_round lon 6)]
  | None => []
  end.

(** The loop over the reader: [data] after the last row, or the exception
    that ended the run. *)
Fixpoint collect (reader : list (gmap string (option string))) : exn + list Accident :=
  match reader with
  | [] => inr []
  | row :: rest =>
      match convert_row row with
      | Uncaught e => inl e
      | Skip => collect rest
      | Emit o =>
          match collect rest with
          | inr data => inr (o :: data)
          | inl e => inl e
          end
      end
  end.

End Exporter.

(** [json.dumps(data, separators=(',', ':'))] and gzip at level 9, with the
    inverse operations a consumer of the export applies. *)
Class JsonGzip := {
  json_dumps : list Accident -> string;
  gzip_compress : string -> list Byte.byte;
  gzip_decompress : list Byte.byte -> option string;
  json_loads : string -> option (list Accident)
}.

(** [convert_csv_to_compressed_json] on the rows the reader yields: the
    bytes written to the output file. *)
Definition convert_csv_to_compressed_json `{Builtins} `{JsonGzip}
    (reader : list (gmap string (option string))) : exn + list Byte.byte :=
  match collect reader with
  | inr data => inr (gzip_compress (json_dumps data))
  | inl e => inl e
  end.

(** Reading an export back. *)
Definition read_export `{JsonGzip} (file : list Byte.byte) : option (list Accident) :=
  match gzip_decompress file with
  | Some json_str => json_loads json_str
  | None => None
  end.

End CsvToJson.

(** ** data/fix_encoding.py *)

Module FixEncoding.

Definition encodings_to_try : list string :=
  ["utf-8"; "windows-1250"; "iso-8859-2"; "cp1250"].

(** [fix_encoding_simple] on the bytes of the input file: the encoding used
    and the text written back as UTF-8, or [None] when nothing decoded and
    the file is left as it was. *)
Definition fix_encoding_simple (raw_data : list Byte.byte) : option (string * list N) :=
  Codec.try_encodings (fun encoding => Codec.decode encoding raw_data) encodings_to_try.

(** What writing in text mode does to the text before it is encoded: each
    newline becomes [os.linesep]. *)
Definition translate_newlines (linesep text : list N) : list N :=
  flat_map (fun c => if (c =? 10)%N then linesep else [c]) text.

(** [os.linesep] on POSIX systems. *)
Definition posix_linesep : list N := [10%N].

Definition byte_of_N (n : N) : Byte.byte := default Byte.x00 (Byte.of_N n).

(** What a call of [fix_encoding_simple] leaves of the file: untouched when
    nothing decoded; emptied when the file was opened for writing and the
    encoder then raised; or rewritten. *)
Inductive fixed :=
| CouldNotDecode
| WriteRaised (used_encoding : string)
| Converted (used_encoding : string) (written : list Byte.byte).

(** [fix_encoding_simple(input_file)], with the output file the input file,
    down to the bytes written. *)
Definition fix_encoding_simple_file (linesep : list N) (raw_data : list Byte.byte) : fixed :=
  match fix_encoding_simple raw_data with
  | None => CouldNotDecode
  | Some (used_encoding, text) =>
      match Codec.utf8_encode (translate_newlines linesep text) with
      | Some bs => Converted used_encoding (map byte_of_N bs)
      | None => WriteRaised used_encoding
      end
  end.

End FixEncoding.

(** ** Further definitions *)

(** Whether the decimal text of [y] is four digits that read back as [y]. *)
Definition four_digits_ok (y : Z) : bool :=
  match pretty y with
  | String d1 (String d2 (String d3 (String d4 EmptyString))) =>
      PyStr.is_digit d1 && PyStr.is_digit d2 && PyStr.is_digit d3 && PyStr.is_digit d4
      && Z.eqb (1000 * PyStr.digit_value d1 + 100 * PyStr.digit_value d2
                + 10 * PyStr.digit_value d3 + PyStr.digit_value d4) y
  | _ => false
  end.


(** The order [sorted] puts the files in: by name. *)
Definition name_le (f g : File) : Prop := String.leb (file_name f) (file_name g) = true.

(** The year at the head of a name that starts with [pn] and four digits. *)
Definition leading_year (f : File) : Z := default 0 (match_pn_year (file_name f)).

(** ** Stand-ins for the libraries

    Small executable instances of the library classes, on which the
    embedding is run on concrete files. They read plain decimal numbers
    and plain semicolon-separated text within the string convention above;
    the projection is replaced by a linear map. *)

Module Demo.

Fixpoint digits_value (acc : Z) (s : string) : option Z :=
  match s with
  | EmptyString => Some acc
  | String a s' =>
      if PyStr.is_digit a then digits_value (10 * acc + PyStr.digit_value a) s' else None
  end.

Definition unsigned_int (s : string) : option Z :=
  match s with
  | EmptyString => None
  | _ => digits_value 0 s
  end.

(** An optional sign followed by digits. *)
Definition signed_int (s : string) : option Z :=
  match s with
  | String "-" s' => option_map Z.opp (unsigned_int s')
  | String "+" s' => unsigned_int s'
  | _ => unsigned_int s
  end.

Definition int_of_string (s : string) : option Z := signed_int (PyStr.strip s).

Fixpoint split_at_dot (s : string) : string * option string :=
  match s with
  | EmptyString => (EmptyString, None)
  | String "." s' => (EmptyString, Some s')
  | String a s' => let '(i, f) := split_at_dot s' in (String a i, f)
  end.

Definition float_of_Z (z : Z) : float :=
  if (z <? 0)%Z then (- PrimFloat.of_uint63 (Uint63.of_Z (- z)))%float
  else PrimFloat.of_uint63 (Uint63.of_Z z).

(** [digits] or [digits.digits], with an optional sign: the quotient of two
    integers that are exact as floats, so the nearest float to the decimal. *)
Definition unsigned_decimal (s : string) : option float :=
  match split_at_dot s with
  | (i, None) => option_map float_of_Z (unsigned_int i)
  | (i, Some f) =>
      match unsigned_int i, unsigned_int f with
      | Some a, Some b =>
          let scale := 10 ^ Z.of_nat (String.length f) in
          Some (float_of_Z (a * scale + b) / float_of_Z scale)%float
      | _, _ => None
      end
  end.

Definition decimal (s : string) : option float :=
  match s with
  | String "-" s' => option_map PrimFloat.opp (unsigned_decimal s')
  | String "+" s' => unsigned_decimal s'
  | _ => unsigned_decimal s
  end.

Definition float_of_string (s : string) : option float := decimal (PyStr.strip s).

(** Splitting text at a separator code point. *)
Fixpoint split_on (sep : N) (text : list N) : list (list N) :=
  match text with
  | [] => [[]]
  | c :: text' =>
      if (c =? sep)%N then [] :: split_on sep text'
      else match split_on sep text' with
           | field :: fields => (c :: field) :: fields
           | [] => [[c]]
           end
  end.

Fixpoint string_of_text (text : list N) : option string :=
  match text with
  | [] => Some EmptyString
  | c :: text' =>
      if (c <? 256)%N
      then option_map (String (ascii_of_N c)) (string_of_text text')
      else None
  end.

Definition cell_of_field (s : string) : cell :=
  if String.eqb s "" then NaN
  else match signed_int s with
       | Some z => CInt z
       | None => CStr s
       end.

Fixpoint row_of_fields (header : list string) (fields : list string) : gmap string cell :=
  match header, fields with
  | c :: header', f :: fields' => <[c := cell_of_field f]> (row_of_fields header' fields')
  | c :: header', [] => <[c := NaN]> (row_of_fields header' [])
  | [], _ => ∅
  end.

Fixpoint strings_of_fields (fields : list (list N)) : option (list string) :=
  match fields with
  | [] => Some []
  | f :: fields' =>
      match string_of_text f, strings_of_fields fields' with
      | Some s, Some l => Some (s :: l)
      | _, _ => None
      end
  end.

Fixpoint rows_of_lines (header : list string) (lines : list (list N))
    : option (list (gmap string cell)) :=
  match lines with
  | [] => Some []
  | line :: lines' =>
      match line with
      | [] => rows_of_lines header lines'
      | _ =>
          match strings_of_fields (split_on 59 line), rows_of_lines header lines' with
          | Some fields, Some rs =>
              if (length fields <=? length header)%nat
              then Some (row_of_fields header fields :: rs)
              else None
          | _, _ => None
          end
      end
  end.

(** A header line, then one line per row; an empty text, or a line with more
    fields than the header, is an error. *)
Definition csv_frame (text : list N) : option DataFrame :=
  match split_on 10 text with
  | [] :: _ | [] => None
  | header_line :: lines =>
      match strings_of_fields (split_on 59 header_line) with
      | Some header =>
          match rows_of_lines header lines with
          | Some rs => Some {| columns := header; rows := rs |}
          | None => None
          end
      | None => None
      end
  end.

(** Only missing values occur as floats in the raw columns of the sample
    frames. *)
#[export] Instance pandas : Pandas := {|
  parse_csv := csv_frame;
  to_numeric := fun s => default nan (decimal s);
  float_repr := fun f => if is_nan f then "nan" else "inf"
|}.

(** A linear stand-in for the projection: longitude from the easting,
    latitude from the northing. *)
Definition lon_of_easting (e : float) : float := (15 + (e - 500000) / 80000)%float.
Definition lat_of_northing (n : float) : float := (45 + n / 111000)%float.

Definition project (e n : float) : float * float := (lon_of_easting e, lat_of_northing n).

#[export] Instance pyproj : PyProj := {|
  transform := fun es ns =>
    inr (zip_with (fun e n => fst (project e n)) es ns,
         zip_with (fun e n => snd (project e n)) es ns)
|}.

(** A transformer that always raises. *)
Definition failing_pyproj : PyProj := {|
  transform := fun _ _ => inl "ProjError"
|}.

(** The sample values have fewer than six decimals, which rounding to six
    digits leaves as they are. *)
#[export] Instance builtins : Builtins := {|
  py_float := float_of_string;
  py_int := int_of_string;
  py_round := fun x _ => x
|}.

(** The bytes of an ASCII string. *)
Definition bytes_of (s : string) : list Byte.byte := list_byte_of_string s.

Definition newline : string := String (ascii_of_N 10) EmptyString.

(** Sample inputs. In [pn2020.csv] the rows are, in order: a valid pair, a
    zero X, a second row with record id 5, a blank X with a non-numeric Y,
    and a valid pair far outside Slovenia. *)
Definition pn2020_csv : File :=
  {| file_name := "pn2020.csv";
     file_bytes := bytes_of
       ("ZaporednaStevilkaPN;GeoKoordinataX;GeoKoordinataY" ++ newline
        ++ "5;100000;500000" ++ newline
        ++ "6;0;500000" ++ newline
        ++ "5;101000;501000" ++ newline
        ++ "7; ;x" ++ newline
        ++ "8;900000;500000" ++ newline) |}.

Definition pn2021_csv : File :=
  {| file_name := "pn2021.csv";
     file_bytes := bytes_of
       ("ZaporednaStevilkaPN;GeoKoordinataX;GeoKoordinataY" ++ newline
        ++ "5;120000;460000" ++ newline) |}.

Definition pn2010_csv : File :=
  {| file_name := "pn2010.csv";
     file_bytes := bytes_of
       ("ZaporednaStevilkaPN;TipNesrece" ++ newline ++ "1;A" ++ newline) |}.

(** A name without a year, and a file no encoding can load (it is empty). *)
Definition pnabc_csv : File :=
  {| file_name := "pnabc.csv";
     file_bytes := bytes_of ("ZaporednaStevilkaPN" ++ newline ++ "1" ++ newline) |}.

Definition pn2022_csv : File := {| file_name := "pn2022.csv"; file_bytes := [] |}.

(** A frame with a valid pair, a zero X, and a blank X with a non-numeric Y. *)
Definition coordinates_frame : DataFrame :=
  {| columns := ["GeoKoordinataX"; "GeoKoordinataY"];
     rows := [ {[ "GeoKoordinataX" := CInt 100000; "GeoKoordinataY" := CInt 500000 ]};
               {[ "GeoKoordinataX" := CInt 0; "GeoKoordinataY" := CInt 500000 ]};
               {[ "GeoKoordinataX" := CStr " "; "GeoKoordinataY" := CStr "x" ]} ] |}.

(** What the loader reads from [pn2020.csv]. *)
Definition loaded_2020 : DataFrame :=
  match read_any_encoding pn2020_csv with
  | Some (_, df) => df
  | None => {| columns := []; rows := [] |}
  end.

(** A file that is not UTF-8: the byte 0x80 in a one-column table. *)
Definition latin_csv : File :=
  {| file_name := "pn2019.csv";
     file_bytes := bytes_of ("v" ++ newline) ++ [Byte.x80] ++ bytes_of newline |}.

(** Every year, no filter. *)
Definition all_years : Config :=
  {| START_YEAR := None; END_YEAR := None; SPECIFIC_YEARS := [] |}.

(** The configuration of the specification's example: an explicit year and
    a range that does not contain it. *)
Definition year_2010_and_range : Config :=
  {| START_YEAR := Some 2015; END_YEAR := Some 2020; SPECIFIC_YEARS := [2010] |}.

(** Two frames of the merge example: record id 5 twice in 2020, once in 2021. *)
Definition df2020 : DataFrame :=
  {| columns := ["ZaporednaStevilkaPN"; "TipNesrece"; "year"];
     rows := [ {[ "ZaporednaStevilkaPN" := CInt 5; "TipNesrece" := CStr "A"; "year" := CInt 2020 ]};
               {[ "ZaporednaStevilkaPN" := CInt 6; "TipNesrece" := CStr "B"; "year" := CInt 2020 ]};
               {[ "ZaporednaStevilkaPN" := CInt 5; "TipNesrece" := CStr "C"; "year" := CInt 2020 ]} ] |}.

Definition df2021 : DataFrame :=
  {| columns := ["ZaporednaStevilkaPN"; "year"];
     rows := [ {[ "ZaporednaStevilkaPN" := CInt 5; "year" := CInt 2021 ]} ] |}.

(** Rows of a merged CSV as [csv.DictReader] yields them: an accident in
    Ljubljana, one at latitude zero, one without coordinates. *)
Definition reader_rows : list (gmap string (option string)) :=
  [ {[ "latitude" := Some "46.25"; "longitude" := Some "14.5"; "year" := Some "2020";
       "TipNesrece" := Some "A" ]};
    {[ "latitude" := Some "0.0"; "longitude" := Some "14.5"; "year" := Some "2020";
       "TipNesrece" := Some "B" ]};
    {[ "latitude" := Some ""; "longitude" := Some ""; "year" := Some "2021";
       "TipNesrece" := Some "C" ]} ].

(** A line-oriented stand-in for JSON: one object per line, fields separated
    by semicolons, a float written as the three integers of its binary form. *)
Definition float_fields (x : float) : list string :=
  match Prim2SF x with
  | S754_zero s => ["0"; if s then "1" else "0"; "0"]
  | S754_infinity s => ["1"; if s then "1" else "0"; "0"]
  | S754_nan => ["2"; "0"; "0"]
  | S754_finite s m e => ["3"; pretty (if s then Z.neg m else Z.pos m); pretty e]
  end.

Definition float_of_fields (tag m e : Z) : float :=
  SF2Prim (if (tag =? 0)%Z then S754_zero (m =? 1)%Z
           else if (tag =? 1)%Z then S754_infinity (m =? 1)%Z
           else if (tag =? 2)%Z then S754_nan
           else match m with
                | Z.pos p => S754_finite false p e
                | Z.neg p => S754_finite true p e
                | Z0 => S754_nan
                end).

Definition text_field (o : option string) : string :=
  match o with
  | Some s => String "S" s
  | None => "N"
  end.

Definition field_text (s : string) : option string :=
  match s with
  | String "S" s' => Some s'
  | _ => None
  end.

Fixpoint join (sep : string) (l : list string) : string :=
  match l with
  | [] => ""
  | [s] => s
  | s :: l' => (s ++ sep ++ join sep l')%string
  end.

Definition object_line (o : CsvToJson.Accident) : string :=
  join ";"
    (float_fields (CsvToJson.latitude o) ++ float_fields (CsvToJson.longitude o)
     ++ [pretty (CsvToJson.year o)]
     ++ map text_field
          [CsvToJson.KlasifikacijaNesrece o; CsvToJson.TipNesrece o;
           CsvToJson.VremenskeOkoliscine o; CsvToJson.StanjePrometa o;
           CsvToJson.StanjeVozisca o; CsvToJson.VNaselju o;
           CsvToJson.TekstCesteNaselja o; CsvToJson.DatumPN o; CsvToJson.UraPN o]).

Definition line_object (fields : list string) : option CsvToJson.Accident :=
  match fields with
  | [t1; m1; e1; t2; m2; e2; y; f1; f2; f3; f4; f5; f6; f7; f8; f9] =>
      match signed_int t1, signed_int m1, signed_int e1,
            signed_int t2, signed_int m2, signed_int e2, signed_int y with
      | Some t1, Some m1, Some e1, Some t2, Some m2, Some e2, Some y =>
          Some {| CsvToJson.latitude := float_of_fields t1 m1 e1;
                  CsvToJson.longitude := float_of_fields t2 m2 e2;
                  CsvToJson.year := y;
                  CsvToJson.KlasifikacijaNesrece := field_text f1;
                  CsvToJson.TipNesrece := field_text f2;
                  CsvToJson.VremenskeOkoliscine := field_text f3;
                  CsvToJson.StanjePrometa := field_text f4;
                  CsvToJson.StanjeVozisca := field_text f5;
                  CsvToJson.VNaselju := field_text f6;
                  CsvToJson.TekstCesteNaselja := field_text f7;
                  CsvToJson.DatumPN := field_text f8;
                  CsvToJson.UraPN := field_text f9 |}
      | _, _, _, _, _, _, _ => None
      end
  | _ => None
  end.

Definition text_of_string (s : string) : list N := map Byte.to_N (list_byte_of_string s).

Fixpoint objects_of_lines (lines : list (list N)) : option (list CsvToJson.Accident) :=
  match lines with
  | [] => Some []
  | [] :: lines' => objects_of_lines lines'
  | line :: lines' =>
      match strings_of_fields (split_on 59 line) with
      | Some fields =>
          match line_object fields, objects_of_lines lines' with
          | Some o, Some data => Some (o :: data)
          | _, _ => None
          end
      | None => None
      end
  end.

#[export] Instance json_gzip : CsvToJson.JsonGzip := {|
  CsvToJson.json_dumps := fun data =>
    String.concat "" (map (fun o => (object_line o ++ newline)%string) data);
  CsvToJson.gzip_compress := list_byte_of_string;
  CsvToJson.gzip_decompress := fun file => Some (string_of_list_byte file);
  CsvToJson.json_loads := fun json_str =>
    objects_of_lines (split_on 10 (text_of_string json_str))
|}.

(** Python's [float] also reads the text [nan]. *)
Definition builtins_with_nan : Builtins := {|
  py_float := fun s =>
    if String.eqb (PyStr.strip s) "nan" then Some nan else float_of_string s;
  py_int := int_of_string;
  py_round := fun x _ => x
|}.

(** A file whose coordinate pairs all have a zero or a blank. *)
Definition pn2018_csv : File :=
  {| file_name := "pn2018.csv";
     file_bytes := bytes_of
       ("ZaporednaStevilkaPN;GeoKoordinataX;GeoKoordinataY" ++ newline
        ++ "1;0;0" ++ newline
        ++ "2; ;500000" ++ newline) |}.

Definition loaded_2018 : DataFrame :=
  match read_any_encoding pn2018_csv with
  | Some (_, df) => df
  | None => {| columns := []; rows := [] |}
  end.

(** A one-column table holding the letter c with caron (U+010D) in UTF-8. *)
Definition utf8_bytes : list Byte.byte :=
  bytes_of ("v" ++ newline) ++ [Byte.xc4; Byte.x8d] ++ bytes_of newline.

End Demo.

(** * Properties *)

(** ** Equality of floats *)

Lemma SFeqb_finite s1 m1 e1 s2 m2 e2 :
  SFeqb (S754_finite s1 m1 e1) (S754_finite s2 m2 e2) = true ->
  s1 = s2 /\ m1 = m2 /\ e1 = e2.
Proof.
  unfold SFeqb, SFcompare.
  destruct s1, s2; try discriminate;
    destruct (e1 ?= e2)%Z eqn:He; try discriminate;
    apply Z.compare_eq in He; subst;
    destruct (Pos.compare_cont Eq m1 m2) eqn:Hm; try discriminate;
    apply Pos.compare_eq in Hm; subst; auto.
Qed.

Lemma SFeqb_finite_refl s m e : SFeqb (S754_finite s m e) (S754_finite s m e) = true.
Proof.
  unfold SFeqb, SFcompare. rewrite Z.compare_refl.
  change (PosDef.Pos.compare_cont Eq m m) with (Pos.compare m m).
  rewrite Pos.compare_refl. now destruct s.
Qed.

Lemma SFeqb_sym_true (a b : spec_float) : SFeqb a b = true -> SFeqb b a = true.
Proof.
  destruct a as [sa|sa| |sa ma ea], b as [sb|sb| |sb mb eb];
    try (intros; reflexivity);
    try (unfold SFeqb, SFcompare; simpl; intros; discriminate);
    try (unfold SFeqb, SFcompare; destruct sa; discriminate);
    try (unfold SFeqb, SFcompare; destruct sb; discriminate);
    try (unfold SFeqb, SFcompare; destruct sa, sb; simpl; intros; congruence).
  intros H. apply SFeqb_finite in H as (-> & -> & ->). apply SFeqb_finite_refl.
Qed.

Lemma SFeqb_sym (a b : spec_float) : SFeqb a b = SFeqb b a.
Proof.
  destruct (SFeqb a b) eqn:E1, (SFeqb b a) eqn:E2; try reflexivity.
  - apply SFeqb_sym_true in E1. congruence.
  - apply SFeqb_sym_true in E2. congruence.
Qed.

Lemma SFeqb_trans (a b c : spec_float) :
  SFeqb a b = true -> SFeqb b c = true -> SFeqb a c = true.
Proof.
  destruct a as [sa|sa| |sa ma ea], b as [sb|sb| |sb mb eb], c as [sc|sc| |sc mc ec];
    try (intros; assumption);
    try (unfold SFeqb, SFcompare; simpl; intros; discriminate);
    try (unfold SFeqb, SFcompare; destruct sa; discriminate);
    try (unfold SFeqb, SFcompare; destruct sb; discriminate);
    try (unfold SFeqb, SFcompare; destruct sa, sb, sc; simpl; intros; congruence).
  intros H1 H2. apply SFeqb_finite in H1 as (-> & -> & ->). exact H2.
Qed.

Lemma float_eqb_sym (f g : float) : (f =? g)%float = (g =? f)%float.
Proof. rewrite !FloatAxioms.eqb_spec. apply SFeqb_sym. Qed.

Lemma float_eqb_trans (f g h : float) :
  (f =? g)%float = true -> (g =? h)%float = true -> (f =? h)%float = true.
Proof. rewrite !FloatAxioms.eqb_spec. apply SFeqb_trans. Qed.

Lemma float_eqb_not_nan (f g : float) :
  (f =? g)%float = true -> is_nan f = false /\ is_nan g = false.
Proof.
  intros H. unfold is_nan. split; apply negb_false_iff.
  - apply (float_eqb_trans f g f); [exact H | now rewrite float_eqb_sym].
  - apply (float_eqb_trans g f g); [now rewrite float_eqb_sym | exact H].
Qed.

(** ** The key relation of [drop_duplicates] is an equivalence *)

Lemma same_cell_refl (a : cell) : same_cell a a = true.
Proof.
  destruct a as [s|z|f]; simpl.
  - apply String.eqb_refl.
  - apply Z.eqb_refl.
  - unfold is_nan. destruct (f =? f)%float; reflexivity.
Qed.

Lemma same_cell_sym (a b : cell) : same_cell a b = same_cell b a.
Proof.
  destruct a, b; simpl; try reflexivity.
  - apply String.eqb_sym.
  - apply Z.eqb_sym.
  - now rewrite float_eqb_sym, andb_comm.
Qed.

Lemma same_cell_trans (a b c : cell) :
  same_cell a b = true -> same_cell b c = true -> same_cell a c = true.
Proof.
  destruct a as [s1|z1|f1], b as [s2|z2|f2], c as [s3|z3|f3]; simpl; try discriminate.
  - intros H1%String.eqb_eq H2%String.eqb_eq. subst. apply String.eqb_refl.
  - intros H1%Z.eqb_eq H2%Z.eqb_eq. subst. apply Z.eqb_refl.
  - intros H1 H2. apply orb_true_iff in H1, H2. apply orb_true_iff.
    destruct H1 as [H1|H1], H2 as [H2|H2].
    + left. eapply float_eqb_trans; eauto.
    + apply float_eqb_not_nan in H1 as [_ H1]. rewrite H1 in H2. discriminate.
    + apply float_eqb_not_nan in H2 as [H2 _]. rewrite H2, andb_false_r in H1. discriminate.
    + right. apply andb_true_iff in H1 as [-> _], H2 as [_ ->]. reflexivity.
Qed.

Lemma same_key_refl (k : list cell) : same_key k k = true.
Proof. induction k; simpl; [reflexivity|]. now rewrite same_cell_refl. Qed.

Lemma same_key_sym (k1 k2 : list cell) : same_key k1 k2 = same_key k2 k1.
Proof.
  revert k2. induction k1 as [|a k1 IH]; intros [|b k2]; simpl; try reflexivity.
  now rewrite same_cell_sym, IH.
Qed.

Lemma same_key_trans (k1 k2 k3 : list cell) :
  same_key k1 k2 = true -> same_key k2 k3 = true -> same_key k1 k3 = true.
Proof.
  revert k2 k3. induction k1 as [|a k1 IH]; intros [|b k2] [|c k3]; simpl;
    try discriminate; try reflexivity.
  intros [H1 H2]%andb_true_iff [H3 H4]%andb_true_iff.
  apply andb_true_iff. split; [eapply same_cell_trans | eapply IH]; eauto.
Qed.

(** ** [keep_first] *)

Section KeepFirst.
Context {A K : Type} (same : K -> K -> bool) (key : A -> K).
Hypothesis same_sym : forall a b, same a b = same b a.
Hypothesis same_trans : forall a b c, same a b = true -> same b c = true -> same a c = true.

Lemma existsb_same_transfer (k k' : K) (seen : list K) :
  same k k' = true -> existsb (same k) seen = existsb (same k') seen.
Proof.
  intros Hk. induction seen as [|s seen IH]; simpl; [reflexivity|].
  rewrite IH. f_equal.
  destruct (same k s) eqn:E1, (same k' s) eqn:E2; try reflexivity.
  - rewrite same_sym in Hk. now rewrite (same_trans _ _ _ Hk E1) in E2.
  - now rewrite (same_trans _ _ _ Hk E2) in E1.
Qed.

Lemma filter_keep_first_aux (k : K) (seen : list K) (l : list A) :
  List.filter (fun x => same (key x) k) (keep_first_aux same key seen l)
  = if existsb (same k) seen then [] else first_with same key k l.
Proof.
  unfold first_with. revert seen. induction l as [|x l IH]; intros seen; simpl.
  - now destruct (existsb (same k) seen).
  - destruct (same (key x) k) eqn:Hxk.
    + rewrite (existsb_same_transfer _ _ seen Hxk).
      destruct (existsb (same k) seen) eqn:Hseen.
      * rewrite IH, Hseen. reflexivity.
      * simpl. rewrite Hxk, IH. simpl. rewrite same_sym, Hxk. reflexivity.
    + destruct (existsb (same (key x)) seen) eqn:Hseen.
      * apply IH.
      * simpl. rewrite Hxk, IH. simpl. rewrite same_sym, Hxk. reflexivity.
Qed.

Lemma filter_keep_first (k : K) (l : list A) :
  List.filter (fun x => same (key x) k) (keep_first same key l) = first_with same key k l.
Proof. unfold keep_first. now rewrite filter_keep_first_aux. Qed.

End KeepFirst.

(** ** Merging *)

Lemma reindex_cell_at (cols : list string) (r : gmap string cell) (c : string) :
  In c cols -> cell_at (reindex cols r) c = cell_at r c.
Proof.
  induction cols as [|c0 cols IH]; simpl; [tauto|].
  intros Hin. unfold cell_at at 1.
  destruct (decide (c0 = c)) as [->|Hne].
  - now rewrite lookup_insert_eq.
  - rewrite lookup_insert_ne by exact Hne. destruct Hin as [Heq|Hin]; [congruence|].
    apply IH, Hin.
Qed.

Lemma keep_first_strings_In (c : string) (l : list string) :
  In c l -> In c (keep_first String.eqb (fun x => x) l).
Proof.
  intros Hin.
  assert (Hf : In c (List.filter (fun x => String.eqb x c)
                       (keep_first String.eqb (fun x => x) l))).
  { rewrite filter_keep_first.
    - unfold first_with. destruct (List.find (fun x => String.eqb x c) l) as [x|] eqn:E.
      + apply List.find_some in E as [_ ->%String.eqb_eq]. now left.
      + eapply List.find_none in E; [|exact Hin]. simpl in E. now rewrite String.eqb_refl in E.
    - apply String.eqb_sym.
    - intros a b d ->%String.eqb_eq ->%String.eqb_eq. apply String.eqb_refl. }
  apply List.filter_In in Hf. tauto.
Qed.

Lemma concat_columns_In (dfs : list DataFrame) (df : DataFrame) (c : string) :
  In df dfs -> In c (columns df) -> In c (columns (pd_concat dfs)).
Proof.
  intros Hdf Hc. simpl. unfold concat_columns. apply keep_first_strings_In.
  apply List.in_concat. exists (columns df). split; [|exact Hc].
  apply List.in_map_iff. eauto.
Qed.

Lemma pd_concat_In (dfs : list DataFrame) (df : DataFrame) (r : gmap string cell) :
  In df dfs -> In r (rows df) ->
  In (reindex (columns (pd_concat dfs)) r) (rows (pd_concat dfs)).
Proof.
  intros Hdf Hr. simpl. apply List.in_concat.
  exists (map (reindex (concat_columns dfs)) (rows df)). split.
  - apply List.in_map_iff. eauto.
  - apply List.in_map_iff. eauto.
Qed.

Lemma merge_frames_keeps_first (dfs : list DataFrame) (r : gmap string cell) :
  List.find (fun r' => same_key (key_of ["year"; "ZaporednaStevilkaPN"] r')
                                (key_of ["year"; "ZaporednaStevilkaPN"] r))
    (rows (pd_concat dfs)) = Some r ->
  In r (rows (merge_frames dfs)).
Proof.
  intros Hfind. unfold merge_frames.
  destruct (has_column "ZaporednaStevilkaPN" (pd_concat dfs) && has_column "year" (pd_concat dfs)).
  - assert (Hin : In r (List.filter
                    (fun r' => same_key (key_of ["year"; "ZaporednaStevilkaPN"] r')
                                        (key_of ["year"; "ZaporednaStevilkaPN"] r))
                    (rows (drop_duplicates ["year"; "ZaporednaStevilkaPN"] (pd_concat dfs))))).
    { unfold drop_duplicates; cbn [rows].
      rewrite filter_keep_first; [|apply same_key_sym | apply same_key_trans].
      unfold first_with. rewrite Hfind. now left. }
    apply List.filter_In in Hin. tauto.
  - apply List.find_some in Hfind. tauto.
Qed.

Lemma find_hd_filter {A} (f : A -> bool) (l : list A) :
  List.find f l = hd_error (List.filter f l).
Proof. induction l as [|x l IH]; simpl; [reflexivity|]. now destruct (f x). Qed.

Lemma merge_frames_rows (dfs : list DataFrame) :
  has_column "ZaporednaStevilkaPN" (pd_concat dfs) = true ->
  has_column "year" (pd_concat dfs) = true ->
  rows (merge_frames dfs)
  = keep_first same_key (key_of ["year"; "ZaporednaStevilkaPN"]) (rows (pd_concat dfs)).
Proof. intros H1 H2. unfold merge_frames. rewrite H1, H2. reflexivity. Qed.

(** C1. When the merged frame has the columns [year] and
    [ZaporednaStevilkaPN], the rows of the concatenation (the frames in the
    order they were processed, each with its rows in order) that share one
    (year, ZaporednaStevilkaPN) key leave exactly one row in the merged
    output, the first of them in concatenation order; a row whose key occurs
    once is kept; and every row of the concatenation carries the cells of
    the file row it comes from. *)
Theorem merge_frames_first_occurrence (dfs : list DataFrame) :
  has_column "ZaporednaStevilkaPN" (pd_concat dfs) = true ->
  has_column "year" (pd_concat dfs) = true ->
  let key := key_of ["year"; "ZaporednaStevilkaPN"] in
  let merged_columns := columns (pd_concat dfs) in
  let concatenated := rows (pd_concat dfs) in
  let merged := rows (merge_frames dfs) in
  concatenated = List.concat (map (fun df => map (reindex merged_columns) (rows df)) dfs)
  /\ (forall df r c, In df dfs -> In r (rows df) -> In c (columns df) ->
        cell_at (reindex merged_columns r) c = cell_at r c)
  /\ (forall r, In r concatenated ->
        exists f, List.find (fun r' => same_key (key r') (key r)) concatenated = Some f
                  /\ List.filter (fun r' => same_key (key r') (key r)) merged = [f])
  /\ (forall r, List.filter (fun r' => same_key (key r') (key r)) concatenated = [r] ->
        In r merged)
  /\ (forall k, List.find (fun r' => same_key (key r') k) concatenated = None ->
        List.filter (fun r' => same_key (key r') k) merged = []).
Proof.
  intros H1 H2 key merged_columns concatenated merged.
  assert (Hf : forall k, List.filter (fun r' => same_key (key r') k) merged
                         = first_with same_key key k concatenated).
  { intros k. unfold merged. rewrite merge_frames_rows by assumption.
    apply filter_keep_first; [apply same_key_sym | apply same_key_trans]. }
  split; [reflexivity|]. split; [|split; [|split]].
  - intros df r c Hdf Hr Hc. apply reindex_cell_at. eapply concat_columns_In; eauto.
  - intros r Hr. rewrite Hf. unfold first_with.
    destruct (List.find _ concatenated) as [f|] eqn:E; [eauto|].
    exfalso. eapply List.find_none in E; [|exact Hr].
    cbv beta in E. now rewrite same_key_refl in E.
  - intros r Hr.
    assert (In r (List.filter (fun r' => same_key (key r') (key r)) merged)) as Hin.
    { rewrite Hf. unfold first_with. rewrite find_hd_filter, Hr. simpl. now left. }
    apply List.filter_In in Hin. tauto.
  - intros k Hk. rewrite Hf. unfold first_with. now rewrite Hk.
Qed.


(** ** Masks *)

Lemma mask_sum_cons (b : bool) (mask : list bool) :
  mask_sum (b :: mask) = ((if b then 1 else 0) + mask_sum mask)%nat.
Proof. unfold mask_sum. simpl. now destruct b. Qed.

Lemma rank_0 (mask : list bool) : rank mask 0 = 0%nat.
Proof. unfold rank. now rewrite take_0. Qed.

Lemma rank_S (b : bool) (mask : list bool) (i : nat) :
  rank (b :: mask) (S i) = ((if b then 1 else 0) + rank mask i)%nat.
Proof. unfold rank. simpl. apply mask_sum_cons. Qed.

Lemma select_length {A} (mask : list bool) (xs : list A) :
  length mask = length xs -> length (select mask xs) = mask_sum mask.
Proof.
  revert xs. induction mask as [|b mask IH]; intros [|x xs] Hlen; simpl in *;
    try reflexivity; try discriminate.
  rewrite mask_sum_cons. destruct b; simpl; rewrite IH by lia; reflexivity.
Qed.

Lemma select_lookup {A} (mask : list bool) (xs : list A) (i : nat) :
  length mask = length xs -> mask !! i = Some true ->
  select mask xs !! rank mask i = xs !! i.
Proof.
  revert xs i. induction mask as [|b mask IH]; intros [|x xs] i Hlen Hi; simpl in *;
    try discriminate.
  destruct i as [|i]; simpl in Hi.
  - injection Hi as ->. now rewrite rank_0.
  - rewrite rank_S. destruct b; simpl; apply IH; auto; lia.
Qed.

Lemma rank_lt (mask : list bool) (i : nat) :
  mask !! i = Some true -> (rank mask i < mask_sum mask)%nat.
Proof.
  revert i. induction mask as [|b mask IH]; intros [|i] Hi; simpl in *; try discriminate.
  - injection Hi as ->. rewrite rank_0, mask_sum_cons. lia.
  - rewrite rank_S, mask_sum_cons. apply IH in Hi. lia.
Qed.

(** ** [df.loc[mask, c] = values] *)

Lemma loc_assign_rows_Some (mask : list bool) (c : string) (values : list float)
    (rs : list (gmap string cell)) :
  length mask = length rs -> length values = mask_sum mask ->
  is_Some (loc_assign_rows mask c values rs).
Proof.
  revert mask values. induction rs as [|r rs IH]; intros [|b mask] values Hlen Hv;
    simpl in *; try discriminate.
  - destruct values; [eauto | discriminate].
  - rewrite mask_sum_cons in Hv. destruct b.
    + destruct values as [|v values]; [discriminate|].
      destruct (IH mask values) as [out ->]; [lia | simpl in *; lia | eauto].
    + destruct (IH mask values) as [out ->]; [lia | simpl in *; lia | eauto].
Qed.

Lemma loc_assign_rows_lookup (mask : list bool) (c : string) (values : list float)
    (rs out : list (gmap string cell)) (i : nat) (r : gmap string cell) :
  loc_assign_rows mask c values rs = Some out ->
  length mask = length rs ->
  rs !! i = Some r ->
  exists b : bool, mask !! i = Some b /\
    if b then exists v, values !! rank mask i = Some v /\ out !! i = Some (<[c := CFloat v]> r)
    else out !! i = Some r.
Proof.
  revert mask values out i. induction rs as [|r0 rs IH]; intros [|b mask] values out i Hout Hlen Hi;
    simpl in *; try discriminate.
  destruct b.
  - destruct values as [|v values]; [discriminate|].
    destruct (loc_assign_rows mask c values rs) as [out'|] eqn:E; [|discriminate].
    injection Hout as <-. destruct i as [|i]; simpl in *.
    + injection Hi as ->. exists true. split; [reflexivity|]. exists v. auto.
    + destruct (IH mask values out' i E ltac:(lia) Hi) as (b & Hb & Hrest).
      exists b. split; [exact Hb|]. destruct b; [|exact Hrest].
      destruct Hrest as (v' & Hv' & Ho). exists v'. split; [exact Hv' | exact Ho].
  - destruct (loc_assign_rows mask c values rs) as [out'|] eqn:E; [|discriminate].
    injection Hout as <-. destruct i as [|i]; simpl in *.
    + injection Hi as ->. exists false. auto.
    + destruct (IH mask values out' i E ltac:(lia) Hi) as (b & Hb & Hrest).
      exists b. split; [exact Hb|]. destruct b; [|exact Hrest].
      destruct Hrest as (v' & Hv' & Ho). exists v'. split; [exact Hv' | exact Ho].
Qed.

(** ** Columns of a frame *)

Section Columns.
Context `{Pandas}.

Lemma numeric_column_length (c : string) (df : DataFrame) :
  length (numeric_column c df) = length (rows df).
Proof. unfold numeric_column, column. now rewrite !length_map. Qed.

Lemma numeric_column_lookup (c : string) (df : DataFrame) (i : nat) (r : gmap string cell) :
  rows df !! i = Some r -> numeric_column c df !! i = Some (numeric_cell (cell_at r c)).
Proof.
  intros Hr. unfold numeric_column, column, numeric_cell.
  rewrite !list_lookup_fmap, Hr. reflexivity.
Qed.

Lemma valid_mask_of_length (xs ys : list float) :
  length xs = length ys -> length (valid_mask_of xs ys) = length xs.
Proof.
  revert ys. induction xs as [|x xs IH]; intros [|y ys] Hlen; simpl in *;
    try reflexivity; try discriminate.
  rewrite IH by lia. reflexivity.
Qed.

Lemma valid_mask_of_lookup (xs ys : list float) (i : nat) (x y : float) :
  xs !! i = Some x -> ys !! i = Some y ->
  valid_mask_of xs ys !! i = Some (valid_pair x y).
Proof.
  revert ys i. induction xs as [|x0 xs IH]; intros [|y0 ys] [|i] Hx Hy; simpl in *;
    try discriminate.
  - now injection Hx as ->; injection Hy as ->.
  - now apply IH.
Qed.

End Columns.

Lemma valid_pair_false_iff (x y : float) :
  valid_pair x y = false <->
  (x =? 0)%float = true \/ (y =? 0)%float = true \/ is_nan x = true \/ is_nan y = true.
Proof.
  unfold valid_pair, PyFloat.neb.
  destruct (x =? 0)%float, (y =? 0)%float, (is_nan x), (is_nan y); simpl; intuition congruence.
Qed.

Lemma rstrip_all_space (s : string) : PyStr.all_space s = true -> PyStr.rstrip s = "".
Proof.
  induction s as [|a s IH]; simpl; [reflexivity|].
  intros [Ha Hs]%andb_true_iff. now rewrite (IH Hs), Ha.
Qed.

Lemma lstrip_all_space (s : string) : PyStr.all_space s = true -> PyStr.lstrip s = "".
Proof.
  induction s as [|a s IH]; simpl; [reflexivity|].
  intros [Ha Hs]%andb_true_iff. rewrite Ha. auto.
Qed.

Lemma strip_all_space (s : string) : PyStr.all_space s = true -> PyStr.strip s = "".
Proof. intros Hs. unfold PyStr.strip. now rewrite (lstrip_all_space s Hs). Qed.

Section Convert.
Context `{Pandas} `{PyProj}.

Lemma numeric_cell_blank (s : string) :
  PyStr.all_space s = true -> is_nan (numeric_cell (CStr s)) = true.
Proof. intros Hs. unfold numeric_cell. simpl. now rewrite (strip_all_space s Hs). Qed.

Lemma blank_coordinates_rows (df : DataFrame) :
  rows (blank_coordinates df) = map blank_row (rows df).
Proof. unfold blank_coordinates, set_column. simpl. now rewrite map_map. Qed.

Lemma blank_row_other (r : gmap string cell) (c : string) :
  c <> "latitude" -> c <> "longitude" -> blank_row r !! c = r !! c.
Proof. intros H1 H2. unfold blank_row. now rewrite !lookup_insert_ne by congruence. Qed.

Lemma blank_row_latitude (r : gmap string cell) : blank_row r !! "latitude" = Some NaN.
Proof. unfold blank_row. rewrite lookup_insert_ne by discriminate. apply lookup_insert_eq. Qed.

Lemma blank_row_longitude (r : gmap string cell) : blank_row r !! "longitude" = Some NaN.
Proof. unfold blank_row. apply lookup_insert_eq. Qed.

(** The three ways [convert_coordinates_batch] ends on a frame with both
    coordinate columns. *)
Lemma convert_coordinates_batch_unfold (df : DataFrame) (year : Z) :
  has_column "GeoKoordinataX" df = true ->
  has_column "GeoKoordinataY" df = true ->
  let xs := numeric_column "GeoKoordinataX" df in
  let ys := numeric_column "GeoKoordinataY" df in
  let mask := valid_mask_of xs ys in
  convert_coordinates_batch df year =
    if (mask_sum mask =? 0)%nat then (blank_coordinates df, [MsgNoValidCoordinates])
    else match transform (select mask ys) (select mask xs) with
         | inl e => (blank_coordinates df, [MsgTransformError e])
         | inr (lons, lats) =>
             match loc_assign mask "longitude" lons (blank_coordinates df) with
             | None => (blank_coordinates df, [MsgTransformError "ValueError"])
             | Some df1 =>
                 match loc_assign mask "latitude" lats df1 with
                 | None => (df1, [MsgTransformError "ValueError"])
                 | Some df2 => (df2, [])
                 end
             end
         end.
Proof. intros HX HY. unfold convert_coordinates_batch. rewrite HX, HY. reflexivity. Qed.

Lemma mask_length (df : DataFrame) :
  length (valid_mask_of (numeric_column "GeoKoordinataX" df) (numeric_column "GeoKoordinataY" df))
  = length (rows df).
Proof.
  rewrite valid_mask_of_length; rewrite !numeric_column_length; reflexivity.
Qed.

Lemma mask_lookup (df : DataFrame) (i : nat) (r : gmap string cell) :
  rows df !! i = Some r ->
  valid_mask_of (numeric_column "GeoKoordinataX" df) (numeric_column "GeoKoordinataY" df) !! i
  = Some (valid_pair (numeric_cell (cell_at r "GeoKoordinataX"))
                     (numeric_cell (cell_at r "GeoKoordinataY"))).
Proof.
  intros Hr. apply valid_mask_of_lookup; now apply numeric_column_lookup.
Qed.

Lemma loc_assign_lookup (mask : list bool) (c : string) (values : list float)
    (df df' : DataFrame) (i : nat) (r : gmap string cell) :
  loc_assign mask c values df = Some df' ->
  length mask = length (rows df) ->
  rows df !! i = Some r ->
  exists b : bool, mask !! i = Some b /\
    if b then exists v, values !! rank mask i = Some v /\ rows df' !! i = Some (<[c := CFloat v]> r)
    else rows df' !! i = Some r.
Proof.
  unfold loc_assign. destruct (loc_assign_rows mask c values (rows df)) as [out|] eqn:E;
    [|discriminate].
  intros [= <-] Hlen Hr. simpl. eapply loc_assign_rows_lookup; eauto.
Qed.

Lemma loc_assign_rows_length (mask : list bool) (c : string) (values : list float)
    (rs out : list (gmap string cell)) :
  loc_assign_rows mask c values rs = Some out -> length out = length rs.
Proof.
  revert mask values out. induction rs as [|r rs IH]; intros mask values out; simpl.
  - destruct mask, values; intros [= <-] || discriminate; reflexivity.
  - destruct mask as [|[|] mask].
    + destruct (loc_assign_rows [] c values rs) eqn:E; [|discriminate].
      intros [= <-]. simpl. f_equal. eauto.
    + destruct values as [|v values]; [discriminate|].
      destruct (loc_assign_rows mask c values rs) eqn:E; [|discriminate].
      intros [= <-]. simpl. f_equal. eauto.
    + destruct (loc_assign_rows mask c values rs) eqn:E; [|discriminate].
      intros [= <-]. simpl. f_equal. eauto.
Qed.

Lemma loc_assign_length (mask : list bool) (c : string) (values : list float)
    (df df' : DataFrame) :
  loc_assign mask c values df = Some df' -> length (rows df') = length (rows df).
Proof.
  unfold loc_assign. destruct (loc_assign_rows mask c values (rows df)) eqn:E; [|discriminate].
  intros [= <-]. simpl. eapply loc_assign_rows_length; eauto.
Qed.

Lemma loc_assign_is_Some (mask : list bool) (c : string) (values : list float) (df : DataFrame) :
  length mask = length (rows df) -> length values = mask_sum mask ->
  is_Some (loc_assign mask c values df).
Proof.
  intros H1 H2. unfold loc_assign.
  destruct (loc_assign_rows_Some mask c values (rows df) H1 H2) as [out ->]. eauto.
Qed.


Lemma convert_row_spec (df : DataFrame) (year : Z) (i : nat)
    (r : gmap string cell) :
  has_column "GeoKoordinataX" df = true ->
  has_column "GeoKoordinataY" df = true ->
  rows df !! i = Some r ->
  let x := numeric_cell (cell_at r "GeoKoordinataX") in
  let y := numeric_cell (cell_at r "GeoKoordinataY") in
  let xs := numeric_column "GeoKoordinataX" df in
  let ys := numeric_column "GeoKoordinataY" df in
  let mask := valid_mask_of xs ys in
  exists r', rows (fst (convert_coordinates_batch df year)) !! i = Some r'
    /\ (forall c, c <> "latitude" -> c <> "longitude" -> r' !! c = r !! c)
    /\ (valid_pair x y = false <->
        (x =? 0)%float = true \/ (y =? 0)%float = true \/ is_nan x = true \/ is_nan y = true)
    /\ (forall s, PyStr.all_space s = true -> is_nan (numeric_cell (CStr s)) = true)
    /\ (valid_pair x y = false ->
        mask !! i = Some false
        /\ r' !! "latitude" = Some NaN /\ r' !! "longitude" = Some NaN)
    /\ (valid_pair x y = true ->
        select mask xs !! rank mask i = Some x
        /\ select mask ys !! rank mask i = Some y
        /\ forall lons lats,
             transform (select mask ys) (select mask xs) = inr (lons, lats) ->
             length lons = mask_sum mask -> length lats = mask_sum mask ->
             exists lon lat,
               lons !! rank mask i = Some lon /\ lats !! rank mask i = Some lat
               /\ r' !! "longitude" = Some (CFloat lon)
               /\ r' !! "latitude" = Some (CFloat lat)).
Proof.
  intros HX HY Hr x y xs ys mask.
  pose proof (valid_pair_false_iff x y) as Hiff.
  pose proof (mask_length df) as Hlen. fold xs ys mask in Hlen.
  pose proof (mask_lookup df i r Hr) as Hmask. fold x y xs ys mask in Hmask.
  assert (Hb : rows (blank_coordinates df) !! i = Some (blank_row r)).
  { rewrite blank_coordinates_rows, list_lookup_fmap, Hr. reflexivity. }
  assert (Hlenb : length mask = length (rows (blank_coordinates df))).
  { rewrite blank_coordinates_rows, length_map. exact Hlen. }
  assert (Hsel : valid_pair x y = true ->
                 select mask xs !! rank mask i = Some x /\ select mask ys !! rank mask i = Some y).
  { intros Hv. rewrite Hv in Hmask.
    rewrite !select_lookup; auto.
    - split; apply numeric_column_lookup; exact Hr.
    - unfold ys. rewrite numeric_column_length. exact Hlen.
    - unfold xs. rewrite numeric_column_length. exact Hlen. }
  rewrite (convert_coordinates_batch_unfold df year HX HY). fold xs ys mask.
  assert (Hblank : exists r', rows (blank_coordinates df) !! i = Some r'
    /\ (forall c, c <> "latitude" -> c <> "longitude" -> r' !! c = r !! c)
    /\ r' !! "latitude" = Some NaN /\ r' !! "longitude" = Some NaN).
  { exists (blank_row r). split; [exact Hb|]. split; [apply blank_row_other|].
    split; [apply blank_row_latitude | apply blank_row_longitude]. }
  destruct (mask_sum mask =? 0)%nat eqn:Hsum.
  { (* no valid pair at all *)
    destruct Hblank as (r' & Hr' & Hother & Hlat & Hlon). exists r'. simpl.
    split; [exact Hr'|]. split; [exact Hother|]. split; [exact Hiff|].
    split; [apply numeric_cell_blank|]. split.
    - intros Hv. rewrite Hv in Hmask. auto.
    - intros Hv. exfalso. rewrite Hv in Hmask. apply rank_lt in Hmask.
      apply Nat.eqb_eq in Hsum. lia. }
  destruct (transform (select mask ys) (select mask xs)) as [e|[lons lats]] eqn:Ht.
  { (* the transformer raised *)
    destruct Hblank as (r' & Hr' & Hother & Hlat & Hlon). exists r'. simpl.
    split; [exact Hr'|]. split; [exact Hother|]. split; [exact Hiff|].
    split; [apply numeric_cell_blank|]. split.
    - intros Hv. rewrite Hv in Hmask. auto.
    - intros Hv. split; [apply Hsel, Hv|]. split; [apply Hsel, Hv|]. discriminate. }
  destruct (loc_assign mask "longitude" lons (blank_coordinates df)) as [df1|] eqn:E1.
  2:{ (* the longitudes do not fit *)
    destruct Hblank as (r' & Hr' & Hother & Hlat & Hlon). exists r'. simpl.
    split; [exact Hr'|]. split; [exact Hother|]. split; [exact Hiff|].
    split; [apply numeric_cell_blank|]. split.
    - intros Hv. rewrite Hv in Hmask. auto.
    - intros Hv. split; [apply Hsel, Hv|]. split; [apply Hsel, Hv|].
      intros lons' lats' [= <- <-] Hl1 Hl2. exfalso.
      destruct (loc_assign_is_Some mask "longitude" lons (blank_coordinates df) Hlenb Hl1)
        as [? Hs]. congruence. }
  destruct (loc_assign_lookup _ _ _ _ _ i (blank_row r) E1 Hlenb Hb) as (b1 & Hb1 & Hrow1).
  rewrite Hmask in Hb1. injection Hb1 as <-.
  assert (Hlen1 : length mask = length (rows df1)).
  { rewrite (loc_assign_length _ _ _ _ _ E1). exact Hlenb. }
  destruct (loc_assign mask "latitude" lats df1) as [df2|] eqn:E2.
  2:{ (* the latitudes do not fit *)
    destruct (valid_pair x y) eqn:Hv.
    - destruct Hrow1 as (lon & Hlon & Hrow1). exists (<["longitude" := CFloat lon]> (blank_row r)).
      simpl. split; [exact Hrow1|]. split.
      { intros c Hc1 Hc2. rewrite lookup_insert_ne by congruence. now apply blank_row_other. }
      split; [exact Hiff|]. split; [apply numeric_cell_blank|].
      split; [discriminate|].
      intros _. split; [now apply Hsel|]. split; [now apply Hsel|].
      intros lons' lats' [= <- <-] Hl1 Hl2. exfalso.
      destruct (loc_assign_is_Some mask "latitude" lats df1 Hlen1 Hl2) as [? Hs]. congruence.
    - exists (blank_row r). simpl. split; [exact Hrow1|]. split; [apply blank_row_other|].
      split; [exact Hiff|]. split; [apply numeric_cell_blank|].
      split; [|discriminate].
      intros _. split; [exact Hmask|].
      split; [apply blank_row_latitude | apply blank_row_longitude]. }
  (* both assignments went through *)
  destruct (valid_pair x y) eqn:Hv.
  - destruct Hrow1 as (lon & Hlon & Hrow1).
    destruct (loc_assign_lookup _ _ _ _ _ i _ E2 Hlen1 Hrow1) as (b2 & Hb2 & Hrow2).
    rewrite Hmask in Hb2. injection Hb2 as <-.
    destruct Hrow2 as (lat & Hlat & Hrow2).
    exists (<["latitude" := CFloat lat]> (<["longitude" := CFloat lon]> (blank_row r))).
    simpl. split; [exact Hrow2|]. split.
    { intros c Hc1 Hc2. rewrite !lookup_insert_ne by congruence. now apply blank_row_other. }
    split; [exact Hiff|]. split; [apply numeric_cell_blank|].
    split; [discriminate|].
    intros _. split; [now apply Hsel|]. split; [now apply Hsel|].
    intros lons' lats' [= <- <-] Hl1 Hl2. exists lon, lat.
    split; [exact Hlon|]. split; [exact Hlat|]. split.
    + rewrite lookup_insert_ne by discriminate. apply lookup_insert_eq.
    + apply lookup_insert_eq.
  - destruct (loc_assign_lookup _ _ _ _ _ i _ E2 Hlen1 Hrow1) as (b2 & Hb2 & Hrow2).
    rewrite Hmask in Hb2. injection Hb2 as <-.
    exists (blank_row r). simpl. split; [exact Hrow2|]. split; [apply blank_row_other|].
    split; [exact Hiff|]. split; [apply numeric_cell_blank|].
    split; [|discriminate].
    intros _. split; [exact Hmask|].
    split; [apply blank_row_latitude | apply blank_row_longitude].
Qed.

End Convert.

Section Pipeline.
Context `{Pandas} `{PyProj}.

(** ** The year filter *)

Lemma process_file_not_selected (cfg : Config) (csv_file : File) (year : Z) :
  year_selected cfg year = false -> process_file cfg csv_file year = (None, []).
Proof.
  unfold year_selected, process_file. intros Hsel.
  destruct (negb (bool_decide (SPECIFIC_YEARS cfg = []))
            && negb (bool_decide (year ∈ SPECIFIC_YEARS cfg))); [reflexivity|].
  destruct (match START_YEAR cfg with Some s => (year <? s)%Z | None => false end); [reflexivity|].
  destruct (match END_YEAR cfg with Some e => (e <? year)%Z | None => false end); [reflexivity|].
  discriminate.
Qed.

Lemma process_file_selected (cfg : Config) (csv_file : File) (year : Z) :
  year_selected cfg year = true ->
  process_file cfg csv_file year =
    match read_any_encoding csv_file with
    | None => (None, [MsgProcessing (file_name csv_file) year; MsgCouldNotRead])
    | Some (_, df0) =>
        let df1 := set_column "year" (CInt year) df0 in
        if has_column "GeoKoordinataX" df1 && has_column "GeoKoordinataY" df1 then
          let kept := dropna ["latitude"; "longitude"] (fst (convert_coordinates_batch df1 year)) in
          let invalid := List.filter outside_bounds (rows kept) in
          (Some kept,
           [MsgProcessing (file_name csv_file) year; MsgConverting]
           ++ snd (convert_coordinates_batch df1 year)
           ++ [MsgLoaded (length (rows kept)) (length (rows df1) - length (rows kept))]
           ++ (if (0 <? length invalid)%nat then [MsgBoundsWarning (length invalid)] else []))
        else (Some df1, [MsgProcessing (file_name csv_file) year;
                         MsgLoadedNoCoordinates (length (rows df1))])
    end.
Proof.
  unfold year_selected, process_file. intros Hsel.
  destruct (negb (bool_decide (SPECIFIC_YEARS cfg = []))
            && negb (bool_decide (year ∈ SPECIFIC_YEARS cfg))); [discriminate|].
  destruct (match START_YEAR cfg with Some s => (year <? s)%Z | None => false end); [discriminate|].
  destruct (match END_YEAR cfg with Some e => (e <? year)%Z | None => false end); [discriminate|].
  destruct (read_any_encoding csv_file) as [[enc df0]|]; [|reflexivity].
  cbv zeta.
  destruct (has_column "GeoKoordinataX" (set_column "year" (CInt year) df0)
            && has_column "GeoKoordinataY" (set_column "year" (CInt year) df0)); [|reflexivity].
  destruct (convert_coordinates_batch (set_column "year" (CInt year) df0) year) as [df2 lg].
  reflexivity.
Qed.

(** A year outside the range is skipped whether or not [SPECIFIC_YEARS]
    lists it. *)
Lemma year_selected_range (cfg : Config) (year : Z) :
  year_selected cfg year = true ->
  (forall s, START_YEAR cfg = Some s -> s <= year)
  /\ (forall e, END_YEAR cfg = Some e -> year <= e)
  /\ (SPECIFIC_YEARS cfg = [] \/ year ∈ SPECIFIC_YEARS cfg).
Proof.
  unfold year_selected. intros [[H1 H2]%andb_true_iff H3]%andb_true_iff.
  split; [|split].
  - intros s Hs. rewrite Hs in H2. apply negb_true_iff, Z.ltb_ge in H2. exact H2.
  - intros e He. rewrite He in H3. apply negb_true_iff, Z.ltb_ge in H3. exact H3.
  - apply negb_true_iff, andb_false_iff in H1.
    destruct H1 as [H1|H1]; apply negb_false_iff, bool_decide_eq_true in H1; auto.
Qed.

(** C3. With SPECIFIC_YEARS = [2010] and the range 2015..2020, the file
    of year 2010 is not processed: [process_file] returns nothing for it, at
    the range test, although 2010 is in the explicit set. *)
Theorem specific_year_outside_range_is_skipped (csv_file : File) :
  year_selected Demo.year_2010_and_range 2010 = false
  /\ process_file Demo.year_2010_and_range csv_file 2010 = (None, []).
Proof.
  assert (Hsel : year_selected Demo.year_2010_and_range 2010 = false) by (vm_compute; reflexivity).
  split; [exact Hsel | now apply process_file_not_selected].
Qed.

(** ** The file loop *)

Lemma process_all_none (cfg : Config) (csv_files : list File) :
  (forall csv_file year, In csv_file csv_files ->
     get_year_from_filename (file_name csv_file) = Some year ->
     fst (process_file cfg csv_file year) = None) ->
  fst (fst (process_all cfg csv_files)) = [].
Proof.
  induction csv_files as [|f l IH]; intros Hall; simpl; [reflexivity|].
  destruct (process_all cfg l) as [[dfs ys] lg] eqn:E. simpl in IH.
  rewrite IH in * by (intros; eapply Hall; eauto; now right).
  destruct (get_year_from_filename (file_name f)) as [y|] eqn:Hy; [|reflexivity].
  specialize (Hall f y (or_introl eq_refl) Hy).
  destruct (process_file cfg f y) as [[df|] lg']; [discriminate | reflexivity].
Qed.

(** C5. When no file is processed (the folder is missing, or no name in
    it matches pn*.csv, or every matching file has no year in its name or
    gives no frame), [merge_all_files] returns False and writes nothing. *)
Theorem merge_all_files_nothing_processed (cfg : Config) (data_folder : option (list File)) :
  (forall folder csv_file year,
     data_folder = Some folder ->
     In csv_file (sorted (glob_pn_csv folder)) ->
     get_year_from_filename (file_name csv_file) = Some year ->
     fst (process_file cfg csv_file year) = None) ->
  returned (merge_all_files cfg data_folder) = false
  /\ written (merge_all_files cfg data_folder) = None.
Proof.
  intros Hall. destruct data_folder as [folder|]; [|split; reflexivity].
  unfold merge_all_files.
  destruct (sorted (glob_pn_csv folder)) as [|f l] eqn:Hfiles; [split; reflexivity|].
  pose proof (process_all_none cfg (f :: l)) as Hnone.
  destruct (process_all cfg (f :: l)) as [[dfs ys] lg].
  simpl in Hnone. rewrite Hnone.
  - split; reflexivity.
  - intros csv_file year Hin Hy. eapply Hall; eauto. now rewrite Hfiles.
Qed.

End Pipeline.


Section Transformer.
Context {pandas : Pandas} {pyproj : PyProj}.

(** C2, amended. In a frame with both coordinate columns, a pair with a
    component that is zero or fails numeric coercion (a blank or
    whitespace-only cell coerces to NaN) is left out of the batch and gets
    missing latitude and longitude; every other pair is in the batch, and
    when the transformer returns one longitude and one latitude per pair
    of the batch, the pair receives the ones at its position, on its own
    row; the other cells of a row are never touched. *)
Theorem invalid_pairs_stay_missing (df : DataFrame) (year : Z) (i : nat)
    (r : gmap string cell) :
  has_column "GeoKoordinataX" df = true ->
  has_column "GeoKoordinataY" df = true ->
  rows df !! i = Some r ->
  let x := numeric_cell (cell_at r "GeoKoordinataX") in
  let y := numeric_cell (cell_at r "GeoKoordinataY") in
  let xs := numeric_column "GeoKoordinataX" df in
  let ys := numeric_column "GeoKoordinataY" df in
  let mask := valid_mask_of xs ys in
  (forall s, PyStr.all_space s = true -> is_nan (numeric_cell (CStr s)) = true)
  /\ exists r', rows (fst (convert_coordinates_batch df year)) !! i = Some r'
    /\ (forall c, c <> "latitude" -> c <> "longitude" -> r' !! c = r !! c)
    /\ ((x =? 0)%float = true \/ (y =? 0)%float = true \/ is_nan x = true \/ is_nan y = true ->
        mask !! i = Some false
        /\ r' !! "latitude" = Some NaN /\ r' !! "longitude" = Some NaN)
    /\ (~ ((x =? 0)%float = true \/ (y =? 0)%float = true \/ is_nan x = true \/ is_nan y = true) ->
        mask !! i = Some true
        /\ forall lons lats,
             transform (select mask ys) (select mask xs) = inr (lons, lats) ->
             length lons = mask_sum mask -> length lats = mask_sum mask ->
             exists lon lat,
               lons !! rank mask i = Some lon /\ lats !! rank mask i = Some lat
               /\ r' !! "longitude" = Some (CFloat lon)
               /\ r' !! "latitude" = Some (CFloat lat)).
Proof.
  intros HX HY Hr x y xs ys mask.
  split; [apply numeric_cell_blank|].
  destruct (convert_row_spec df year i r HX HY Hr)
    as (r' & Hr' & Hother & Hiff & _ & Hinvalid & Hvalid).
  fold x y xs ys mask in Hiff, Hinvalid, Hvalid.
  exists r'. split; [exact Hr'|]. split; [exact Hother|]. split.
  - intros Hbad. apply Hinvalid, Hiff, Hbad.
  - intros Hgood.
    assert (Hv : valid_pair x y = true).
    { destruct (valid_pair x y) eqn:E; [reflexivity|]. exfalso. apply Hgood, Hiff. reflexivity. }
    split.
    + pose proof (mask_lookup df i r Hr) as Hm. fold x y xs ys mask in Hm. now rewrite Hv in Hm.
    + apply Hvalid, Hv.
Qed.

(** C6. For a valid pair, the first operand of the transform call (the
    easting, from which the longitude is computed) holds the row's Y value
    and the second (the northing, for the latitude) its X value, both at
    the row's position in the batch: the result depends on the transformer
    only through its value at (Y values, X values), and with a transformer
    that maps each point [(easting, northing)] on its own the row gets the
    longitude and latitude of the point (Y, X). *)
Theorem easting_is_Y_northing_is_X (df : DataFrame) (year : Z) (i : nat)
    (r : gmap string cell) :
  has_column "GeoKoordinataX" df = true ->
  has_column "GeoKoordinataY" df = true ->
  rows df !! i = Some r ->
  let x := numeric_cell (cell_at r "GeoKoordinataX") in
  let y := numeric_cell (cell_at r "GeoKoordinataY") in
  let xs := numeric_column "GeoKoordinataX" df in
  let ys := numeric_column "GeoKoordinataY" df in
  let mask := valid_mask_of xs ys in
  let eastings := select mask ys in
  let northings := select mask xs in
  valid_pair x y = true ->
  eastings !! rank mask i = Some y
  /\ northings !! rank mask i = Some x
  /\ (forall other : PyProj,
        @transform other eastings northings = @transform pyproj eastings northings ->
        convert_coordinates_batch (pyproj := other) df year
        = convert_coordinates_batch (pyproj := pyproj) df year)
  /\ (forall point : float -> float -> float * float,
        (forall es ns,
           @transform pyproj es ns
           = inr (zip_with (fun e n => fst (point e n)) es ns,
                  zip_with (fun e n => snd (point e n)) es ns)) ->
        exists r', rows (fst (convert_coordinates_batch df year)) !! i = Some r'
          /\ r' !! "longitude" = Some (CFloat (fst (point y x)))
          /\ r' !! "latitude" = Some (CFloat (snd (point y x)))).
Proof.
  intros HX HY Hr x y xs ys mask eastings northings Hv.
  destruct (convert_row_spec df year i r HX HY Hr)
    as (r' & Hr' & _ & _ & _ & _ & Hvalid).
  fold x y in Hvalid. destruct (Hvalid Hv) as (Hx & Hy & Hout). clear Hvalid.
  fold xs ys mask in Hx, Hy, Hout. fold eastings in Hy, Hout. fold northings in Hx, Hout.
  split; [exact Hy|]. split; [exact Hx|]. split.
  - intros other Hsame.
    pose proof (@convert_coordinates_batch_unfold _ other df year HX HY) as Hother.
    pose proof (@convert_coordinates_batch_unfold _ pyproj df year HX HY) as Hthis.
    cbv zeta in Hother, Hthis. fold xs ys mask eastings northings in Hother, Hthis.
    rewrite Hother, Hthis, Hsame. reflexivity.
  - intros point Hpoint.
    pose proof (mask_length df) as Hm.
    pose proof (numeric_column_length "GeoKoordinataX" df) as Hnx.
    pose proof (numeric_column_length "GeoKoordinataY" df) as Hny.
    fold xs ys mask in Hm, Hnx, Hny.
    assert (Hlx : length northings = mask_sum mask) by (apply select_length; lia).
    assert (Hly : length eastings = mask_sum mask) by (apply select_length; lia).
    destruct (Hout _ _ (Hpoint _ _)) as (lon & lat & Hlon & Hlat & Hrlon & Hrlat).
    + rewrite length_zip_with. lia.
    + rewrite length_zip_with. lia.
    + exists r'. split; [exact Hr'|].
      rewrite lookup_zip_with, Hy, Hx in Hlon, Hlat. simpl in Hlon, Hlat.
      injection Hlon as <-. injection Hlat as <-. auto.
Qed.

End Transformer.


Section Files.
Context `{Pandas} `{PyProj}.

Lemma dropna_blank (df : DataFrame) :
  rows (dropna ["latitude"; "longitude"] (blank_coordinates df)) = [].
Proof.
  unfold dropna; cbn [rows]. rewrite blank_coordinates_rows.
  induction (rows df) as [|r rs IH]; simpl; [reflexivity|].
  unfold cell_at at 1. rewrite blank_row_latitude. simpl. exact IH.
Qed.

(** C4, amended. When the transformer raises on a file that has both
    coordinate columns and at least one valid pair, the error is caught and
    logged, every row of the file keeps missing latitude and longitude, and
    the file is not discarded ([process_file] returns a frame, which joins the
    frames to merge); but the missing-coordinate filter then drops every one
    of its rows, so the frame is empty and none of the file's rows reaches the
    merged dataset. *)
Theorem transform_failure_drops_every_row (cfg : Config) (csv_file : File) (year : Z)
    (encoding : string) (df0 : DataFrame) (e : exn) :
  year_selected cfg year = true ->
  read_any_encoding csv_file = Some (encoding, df0) ->
  let df1 := set_column "year" (CInt year) df0 in
  has_column "GeoKoordinataX" df1 = true ->
  has_column "GeoKoordinataY" df1 = true ->
  let xs := numeric_column "GeoKoordinataX" df1 in
  let ys := numeric_column "GeoKoordinataY" df1 in
  let mask := valid_mask_of xs ys in
  mask_sum mask <> 0%nat ->
  transform (select mask ys) (select mask xs) = inl e ->
  let converted := fst (convert_coordinates_batch df1 year) in
  length (rows converted) = length (rows df0)
  /\ (forall r, In r (rows converted) ->
        r !! "latitude" = Some NaN /\ r !! "longitude" = Some NaN)
  /\ exists df log,
       process_file cfg csv_file year = (Some df, log)
       /\ In (MsgTransformError e) log
       /\ In (MsgLoaded 0 (length (rows df0))) log
       /\ rows df = []
       /\ forall rest,
            get_year_from_filename (file_name csv_file) = Some year ->
            fst (fst (process_all cfg (csv_file :: rest)))
            = df :: fst (fst (process_all cfg rest)).
Proof.
  intros Hsel Hread df1 HX HY xs ys mask Hsum Ht converted.
  assert (Hconv : convert_coordinates_batch df1 year
                  = (blank_coordinates df1, [MsgTransformError e])).
  { rewrite (convert_coordinates_batch_unfold df1 year HX HY). fold xs ys mask.
    apply Nat.eqb_neq in Hsum. rewrite Hsum, Ht. reflexivity. }
  assert (Hlen1 : length (rows df1) = length (rows df0)).
  { unfold df1, set_column. cbn [rows]. apply length_map. }
  unfold converted. rewrite Hconv. cbn [fst].
  split; [|split].
  - rewrite blank_coordinates_rows, length_map. exact Hlen1.
  - intros r Hr. rewrite blank_coordinates_rows in Hr.
    apply List.in_map_iff in Hr as (r0 & <- & _).
    split; [apply blank_row_latitude | apply blank_row_longitude].
  - assert (Hpf : process_file cfg csv_file year
             = (Some (dropna ["latitude"; "longitude"] (blank_coordinates df1)),
                [MsgProcessing (file_name csv_file) year; MsgConverting;
                 MsgTransformError e; MsgLoaded 0 (length (rows df0))])).
    { rewrite (process_file_selected cfg csv_file year Hsel), Hread.
      fold df1. cbv zeta. rewrite HX, HY, Hconv. cbn [fst snd andb].
      rewrite dropna_blank, Hlen1. cbn [length List.filter app Nat.ltb Nat.leb].
      rewrite Nat.sub_0_r. reflexivity. }
    eexists _, _. split; [exact Hpf|].
    split; [simpl; tauto|]. split; [simpl; tauto|]. split; [apply dropna_blank|].
    intros rest Hy. simpl. rewrite Hy, Hpf.
    destruct (process_all cfg rest) as [[dfs ys'] lg]. reflexivity.
Qed.

(** C7. For a processed file with coordinate columns, the frame that
    [process_file] returns is the frame left by the missing-coordinate
    filter, with every row outside the Slovenia bounds still in it; such a
    row only adds a warning with the number of rows flagged. In any merge the
    row is part of the concatenation with its cells as they were, and it is in
    the merged output unless an earlier row has its (year, id) key. *)
Theorem bounds_check_only_warns (cfg : Config) (csv_file : File) (year : Z)
    (encoding : string) (df0 : DataFrame) :
  year_selected cfg year = true ->
  read_any_encoding csv_file = Some (encoding, df0) ->
  let df1 := set_column "year" (CInt year) df0 in
  has_column "GeoKoordinataX" df1 = true ->
  has_column "GeoKoordinataY" df1 = true ->
  let kept := dropna ["latitude"; "longitude"] (fst (convert_coordinates_batch df1 year)) in
  let flagged := length (List.filter outside_bounds (rows kept)) in
  exists log,
    process_file cfg csv_file year = (Some kept, log)
    /\ (forall r, In r (rows kept) -> outside_bounds r = true ->
          (0 < flagged)%nat /\ In (MsgBoundsWarning flagged) log)
    /\ (forall dfs r, In kept dfs -> In r (rows kept) ->
          let merged_columns := columns (pd_concat dfs) in
          let r' := reindex merged_columns r in
          In r' (rows (pd_concat dfs))
          /\ (forall c, In c (columns kept) -> cell_at r' c = cell_at r c)
          /\ (List.find (fun r'' => same_key (key_of ["year"; "ZaporednaStevilkaPN"] r'')
                                             (key_of ["year"; "ZaporednaStevilkaPN"] r'))
                (rows (pd_concat dfs)) = Some r' ->
              In r' (rows (merge_frames dfs)))).
Proof.
  intros Hsel Hread df1 HX HY kept flagged.
  eexists. split; [|split].
  - rewrite (process_file_selected cfg csv_file year Hsel), Hread.
    fold df1. cbv zeta. rewrite HX, HY. cbn [andb]. fold kept. reflexivity.
  - intros r Hr Hout.
    assert (Hpos : (0 < flagged)%nat).
    { unfold flagged.
      assert (Hin : In r (List.filter outside_bounds (rows kept))) by (apply List.filter_In; auto).
      destruct (List.filter outside_bounds (rows kept)); [destruct Hin | simpl; lia]. }
    split; [exact Hpos|].
    fold flagged. apply Nat.ltb_lt in Hpos. rewrite Hpos.
    rewrite !in_app_iff. right. right. right. simpl. tauto.
  - intros dfs r Hdf Hr merged_columns r'. split; [|split].
    + apply pd_concat_In with (df := kept); assumption.
    + intros c Hc. apply reindex_cell_at. eapply concat_columns_In; eauto.
    + apply merge_frames_keeps_first.
Qed.

End Files.


(** ** The exporter *)

Section Exported.
Import CsvToJson.
Context `{Builtins} `{JsonGzip}.

Lemma row_get_absent (row : gmap string (option string)) (k : string) :
  row !! k = None -> row_get row k = Some "".
Proof. intros Hk. unfold row_get. now rewrite Hk. Qed.

Lemma convert_row_exportable (row : gmap string (option string)) :
  rectangular row ->
  match exportable row with
  | Some (lat, lon, y) =>
      exists o, convert_row row = Emit o
        /\ latitude o = py_round lat 6 /\ longitude o = py_round lon 6 /\ year o = y
        /\ KlasifikacijaNesrece o = row_get row "KlasifikacijaNesrece"
        /\ TipNesrece o = row_get row "TipNesrece"
        /\ VremenskeOkoliscine o = row_get row "VremenskeOkoliscine"
        /\ StanjePrometa o = row_get row "StanjePrometa"
        /\ StanjeVozisca o = row_get row "StanjeVozisca"
        /\ VNaselju o = row_get row "VNaselju"
        /\ TekstCesteNaselja o = row_get row "TekstCesteNaselja"
        /\ DatumPN o = row_get row "DatumPN"
        /\ UraPN o = row_get row "UraPN"
  | None => convert_row row = Skip
  end.
Proof.
  intros (Hlat & Hlon & Hyear). unfold exportable, convert_row.
  destruct (row_get row "latitude") as [s_lat|]; [|congruence].
  destruct (row_get row "longitude") as [s_lon|]; [|congruence].
  destruct (row_get row "year") as [s_year|]; [|congruence].
  destruct (py_float s_lat) as [lat|]; [|reflexivity].
  destruct (py_float s_lon) as [lon|]; [|reflexivity].
  destruct (py_int s_year) as [y|]; [|reflexivity].
  destruct (PyFloat.truthy lat && PyFloat.truthy lon); [|reflexivity].
  eexists. split; [reflexivity|]. simpl. repeat split; reflexivity.
Qed.

Lemma collect_rectangular (reader : list (gmap string (option string))) :
  Forall rectangular reader ->
  exists data, collect reader = inr data
    /\ map (fun o => (year o, latitude o, longitude o)) data
       = List.concat (map exported_triple reader).
Proof.
  induction 1 as [|row reader Hrow _ IH]; simpl; [eauto|].
  destruct IH as (data & Hdata & Htriples).
  pose proof (convert_row_exportable row Hrow) as Hspec.
  unfold exported_triple at 1.
  destruct (exportable row) as [[[lat lon] y]|].
  - destruct Hspec as (o & -> & Hl & Hn & Hy & _). rewrite Hdata.
    exists (o :: data). split; [reflexivity|]. simpl. now rewrite Hl, Hn, Hy, Htriples.
  - rewrite Hspec. eauto.
Qed.

(** C8. On the rows of a merged CSV (each with its latitude, longitude
    and year fields present), a row gives an object exactly when its latitude
    and longitude parse to non-zero floats and its year parses to an integer;
    the object carries the coordinates rounded to 6 digits, the year, and
    the nine descriptive fields, the empty string for an absent one; the
    export is written, and reading it back (granted that the consumer's
    decompress-and-parse inverts what was written) gives the (year, latitude,
    longitude) triples of exactly those rows, in order. *)
Theorem export_round_trip (reader : list (gmap string (option string))) :
  Forall rectangular reader ->
  (forall data, collect reader = inr data ->
     read_export (gzip_compress (json_dumps data)) = Some data) ->
  (forall row, In row reader ->
     ((exists o, convert_row row = Emit o) <-> is_Some (exportable row))
     /\ forall lat lon y, exportable row = Some (lat, lon, y) ->
          exists o, convert_row row = Emit o
            /\ latitude o = py_round lat 6 /\ longitude o = py_round lon 6 /\ year o = y
            /\ KlasifikacijaNesrece o = row_get row "KlasifikacijaNesrece"
            /\ TipNesrece o = row_get row "TipNesrece"
            /\ VremenskeOkoliscine o = row_get row "VremenskeOkoliscine"
            /\ StanjePrometa o = row_get row "StanjePrometa"
            /\ StanjeVozisca o = row_get row "StanjeVozisca"
            /\ VNaselju o = row_get row "VNaselju"
            /\ TekstCesteNaselja o = row_get row "TekstCesteNaselja"
            /\ DatumPN o = row_get row "DatumPN"
            /\ UraPN o = row_get row "UraPN")
  /\ (forall row k, row !! k = None -> row_get row k = Some "")
  /\ exists file data,
       convert_csv_to_compressed_json reader = inr file
       /\ read_export file = Some data
       /\ map (fun o => (year o, latitude o, longitude o)) data
          = List.concat (map exported_triple reader).
Proof.
  intros Hrect Hround. split; [|split].
  - intros row Hin.
    pose proof (convert_row_exportable row (proj1 (List.Forall_forall _ _) Hrect row Hin)) as Hspec.
    destruct (exportable row) as [[[lat lon] y]|].
    + split.
      * split; [intros _; eauto|]. intros _. destruct Hspec as (o & Ho & _). eauto.
      * intros lat' lon' y' [= <- <- <-]. exact Hspec.
    + split; [|discriminate]. split.
      * intros [o Ho]. congruence.
      * intros [x Hx]. discriminate.
  - apply row_get_absent.
  - destruct (collect_rectangular reader Hrect) as (data & Hdata & Htriples).
    exists (gzip_compress (json_dumps data)), data.
    unfold convert_csv_to_compressed_json. rewrite Hdata.
    split; [reflexivity|]. split; [now apply Hround | exact Htriples].
Qed.

Lemma collect_skip (before after : list (gmap string (option string)))
    (row : gmap string (option string)) :
  convert_row row = Skip -> collect (before ++ row :: after) = collect (before ++ after).
Proof.
  intros Hskip. induction before as [|r before IH]; simpl.
  - now rewrite Hskip.
  - now rewrite IH.
Qed.

(** C10. A row whose latitude or longitude parses to a float equal to
    zero gives no object, although the parse succeeded: the loop passes over
    it, and the export is the one of the file without that row. *)
Theorem zero_coordinate_is_excluded (row : gmap string (option string))
    (s_lat s_lon : string) :
  row_get row "latitude" = Some s_lat ->
  row_get row "longitude" = Some s_lon ->
  row_get row "year" <> None ->
  (exists lat, py_float s_lat = Some lat /\ (lat =? 0)%float = true)
  \/ (exists lon, py_float s_lon = Some lon /\ (lon =? 0)%float = true) ->
  convert_row row = Skip
  /\ forall before after, collect (before ++ row :: after) = collect (before ++ after).
Proof.
  intros Hlat Hlon Hyear Hzero.
  assert (Hskip : convert_row row = Skip).
  { unfold convert_row. rewrite Hlat, Hlon.
    destruct (row_get row "year") as [s_year|]; [|congruence].
    destruct (py_float s_lat) as [lat|] eqn:Elat; [|reflexivity].
    destruct (py_float s_lon) as [lon|] eqn:Elon; [|reflexivity].
    destruct (py_int s_year) as [y|]; [|reflexivity].
    unfold PyFloat.truthy, PyFloat.neb.
    destruct Hzero as [(lat' & [= <-] & ->)|(lon' & [= <-] & ->)]; simpl.
    - reflexivity.
    - now rewrite andb_false_r. }
  split; [exact Hskip|]. intros before after. now apply collect_skip.
Qed.

End Exported.


(** ** Encoding fallback *)

Lemma iso8859_2_byte_total (b : Byte.byte) :
  is_Some (Codec.charmap_byte Codec.iso8859_2_table (Byte.to_N b)).
Proof. destruct b; vm_compute; eauto. Qed.

Lemma iso8859_2_total (raw : list Byte.byte) :
  is_Some (Codec.decode "iso-8859-2" raw).
Proof.
  unfold Codec.decode. cbn [String.eqb Ascii.eqb Bool.eqb].
  change (is_Some (Codec.charmap_decode Codec.iso8859_2_table (map Byte.to_N raw))).
  induction raw as [|b raw IH]; simpl; [eauto|].
  destruct (iso8859_2_byte_total b) as [cp ->].
  destruct IH as [text ->]. simpl. eauto.
Qed.

Section Fallback.
Context `{Pandas}.

Lemma read_csv_decoded (csv_file : File) (encoding : string) (text : list N) :
  Codec.decode encoding (file_bytes csv_file) = Some text ->
  read_csv csv_file encoding = parse_csv text.
Proof. intros Hd. unfold read_csv. now rewrite Hd. Qed.

Lemma read_csv_undecoded (csv_file : File) (encoding : string) :
  Codec.decode encoding (file_bytes csv_file) = None ->
  read_csv csv_file encoding = None.
Proof. intros Hd. unfold read_csv. now rewrite Hd. Qed.

(** C9, amended. Both components try UTF-8 first and take it when it
    decodes (the loader when the decoded text also parses), with the same
    text. On bytes that are not UTF-8 they go different ways: the fixer takes
    windows-1250 when it decodes and ISO-8859-2 otherwise, and never fails
    since ISO-8859-2 decodes every byte; the loader takes ISO-8859-2 as soon as
    its text parses. [cp1250] is the same codec as [windows-1250]. *)
Theorem fallback_orders_differ (csv_file : File) :
  let raw := file_bytes csv_file in
  (forall text, Codec.decode "utf-8" raw = Some text ->
     FixEncoding.fix_encoding_simple raw = Some ("utf-8", text)
     /\ forall df, parse_csv text = Some df ->
          read_any_encoding csv_file = Some ("utf-8", df))
  /\ (Codec.decode "utf-8" raw = None ->
      (forall text, Codec.decode "windows-1250" raw = Some text ->
         FixEncoding.fix_encoding_simple raw = Some ("windows-1250", text))
      /\ (forall text, Codec.decode "windows-1250" raw = None ->
            Codec.decode "iso-8859-2" raw = Some text ->
            FixEncoding.fix_encoding_simple raw = Some ("iso-8859-2", text))
      /\ (forall text df, Codec.decode "iso-8859-2" raw = Some text ->
            parse_csv text = Some df ->
            read_any_encoding csv_file = Some ("iso-8859-2", df)))
  /\ is_Some (FixEncoding.fix_encoding_simple raw)
  /\ Codec.decode "cp1250" raw = Codec.decode "windows-1250" raw.
Proof.
  intros raw. split; [|split; [|split]].
  - intros text Hutf. split.
    + unfold FixEncoding.fix_encoding_simple, FixEncoding.encodings_to_try.
      cbn [Codec.try_encodings]. fold raw. now rewrite Hutf.
    + intros df Hdf. unfold read_any_encoding. cbn [Codec.try_encodings].
      now rewrite (read_csv_decoded csv_file "utf-8" text Hutf), Hdf.
  - intros Hutf. split; [|split].
    + intros text Hwin.
      unfold FixEncoding.fix_encoding_simple, FixEncoding.encodings_to_try.
      cbn [Codec.try_encodings]. now rewrite Hutf, Hwin.
    + intros text Hwin Hiso.
      unfold FixEncoding.fix_encoding_simple, FixEncoding.encodings_to_try.
      cbn [Codec.try_encodings]. now rewrite Hutf, Hwin, Hiso.
    + intros text df Hiso Hdf. unfold read_any_encoding. cbn [Codec.try_encodings].
      rewrite (read_csv_undecoded csv_file "utf-8" Hutf).
      now rewrite (read_csv_decoded csv_file "iso-8859-2" text Hiso), Hdf.
  - unfold FixEncoding.fix_encoding_simple, FixEncoding.encodings_to_try.
    cbn [Codec.try_encodings].
    destruct (Codec.decode "utf-8" raw); [eauto|].
    destruct (Codec.decode "windows-1250" raw); [eauto|].
    destruct (iso8859_2_total raw) as [text ->]. eauto.
  - reflexivity.
Qed.

End Fallback.

(** ** The year column of the frames that are merged *)

Lemma has_column_In (c : string) (df : DataFrame) :
  has_column c df = true <-> In c (columns df).
Proof.
  unfold has_column. rewrite bool_decide_eq_true. apply list_elem_of_In.
Qed.

Lemma set_column_has_column (c : string) (v : cell) (df : DataFrame) :
  has_column c (set_column c v df) = true.
Proof.
  apply has_column_In. unfold set_column; cbn [columns].
  destruct (has_column c df) eqn:E.
  - now apply has_column_In.
  - apply in_or_app. right. now left.
Qed.

Lemma set_column_keeps_column (c c' : string) (v : cell) (df : DataFrame) :
  has_column c' df = true -> has_column c' (set_column c v df) = true.
Proof.
  rewrite !has_column_In. unfold set_column; cbn [columns]. intros Hin.
  destruct (has_column c df); [exact Hin|]. apply in_or_app. now left.
Qed.

Lemma loc_assign_columns (mask : list bool) (c : string) (values : list float)
    (df df' : DataFrame) :
  loc_assign mask c values df = Some df' -> columns df' = columns df.
Proof.
  unfold loc_assign. destruct (loc_assign_rows mask c values (rows df)); [|discriminate].
  now intros [= <-].
Qed.

Section YearColumn.
Context {pandas : Pandas} {pyproj : PyProj}.

Lemma convert_coordinates_batch_keeps_column (c : string) (df : DataFrame) (year : Z) :
  has_column c df = true -> has_column c (fst (convert_coordinates_batch df year)) = true.
Proof.
  intros Hc.
  assert (Hblank : has_column c (blank_coordinates df) = true).
  { unfold blank_coordinates. now apply set_column_keeps_column, set_column_keeps_column. }
  unfold convert_coordinates_batch.
  destruct (negb (has_column "GeoKoordinataX" df) || negb (has_column "GeoKoordinataY" df));
    [exact Hc|].
  cbv zeta. fold (blank_coordinates df).
  destruct (mask_sum _ =? 0)%nat; [exact Hblank|].
  destruct (transform _ _) as [e|[lons lats]]; [exact Hblank|].
  destruct (loc_assign _ "longitude" lons (blank_coordinates df)) as [df1|] eqn:E1;
    [|exact Hblank].
  assert (H1 : has_column c df1 = true).
  { apply has_column_In. rewrite (loc_assign_columns _ _ _ _ _ E1). now apply has_column_In. }
  destruct (loc_assign _ "latitude" lats df1) as [df2|] eqn:E2; [|exact H1].
  cbn [fst]. apply has_column_In. rewrite (loc_assign_columns _ _ _ _ _ E2).
  now apply has_column_In.
Qed.

Lemma process_file_year_column (cfg : Config) (csv_file : File) (year : Z)
    (df : DataFrame) (log : list message) :
  process_file cfg csv_file year = (Some df, log) -> has_column "year" df = true.
Proof.
  destruct (year_selected cfg year) eqn:Hsel.
  - rewrite (process_file_selected cfg csv_file year Hsel).
    destruct (read_any_encoding csv_file) as [[enc df0]|]; [|discriminate].
    cbv zeta.
    destruct (has_column "GeoKoordinataX" _ && has_column "GeoKoordinataY" _).
    + intros [= <- _]. unfold dropna, has_column; cbn [columns].
      apply convert_coordinates_batch_keeps_column, set_column_has_column.
    + intros [= <- _]. apply set_column_has_column.
  - rewrite (process_file_not_selected cfg csv_file year Hsel). discriminate.
Qed.

Lemma process_all_year_column (cfg : Config) (csv_files : list File) :
  Forall (fun df => has_column "year" df = true) (fst (fst (process_all cfg csv_files))).
Proof.
  induction csv_files as [|f l IH]; simpl; [constructor|].
  destruct (process_all cfg l) as [[dfs ys] lg]. simpl in IH.
  destruct (get_year_from_filename (file_name f)) as [y|]; [|exact IH].
  destruct (process_file cfg f y) as [[df|] lg'] eqn:E; [|exact IH].
  simpl. constructor; [|exact IH]. eapply process_file_year_column; eauto.
Qed.

(** What [merge_all_files] writes is the merge of the frames of the files it
    processed, in the order of the sorted file names, and the merged frame
    always has its [year] column. *)
Lemma merge_all_files_written (cfg : Config) (data_folder : option (list File))
    (merged : DataFrame) :
  written (merge_all_files cfg data_folder) = Some merged ->
  exists folder,
    data_folder = Some folder
    /\ let dfs := fst (fst (process_all cfg (sorted (glob_pn_csv folder)))) in
       merged = merge_frames dfs
       /\ returned (merge_all_files cfg data_folder) = true
       /\ has_column "year" (pd_concat dfs) = true.
Proof.
  destruct data_folder as [folder|]; [|discriminate].
  unfold merge_all_files.
  destruct (sorted (glob_pn_csv folder)) as [|f l] eqn:Hfiles; [discriminate|].
  pose proof (process_all_year_column cfg (f :: l)) as Hyear.
  destruct (process_all cfg (f :: l)) as [[dfs ys] lg] eqn:Hall.
  destruct dfs as [|df dfs]; [discriminate|].
  cbn [written returned fst]. intros [= <-]. exists folder.
  split; [reflexivity|]. cbv zeta. rewrite Hfiles, Hall. cbn [fst].
  split; [reflexivity|]. split; [reflexivity|].
  cbn [fst] in Hyear. apply has_column_In.
  apply concat_columns_In with (df := df); [now left|].
  apply has_column_In. now inversion Hyear.
Qed.

End YearColumn.

(** * Further properties of the scripts *)

(** ** File names and processing order *)

Lemma digit_value_range (a : ascii) :
  PyStr.is_digit a = true -> 0 <= PyStr.digit_value a <= 9.
Proof.
  unfold PyStr.is_digit, PyStr.digit_value.
  intros [H1 H2]%andb_true_iff. apply N.leb_le in H1, H2. lia.
Qed.

Lemma match_pn_year_range (s : string) (y : Z) :
  match_pn_year s = Some y -> 0 <= y <= 9999.
Proof.
  unfold match_pn_year.
  destruct s as [|c1 [|c2 [|d1 [|d2 [|d3 [|d4 rest]]]]]]; try discriminate;
    try (destruct c1 as [[] [] [] [] [] [] [] []]; discriminate);
    try (destruct c1 as [[] [] [] [] [] [] [] []]; try discriminate;
         destruct c2 as [[] [] [] [] [] [] [] []]; discriminate).
  destruct c1 as [[] [] [] [] [] [] [] []]; try discriminate.
  destruct c2 as [[] [] [] [] [] [] [] []]; try discriminate.
  destruct (PyStr.is_digit d1) eqn:E1; [|discriminate].
  destruct (PyStr.is_digit d2) eqn:E2; [|discriminate].
  destruct (PyStr.is_digit d3) eqn:E3; [|discriminate].
  destruct (PyStr.is_digit d4) eqn:E4; [|discriminate].
  simpl. intros [= <-].
  apply digit_value_range in E1, E2, E3, E4. lia.
Qed.

Lemma get_year_from_filename_match (s : string) (y : Z) :
  match_pn_year s = Some y -> get_year_from_filename s = Some y.
Proof. intros Hm. destruct s; cbn -[match_pn_year]; now rewrite Hm. Qed.

Lemma get_year_from_filename_suffix (s : string) (y : Z) :
  get_year_from_filename s = Some y ->
  exists before after, s = (before ++ after)%string /\ match_pn_year after = Some y.
Proof.
  induction s as [|c s IH].
  - simpl. discriminate.
  - intros Hy. destruct (match_pn_year (String c s)) as [y'|] eqn:Hm.
    + exists EmptyString, (String c s). split; [reflexivity|].
      rewrite (get_year_from_filename_match _ _ Hm) in Hy. congruence.
    + assert (Hrest : get_year_from_filename s = Some y).
      { cbn -[match_pn_year] in Hy. rewrite Hm in Hy. exact Hy. }
      destruct (IH Hrest) as (before & after & -> & Hafter).
      exists (String c before), after. split; [reflexivity | exact Hafter].
Qed.

(** X1. A year read from a file name is a number from 0 to 9999, the
    four digits that follow some [pn] in the name. *)
Theorem get_year_from_filename_four_digits (filename : string) (year : Z) :
  get_year_from_filename filename = Some year ->
  0 <= year <= 9999
  /\ exists before after,
       filename = (before ++ after)%string /\ match_pn_year after = Some year.
Proof.
  intros Hy. destruct (get_year_from_filename_suffix filename year Hy)
    as (before & after & Hs & Hm).
  split; [eapply match_pn_year_range; eauto | eauto].
Qed.

Lemma four_digits_all : forallb four_digits_ok (seqZ 1000 9000) = true.
Proof. vm_compute. reflexivity. Qed.

Lemma four_digits_pretty (y : Z) :
  1000 <= y <= 9999 -> four_digits_ok y = true.
Proof.
  intros Hy. pose proof four_digits_all as Hall.
  rewrite forallb_forall in Hall. apply Hall.
  apply list_elem_of_In, elem_of_seqZ. lia.
Qed.

Lemma match_pn_year_pretty (y : Z) (rest : string) :
  1000 <= y <= 9999 ->
  match_pn_year ("pn" ++ pretty y ++ rest) = Some y.
Proof.
  intros Hy. pose proof (four_digits_pretty y Hy) as Hok. unfold four_digits_ok in Hok.
  destruct (pretty y) as [|d1 [|d2 [|d3 [|d4 [|]]]]]; try discriminate.
  apply andb_true_iff in Hok as [Hd Hv]. apply Z.eqb_eq in Hv.
  change (match_pn_year
            (String "p" (String "n" (String d1 (String d2 (String d3 (String d4 rest))))))
          = Some y).
  unfold match_pn_year. rewrite Hd, Hv. reflexivity.
Qed.

(** X2. The name written for a year from 1000 to 9999, [pn] followed by
    the year in decimal and anything after it, reads back as that year. *)
Theorem get_year_from_filename_of_year (year : Z) (rest : string) :
  1000 <= year <= 9999 ->
  get_year_from_filename ("pn" ++ pretty year ++ rest) = Some year.
Proof.
  intros Hy. apply get_year_from_filename_match, match_pn_year_pretty, Hy.
Qed.

(** Names that start with [pn] and four digits compare as their years do. *)
Lemma dated_names_compare (n1 n2 : string) (y1 y2 : Z) :
  match_pn_year n1 = Some y1 -> match_pn_year n2 = Some y2 -> y1 < y2 ->
  String.compare n1 n2 = Lt.
Proof.
  unfold match_pn_year.
  destruct n1 as [|p1 [|q1 [|a1 [|a2 [|a3 [|a4 r1]]]]]]; try discriminate;
    try (destruct p1 as [[] [] [] [] [] [] [] []]; discriminate);
    try (destruct p1 as [[] [] [] [] [] [] [] []]; try discriminate;
         destruct q1 as [[] [] [] [] [] [] [] []]; discriminate).
  destruct p1 as [[] [] [] [] [] [] [] []]; try discriminate.
  destruct q1 as [[] [] [] [] [] [] [] []]; try discriminate.
  destruct n2 as [|p2 [|q2 [|b1 [|b2 [|b3 [|b4 r2]]]]]]; try discriminate;
    try (destruct p2 as [[] [] [] [] [] [] [] []]; discriminate);
    try (destruct p2 as [[] [] [] [] [] [] [] []]; try discriminate;
         destruct q2 as [[] [] [] [] [] [] [] []]; discriminate).
  destruct p2 as [[] [] [] [] [] [] [] []]; try discriminate.
  destruct q2 as [[] [] [] [] [] [] [] []]; try discriminate.
  destruct (PyStr.is_digit a1 && PyStr.is_digit a2 && PyStr.is_digit a3 && PyStr.is_digit a4)
    eqn:Ha; [|discriminate].
  destruct (PyStr.is_digit b1 && PyStr.is_digit b2 && PyStr.is_digit b3 && PyStr.is_digit b4)
    eqn:Hb; [|discriminate].
  intros [= <-] [= <-] Hlt.
  apply andb_true_iff in Ha as [[[Ha1 Ha2]%andb_true_iff Ha3]%andb_true_iff Ha4].
  apply andb_true_iff in Hb as [[[Hb1 Hb2]%andb_true_iff Hb3]%andb_true_iff Hb4].
  apply digit_value_range in Ha1, Ha2, Ha3, Ha4, Hb1, Hb2, Hb3, Hb4.
  unfold PyStr.digit_value in *.
  cbn [String.compare]. change (Ascii.compare "p" "p") with Eq.
  change (Ascii.compare "n" "n") with Eq. cbv iota.
  unfold Ascii.compare.
  destruct (N.compare_spec (N_of_ascii a1) (N_of_ascii b1)) as [E1|L1|G1];
    [|reflexivity|lia].
  destruct (N.compare_spec (N_of_ascii a2) (N_of_ascii b2)) as [E2|L2|G2];
    [|reflexivity|lia].
  destruct (N.compare_spec (N_of_ascii a3) (N_of_ascii b3)) as [E3|L3|G3];
    [|reflexivity|lia].
  destruct (N.compare_spec (N_of_ascii a4) (N_of_ascii b4)) as [E4|L4|G4];
    [|reflexivity|lia].
  lia.
Qed.

Lemma dated_names_leb (n1 n2 : string) (y1 y2 : Z) :
  match_pn_year n1 = Some y1 -> match_pn_year n2 = Some y2 ->
  String.leb n1 n2 = true -> y1 <= y2.
Proof.
  intros H1 H2 Hle. destruct (Z.le_gt_cases y1 y2) as [Hok|Hgt]; [exact Hok|].
  pose proof (dated_names_compare n2 n1 y2 y1 H2 H1 Hgt) as Hc.
  unfold String.leb in Hle. rewrite String.compare_antisym, Hc in Hle. discriminate.
Qed.

(** [sorted] *)

Lemma insert_sorted_Permutation (f : File) (l : list File) :
  Permutation (insert_sorted f l) (f :: l).
Proof.
  induction l as [|g l IH]; simpl; [reflexivity|].
  destruct (String.leb (file_name f) (file_name g)); [reflexivity|].
  rewrite IH. apply perm_swap.
Qed.

Lemma sorted_Permutation (l : list File) : Permutation (sorted l) l.
Proof.
  induction l as [|f l IH]; simpl; [reflexivity|].
  rewrite insert_sorted_Permutation. now rewrite IH.
Qed.

Lemma insert_sorted_Sorted (f : File) (l : list File) :
  Sorted name_le l -> Sorted name_le (insert_sorted f l).
Proof.
  induction 1 as [|g l Hl IH Hhd]; simpl.
  - repeat constructor.
  - destruct (String.leb (file_name f) (file_name g)) eqn:E.
    + constructor; [constructor; assumption | constructor; exact E].
    + constructor; [exact IH|].
      assert (Hgf : name_le g f).
      { unfold name_le. destruct (String.leb_total (file_name f) (file_name g)); congruence. }
      destruct l as [|h l]; simpl.
      * constructor. exact Hgf.
      * destruct (String.leb (file_name f) (file_name h)); constructor; [exact Hgf|].
        now inversion Hhd.
Qed.

Lemma sorted_Sorted (l : list File) : Sorted name_le (sorted l).
Proof.
  induction l as [|f l IH]; simpl; [constructor | now apply insert_sorted_Sorted].
Qed.

Lemma insert_sorted_split (f : File) (l : list File) :
  exists l1 l2, l = l1 ++ l2 /\ insert_sorted f l = l1 ++ f :: l2.
Proof.
  induction l as [|g l IH]; simpl.
  - exists [], []. auto.
  - destruct (String.leb (file_name f) (file_name g)).
    + exists [], (g :: l). auto.
    + destruct IH as (l1 & l2 & -> & ->). exists (g :: l1), l2. auto.
Qed.

(** ** The file loop as a filter *)

Section Loop.
Context {pandas : Pandas} {pyproj : PyProj}.

Lemma process_all_processed (cfg : Config) (csv_files : list File) :
  fst (fst (process_all cfg csv_files)) = map snd (omap (processed cfg) csv_files)
  /\ snd (fst (process_all cfg csv_files)) = map fst (omap (processed cfg) csv_files).
Proof.
  induction csv_files as [|f l [IH1 IH2]]; [split; reflexivity|].
  cbn [process_all omap list_omap]. unfold processed in *.
  destruct (process_all cfg l) as [[dfs ys] lg]. cbn [fst snd] in IH1, IH2.
  destruct (get_year_from_filename (file_name f)) as [y|];
    [|cbn [fst snd]; split; assumption].
  destruct (process_file cfg f y) as [[df|] lg']; cbn [fst snd map];
    split; congruence.
Qed.

(** What a run returns and writes, from the frames of the files it processed. *)
Lemma merge_all_files_by_frames (cfg : Config) (folder : list File) :
  let dfs := map snd (omap (processed cfg) (sorted (glob_pn_csv folder))) in
  written (merge_all_files cfg (Some folder))
  = match dfs with [] => None | _ => Some (merge_frames dfs) end
  /\ returned (merge_all_files cfg (Some folder))
     = match dfs with [] => false | _ => true end.
Proof.
  cbv zeta. unfold merge_all_files.
  destruct (sorted (glob_pn_csv folder)) as [|f l] eqn:Hfiles; [split; reflexivity|].
  destruct (process_all_processed cfg (f :: l)) as [H1 _]. rewrite <- H1.
  destruct (process_all cfg (f :: l)) as [[dfs ys] lg]. cbn [fst].
  destruct dfs; split; reflexivity.
Qed.

(** X3. A run returns True exactly when it writes the output file, and
    that is exactly when at least one file of the folder is processed; what
    it writes is then the merge of the processed files' frames, in the order
    of the sorted names. *)
Theorem merge_all_files_succeeds_iff (cfg : Config) (folder : list File) :
  let csv_files := sorted (glob_pn_csv folder) in
  let run := merge_all_files cfg (Some folder) in
  (returned run = true <-> is_Some (written run))
  /\ (returned run = true <->
      exists csv_file year df, In csv_file csv_files
        /\ processed cfg csv_file = Some (year, df))
  /\ (forall merged, written run = Some merged ->
        merged = merge_frames (map snd (omap (processed cfg) csv_files))).
Proof.
  cbv zeta. destruct (merge_all_files_by_frames cfg folder) as [Hw Hr]. cbv zeta in Hw, Hr.
  rewrite Hw, Hr.
  destruct (omap (processed cfg) (sorted (glob_pn_csv folder))) as [|[y df] rest] eqn:E;
    cbn [map].
  - split; [|split].
    + split; [discriminate | intros [? ?]; discriminate].
    + split; [discriminate|]. intros (f & y & df & Hin & Hp).
      assert (Helem : (y, df) ∈ omap (processed cfg) (sorted (glob_pn_csv folder))).
      { apply list_elem_of_omap. exists f. split; [now apply list_elem_of_In | exact Hp]. }
      rewrite E in Helem. now apply elem_of_nil in Helem.
    + discriminate.
  - split; [|split].
    + split; eauto.
    + split; [intros _ | reflexivity].
      assert (Helem : (y, df) ∈ omap (processed cfg) (sorted (glob_pn_csv folder))).
      { rewrite E. left. }
      apply list_elem_of_omap in Helem as (f & Hin & Hp).
      exists f, y, df. split; [now apply list_elem_of_In | exact Hp].
    + now intros merged [= <-].
Qed.

Lemma glob_pn_csv_cons (f : File) (folder : list File) :
  glob_pn_csv (f :: folder)
  = if PyStr.startswith "pn" (file_name f)
       && PyStr.endswith ".csv" (PyStr.drop 2 (file_name f))
    then f :: glob_pn_csv folder else glob_pn_csv folder.
Proof. reflexivity. Qed.

(** X4. A file that is not processed (its name does not match pn*.csv,
    or has no year, or its year is filtered out, or no encoding loads it)
    changes neither the result nor the merged file of a run over the folder
    it is added to. *)
Theorem skipped_file_changes_nothing (cfg : Config) (folder : list File) (csv_file : File) :
  processed cfg csv_file = None
  \/ PyStr.startswith "pn" (file_name csv_file)
     && PyStr.endswith ".csv" (PyStr.drop 2 (file_name csv_file)) = false ->
  written (merge_all_files cfg (Some (csv_file :: folder)))
  = written (merge_all_files cfg (Some folder))
  /\ returned (merge_all_files cfg (Some (csv_file :: folder)))
     = returned (merge_all_files cfg (Some folder)).
Proof.
  intros Hskip.
  destruct (merge_all_files_by_frames cfg (csv_file :: folder)) as [Hw1 Hr1].
  destruct (merge_all_files_by_frames cfg folder) as [Hw2 Hr2].
  cbv zeta in *. rewrite Hw1, Hr1, Hw2, Hr2.
  assert (Hsame : omap (processed cfg) (sorted (glob_pn_csv (csv_file :: folder)))
                  = omap (processed cfg) (sorted (glob_pn_csv folder))).
  { rewrite glob_pn_csv_cons.
    destruct (PyStr.startswith "pn" (file_name csv_file)
              && PyStr.endswith ".csv" (PyStr.drop 2 (file_name csv_file))) eqn:Hmatch;
      [|reflexivity].
    destruct Hskip as [Hnone|?]; [|discriminate].
    cbn [sorted foldr]. fold (sorted (glob_pn_csv folder)).
    destruct (insert_sorted_split csv_file (sorted (glob_pn_csv folder)))
      as (l1 & l2 & Hl & ->).
    rewrite Hl, !omap_app. cbn [omap list_omap]. now rewrite Hnone. }
  rewrite Hsame. split; reflexivity.
Qed.

End Loop.

Section Order.
Context {pandas : Pandas} {pyproj : PyProj}.

Lemma processed_leading_year (cfg : Config) (f : File) (y : Z) (df : DataFrame) :
  is_Some (match_pn_year (file_name f)) ->
  processed cfg f = Some (y, df) -> y = leading_year f.
Proof.
  intros [y0 Hy0] Hp. unfold processed in Hp. unfold leading_year.
  rewrite (get_year_from_filename_match _ _ Hy0) in Hp. rewrite Hy0. simpl.
  destruct (fst (process_file cfg f y0)); congruence.
Qed.

Lemma sorted_names_sorted_years (l : list File) :
  Forall (fun f => is_Some (match_pn_year (file_name f))) l ->
  Sorted name_le l ->
  StronglySorted (fun f g => leading_year f <= leading_year g) l.
Proof.
  intros Hdated Hsorted. apply Sorted_StronglySorted.
  { intros f g h Hfg Hgh. lia. }
  induction Hsorted as [|f l Hl IH Hhd]; [constructor|].
  inversion Hdated as [|? ? [y Hy] Hdl]; subst.
  constructor; [apply IH, Hdl|].
  destruct Hhd as [|g l Hfg]; constructor.
  inversion Hdl as [|? ? [y' Hy'] _]; subst.
  unfold leading_year. rewrite Hy, Hy'. simpl. eapply dated_names_leb; eauto.
Qed.

(** X5. When every matching file of the folder has a name that starts
    with [pn] and four digits, the files are processed in ascending order of
    their years: the list of processed years is sorted. *)
Theorem processed_years_ascending (cfg : Config) (folder : list File) :
  Forall (fun f => is_Some (match_pn_year (file_name f))) (glob_pn_csv folder) ->
  StronglySorted Z.le (snd (fst (process_all cfg (sorted (glob_pn_csv folder))))).
Proof.
  intros Hdated.
  destruct (process_all_processed cfg (sorted (glob_pn_csv folder))) as [_ ->].
  assert (Hd : Forall (fun f => is_Some (match_pn_year (file_name f)))
                 (sorted (glob_pn_csv folder))).
  { eapply Permutation_Forall; [|exact Hdated]. symmetry. apply sorted_Permutation. }
  pose proof (sorted_names_sorted_years _ Hd (sorted_Sorted _)) as Hs.
  induction Hs as [|f l Hl IH Hall]; [constructor|].
  inversion Hd as [|? ? Hf Hdl]; subst.
  cbn [omap list_omap]. destruct (processed cfg f) as [[y df]|] eqn:Hp; [|now apply IH].
  cbn [map fst]. constructor; [now apply IH|].
  apply Forall_forall. intros y' Hin.
  change (y' ∈ fst <$> omap (processed cfg) l) in Hin.
  apply list_elem_of_fmap in Hin as ([y'' df'] & -> & Hin). cbn [fst].
  apply list_elem_of_omap in Hin as (g & Hg & Hpg).
  rewrite (processed_leading_year cfg f y df Hf Hp).
  rewrite (processed_leading_year cfg g y'' df').
  - rewrite Forall_forall in Hall. apply Hall. exact Hg.
  - rewrite Forall_forall in Hdl. apply Hdl. exact Hg.
  - exact Hpg.
Qed.

End Order.

(** ** Frames returned by [process_file] *)

Lemma has_column_set_column_other (c c' : string) (v : cell) (df : DataFrame) :
  c' <> c -> has_column c' (set_column c v df) = has_column c' df.
Proof.
  intros Hne. apply eq_true_iff_eq. rewrite !has_column_In.
  unfold set_column; cbn [columns]. destruct (has_column c df); [reflexivity|].
  rewrite in_app_iff. simpl. intuition congruence.
Qed.

Section Frames.
Context {pandas : Pandas} {pyproj : PyProj}.

Lemma convert_coordinates_batch_columns (c : string) (df : DataFrame) (year : Z) :
  c <> "latitude" -> c <> "longitude" ->
  has_column c (fst (convert_coordinates_batch df year)) = has_column c df.
Proof.
  intros H1 H2.
  assert (Hblank : has_column c (blank_coordinates df) = has_column c df).
  { unfold blank_coordinates. now rewrite !has_column_set_column_other. }
  assert (Hloc : forall mask k values d d', loc_assign mask k values d = Some d' ->
                   has_column c d' = has_column c d).
  { intros mask k values d d' E. unfold has_column. now rewrite (loc_assign_columns _ _ _ _ _ E). }
  unfold convert_coordinates_batch.
  destruct (negb (has_column "GeoKoordinataX" df) || negb (has_column "GeoKoordinataY" df));
    [reflexivity|].
  cbv zeta. fold (blank_coordinates df).
  destruct (mask_sum _ =? 0)%nat; [exact Hblank|].
  destruct (transform _ _) as [e|[lons lats]]; [exact Hblank|].
  destruct (loc_assign _ "longitude" lons (blank_coordinates df)) as [df1|] eqn:E1;
    [|exact Hblank].
  destruct (loc_assign _ "latitude" lats df1) as [df2|] eqn:E2; cbn [fst].
  - now rewrite (Hloc _ _ _ _ _ E2), (Hloc _ _ _ _ _ E1).
  - now rewrite (Hloc _ _ _ _ _ E1).
Qed.

Lemma convert_coordinates_batch_length (df : DataFrame) (year : Z) :
  length (rows (fst (convert_coordinates_batch df year))) = length (rows df).
Proof.
  assert (Hblank : length (rows (blank_coordinates df)) = length (rows df)).
  { now rewrite blank_coordinates_rows, length_map. }
  unfold convert_coordinates_batch.
  destruct (negb (has_column "GeoKoordinataX" df) || negb (has_column "GeoKoordinataY" df));
    [reflexivity|].
  cbv zeta. fold (blank_coordinates df).
  destruct (mask_sum _ =? 0)%nat; [exact Hblank|].
  destruct (transform _ _) as [e|[lons lats]]; [exact Hblank|].
  destruct (loc_assign _ "longitude" lons (blank_coordinates df)) as [df1|] eqn:E1;
    [|exact Hblank].
  destruct (loc_assign _ "latitude" lats df1) as [df2|] eqn:E2; cbn [fst].
  - now rewrite (loc_assign_length _ _ _ _ _ E2), (loc_assign_length _ _ _ _ _ E1).
  - now rewrite (loc_assign_length _ _ _ _ _ E1).
Qed.

Lemma convert_coordinates_batch_messages (df : DataFrame) (year : Z) (m : message) :
  In m (snd (convert_coordinates_batch df year)) ->
  m = MsgNoValidCoordinates \/ exists e, m = MsgTransformError e.
Proof.
  unfold convert_coordinates_batch.
  destruct (negb (has_column "GeoKoordinataX" df) || negb (has_column "GeoKoordinataY" df));
    [intros []|].
  cbv zeta.
  destruct (mask_sum _ =? 0)%nat; [intros [<-|[]]; auto|].
  destruct (transform _ _) as [e|[lons lats]]; [intros [<-|[]]; eauto|].
  destruct (loc_assign _ "longitude" lons _) as [df1|]; [|intros [<-|[]]; eauto].
  destruct (loc_assign _ "latitude" lats df1) as [df2|]; [intros []|intros [<-|[]]; eauto].
Qed.

(** Every row of the converted frame is its row of the input frame, but
    for latitude and longitude. *)
Lemma convert_coordinates_batch_row (df : DataFrame) (year : Z) (r' : gmap string cell) :
  In r' (rows (fst (convert_coordinates_batch df year))) ->
  exists r, In r (rows df)
    /\ forall c, c <> "latitude" -> c <> "longitude" -> r' !! c = r !! c.
Proof.
  intros Hin.
  destruct (has_column "GeoKoordinataX" df && has_column "GeoKoordinataY" df) eqn:Hxy.
  - apply andb_true_iff in Hxy as [HX HY].
    apply list_elem_of_In, list_elem_of_lookup in Hin as [i Hi].
    assert (Hlt : (i < length (rows df))%nat).
    { rewrite <- (convert_coordinates_batch_length df year). eapply lookup_lt_Some; eauto. }
    destruct (lookup_lt_is_Some_2 _ _ Hlt) as [r Hr].
    destruct (convert_row_spec df year i r HX HY Hr) as (r'' & Hr'' & Hother & _).
    exists r. split; [eapply list_elem_of_In, list_elem_of_lookup_2; eauto|].
    assert (r'' = r') by congruence. subst. exact Hother.
  - unfold convert_coordinates_batch in Hin.
    assert (Hguard : negb (has_column "GeoKoordinataX" df)
                     || negb (has_column "GeoKoordinataY" df) = true).
    { apply andb_false_iff in Hxy as [->| ->]; [reflexivity | apply orb_true_r]. }
    rewrite Hguard in Hin. eauto.
Qed.

Lemma process_file_year_selected (cfg : Config) (csv_file : File) (year : Z)
    (df : DataFrame) (log : list message) :
  process_file cfg csv_file year = (Some df, log) -> year_selected cfg year = true.
Proof.
  intros Hpf. destruct (year_selected cfg year) eqn:Hsel; [reflexivity|].
  rewrite (process_file_not_selected cfg csv_file year Hsel) in Hpf. discriminate.
Qed.

(** The frame [process_file] returns, from the frame the file loads as. *)
Lemma process_file_frame (cfg : Config) (csv_file : File) (year : Z)
    (df : DataFrame) (log : list message) :
  process_file cfg csv_file year = (Some df, log) ->
  exists encoding df0,
    read_any_encoding csv_file = Some (encoding, df0)
    /\ df = let df1 := set_column "year" (CInt year) df0 in
            if has_column "GeoKoordinataX" df1 && has_column "GeoKoordinataY" df1
            then dropna ["latitude"; "longitude"] (fst (convert_coordinates_batch df1 year))
            else df1.
Proof.
  intros Hpf. pose proof (process_file_year_selected _ _ _ _ _ Hpf) as Hsel.
  rewrite (process_file_selected cfg csv_file year Hsel) in Hpf.
  destruct (read_any_encoding csv_file) as [[enc df0]|]; [|discriminate].
  exists enc, df0. split; [reflexivity|]. cbv zeta in *.
  destruct (has_column "GeoKoordinataX" _ && has_column "GeoKoordinataY" _);
    now injection Hpf as <- _.
Qed.

Lemma process_file_year_cells (cfg : Config) (csv_file : File) (year : Z)
    (df : DataFrame) (log : list message) (r : gmap string cell) :
  process_file cfg csv_file year = (Some df, log) ->
  In r (rows df) -> r !! "year" = Some (CInt year).
Proof.
  intros Hpf. apply process_file_frame in Hpf as (enc & df0 & _ & ->). cbv zeta.
  assert (Hyear : forall r, In r (rows (set_column "year" (CInt year) df0)) ->
                    r !! "year" = Some (CInt year)).
  { intros r' Hr. unfold set_column in Hr; cbn [rows] in Hr.
    apply in_map_iff in Hr as (r0 & <- & _). apply lookup_insert_eq. }
  destruct (has_column "GeoKoordinataX" _ && has_column "GeoKoordinataY" _).
  - intros Hr. unfold dropna in Hr; cbn [rows] in Hr.
    apply filter_In in Hr as [Hr _].
    apply convert_coordinates_batch_row in Hr as (r0 & Hr0 & Hother).
    rewrite Hother by discriminate. now apply Hyear.
  - apply Hyear.
Qed.

(** X6. Every frame that [process_file] returns is for a year that passes
    the filter, has a [year] column, and carries that year, as an integer, in
    every row, whatever the file itself had in a column of that name. *)
Theorem process_file_rows_carry_year (cfg : Config) (csv_file : File) (year : Z)
    (df : DataFrame) (log : list message) :
  process_file cfg csv_file year = (Some df, log) ->
  year_selected cfg year = true
  /\ has_column "year" df = true
  /\ forall r, In r (rows df) -> r !! "year" = Some (CInt year).
Proof.
  intros Hpf. split; [eapply process_file_year_selected; eauto|].
  split; [eapply process_file_year_column; eauto|].
  intros r. eapply process_file_year_cells; eauto.
Qed.

(** X7. In a frame that [process_file] returns with both coordinate
    columns, every row has a latitude and a longitude that are not missing;
    the frame has no more rows than the file, and the two numbers printed
    for it are its row count and the number of rows of the file it lacks. *)
Theorem process_file_rows_have_coordinates (cfg : Config) (csv_file : File) (year : Z)
    (df : DataFrame) (log : list message) :
  process_file cfg csv_file year = (Some df, log) ->
  has_column "GeoKoordinataX" df = true ->
  has_column "GeoKoordinataY" df = true ->
  (forall r, In r (rows df) ->
     isna (cell_at r "latitude") = false /\ isna (cell_at r "longitude") = false)
  /\ exists encoding df0,
       read_any_encoding csv_file = Some (encoding, df0)
       /\ (length (rows df) <= length (rows df0))%nat
       /\ In (MsgLoaded (length (rows df)) (length (rows df0) - length (rows df))) log
       /\ forall a s, In (MsgLoaded a s) log ->
            a = length (rows df) /\ (a + s = length (rows df0))%nat.
Proof.
  intros Hpf HX HY. destruct (year_selected cfg year) eqn:Hsel.
  2:{ rewrite (process_file_not_selected cfg csv_file year Hsel) in Hpf. discriminate. }
  rewrite (process_file_selected cfg csv_file year Hsel) in Hpf.
  destruct (read_any_encoding csv_file) as [[enc df0]|]; [|discriminate].
  cbv zeta in Hpf.
  set (df1 := set_column "year" (CInt year) df0) in *.
  assert (Hlen1 : length (rows df1) = length (rows df0)).
  { unfold df1, set_column; cbn [rows]. apply length_map. }
  destruct (has_column "GeoKoordinataX" df1 && has_column "GeoKoordinataY" df1) eqn:Hxy.
  - injection Hpf as <- <-.
    set (converted := fst (convert_coordinates_batch df1 year)) in *.
    assert (Hle : (length (rows (dropna ["latitude"; "longitude"] converted))
                   <= length (rows df0))%nat).
    { unfold dropna; cbn [rows]. rewrite <- Hlen1.
      rewrite <- (convert_coordinates_batch_length df1 year). apply List.filter_length_le. }
    split.
    + intros r Hr. unfold dropna in Hr; cbn [rows] in Hr.
      apply filter_In in Hr as [_ Hr]. cbn [forallb] in Hr.
      apply andb_true_iff in Hr as [Hlat Hlon]. apply andb_true_iff in Hlon as [Hlon _].
      apply negb_true_iff in Hlat, Hlon. auto.
    + exists enc, df0. split; [reflexivity|]. split; [exact Hle|].
      pose proof Hle as Hle'. unfold dropna in Hle'. cbn [rows forallb] in Hle'.
      split.
      * right. right. apply in_or_app. right. left.
        unfold dropna; cbn [rows forallb]. now rewrite length_map.
      * intros a s Hin. destruct Hin as [Hin|[Hin|Hin]]; try discriminate.
        apply in_app_or in Hin as [Hin|[Hin|Hin]].
        -- apply convert_coordinates_batch_messages in Hin as [Hin|[e Hin]]; discriminate.
        -- injection Hin as <- <-. split; [reflexivity|]. rewrite length_map. lia.
        -- destruct (0 <? _)%nat; [destruct Hin as [Hin|[]]; discriminate | destruct Hin].
  - exfalso. injection Hpf as <- _.
    subst df1. rewrite HX, HY in Hxy. discriminate.
Qed.

End Frames.

(** ** Files without a usable coordinate pair *)

Lemma mask_sum_all_false (mask : list bool) :
  (forall b, In b mask -> b = false) -> mask_sum mask = 0%nat.
Proof.
  unfold mask_sum. induction mask as [|b mask IH]; intros Hall; [reflexivity|].
  simpl. rewrite (Hall b (or_introl eq_refl)). apply IH. intros b' Hb'. apply Hall. now right.
Qed.

Section NoValidPair.
Context {pandas : Pandas}.

Lemma valid_mask_all_false (df : DataFrame) :
  (forall r, In r (rows df) ->
     valid_pair (numeric_cell (cell_at r "GeoKoordinataX"))
                (numeric_cell (cell_at r "GeoKoordinataY")) = false) ->
  mask_sum (valid_mask_of (numeric_column "GeoKoordinataX" df)
                          (numeric_column "GeoKoordinataY" df)) = 0%nat.
Proof.
  intros Hall. apply mask_sum_all_false. intros b Hb.
  apply list_elem_of_In, list_elem_of_lookup in Hb as [i Hi].
  assert (Hlt : (i < length (rows df))%nat).
  { rewrite <- (mask_length df). eapply lookup_lt_Some; eauto. }
  destruct (lookup_lt_is_Some_2 _ _ Hlt) as [r Hr].
  rewrite (mask_lookup df i r Hr) in Hi. injection Hi as <-.
  apply Hall. eapply list_elem_of_In, list_elem_of_lookup_2; eauto.
Qed.

(** X8. A file of a selected year that has both coordinate columns but no
    row with a valid pair (every pair has a zero, a blank or something that is
    no number) is still processed: the transformer plays no part (the result
    is the same for every transformer), "No valid coordinates found" is
    printed, and the frame returned has the file's columns with [year],
    [latitude] and [longitude], and no row; every row of the file is counted
    as skipped. *)
Theorem file_without_valid_pair_gives_empty_frame (cfg : Config) (csv_file : File)
    (year : Z) (encoding : string) (df0 : DataFrame) :
  year_selected cfg year = true ->
  read_any_encoding csv_file = Some (encoding, df0) ->
  has_column "GeoKoordinataX" df0 = true ->
  has_column "GeoKoordinataY" df0 = true ->
  (forall r, In r (rows df0) ->
     valid_pair (numeric_cell (cell_at r "GeoKoordinataX"))
                (numeric_cell (cell_at r "GeoKoordinataY")) = false) ->
  forall pyproj : PyProj,
    @process_file pandas pyproj cfg csv_file year =
      (Some {| columns := columns (blank_coordinates (set_column "year" (CInt year) df0));
               rows := [] |},
       [MsgProcessing (file_name csv_file) year; MsgConverting; MsgNoValidCoordinates;
        MsgLoaded 0 (length (rows df0))]).
Proof.
  intros Hsel Hread HX HY Hall pyproj.
  rewrite (process_file_selected cfg csv_file year Hsel), Hread. cbv zeta.
  set (df1 := set_column "year" (CInt year) df0).
  assert (HX1 : has_column "GeoKoordinataX" df1 = true) by now apply set_column_keeps_column.
  assert (HY1 : has_column "GeoKoordinataY" df1 = true) by now apply set_column_keeps_column.
  rewrite HX1, HY1. cbn [andb].
  assert (Hmask : mask_sum (valid_mask_of (numeric_column "GeoKoordinataX" df1)
                                          (numeric_column "GeoKoordinataY" df1)) = 0%nat).
  { apply valid_mask_all_false. intros r Hr. unfold df1, set_column in Hr; cbn [rows] in Hr.
    apply in_map_iff in Hr as (r0 & <- & Hr0).
    unfold cell_at. rewrite !lookup_insert_ne by discriminate. now apply Hall. }
  rewrite (convert_coordinates_batch_unfold df1 year HX1 HY1). cbv zeta.
  rewrite Hmask. cbn [Nat.eqb fst snd].
  assert (Hdrop : dropna ["latitude"; "longitude"] (blank_coordinates df1)
                  = {| columns := columns (blank_coordinates df1); rows := [] |}).
  { pose proof (dropna_blank df1) as E. unfold dropna in *. cbn [rows] in E. now rewrite E. }
  rewrite Hdrop. cbn [rows length List.filter Nat.ltb Nat.leb app].
  assert (Hlen : length (rows df1) = length (rows df0)).
  { unfold df1, set_column; cbn [rows]. apply length_map. }
  rewrite Hlen, Nat.sub_0_r. reflexivity.
Qed.

End NoValidPair.

(** ** The merged frame *)

Section KeepFirstOrder.
Context {A K : Type} (same : K -> K -> bool) (key : A -> K).

Lemma keep_first_aux_sublist (seen : list K) (l : list A) :
  sublist (keep_first_aux same key seen l) l.
Proof.
  revert seen. induction l as [|x l IH]; intros seen; simpl; [constructor|].
  destruct (existsb (same (key x)) seen).
  - apply sublist_cons, IH.
  - apply sublist_skip, IH.
Qed.

Lemma keep_first_aux_unseen (seen : list K) (l : list A) (x : A) :
  In x (keep_first_aux same key seen l) -> existsb (same (key x)) seen = false.
Proof.
  revert seen. induction l as [|y l IH]; intros seen; simpl; [tauto|].
  destruct (existsb (same (key y)) seen) eqn:E; [apply IH|].
  intros [<-|Hin]; [exact E|].
  apply IH in Hin. simpl in Hin. now apply orb_false_iff in Hin as [_ Hin].
Qed.

Lemma keep_first_aux_distinct (seen : list K) (l : list A) :
  StronglySorted (fun x y => same (key y) (key x) = false) (keep_first_aux same key seen l).
Proof.
  revert seen. induction l as [|x l IH]; intros seen; simpl; [constructor|].
  destruct (existsb (same (key x)) seen) eqn:E; [apply IH|].
  constructor; [apply IH|].
  apply Forall_forall. intros y Hy. apply list_elem_of_In in Hy.
  apply keep_first_aux_unseen in Hy. simpl in Hy.
  now apply orb_false_iff in Hy as [Hy _].
Qed.

Lemma keep_first_aux_fixed (seen : list K) (l : list A) :
  StronglySorted (fun x y => same (key y) (key x) = false) l ->
  (forall x, In x l -> existsb (same (key x)) seen = false) ->
  keep_first_aux same key seen l = l.
Proof.
  intros Hl. revert seen. induction Hl as [|x l Hl IH Hx]; intros seen Hseen; simpl;
    [reflexivity|].
  rewrite (Hseen x (or_introl eq_refl)). f_equal. apply IH.
  intros y Hy. simpl. rewrite (Hseen y (or_intror Hy)), orb_false_r.
  rewrite Forall_forall in Hx. apply Hx. now apply list_elem_of_In.
Qed.

Lemma keep_first_idempotent (l : list A) :
  keep_first same key (keep_first same key l) = keep_first same key l.
Proof.
  unfold keep_first. apply keep_first_aux_fixed; [apply keep_first_aux_distinct|].
  reflexivity.
Qed.

End KeepFirstOrder.

Lemma StronglySorted_lookup {A} (R : A -> A -> Prop) (l : list A) (i j : nat) (a b : A) :
  StronglySorted R l -> (i < j)%nat -> l !! i = Some a -> l !! j = Some b -> R a b.
Proof.
  intros Hl. revert i j. induction Hl as [|x l Hl IH Hx]; intros i j Hij Hi Hj;
    [discriminate|].
  destruct j as [|j]; [lia|]. cbn in Hj. destruct i as [|i]; cbn in Hi.
  - injection Hi as <-. rewrite Forall_forall in Hx. apply Hx.
    eapply list_elem_of_lookup_2; eauto.
  - apply (IH i j); [lia | assumption | assumption].
Qed.

Lemma concat_columns_NoDup (dfs : list DataFrame) : NoDup (concat_columns dfs).
Proof.
  unfold concat_columns, keep_first.
  pose proof (keep_first_aux_distinct String.eqb (fun c : string => c) []
                (List.concat (map columns dfs))) as Hd.
  induction Hd as [|c l Hl IH Hc]; constructor; [|exact IH].
  intros Hin. rewrite Forall_forall in Hc. specialize (Hc c Hin).
  now rewrite String.eqb_refl in Hc.
Qed.

Lemma concat_columns_iff (dfs : list DataFrame) (c : string) :
  In c (concat_columns dfs) <-> exists df, In df dfs /\ In c (columns df).
Proof.
  split.
  - intros Hin. unfold concat_columns, keep_first in Hin.
    apply list_elem_of_In in Hin.
    eapply elem_of_sublist in Hin; [|apply keep_first_aux_sublist].
    apply list_elem_of_In, List.in_concat in Hin as (cs & Hcs & Hc).
    apply List.in_map_iff in Hcs as (df & <- & Hdf). eauto.
  - intros (df & Hdf & Hc). exact (concat_columns_In dfs df c Hdf Hc).
Qed.

Lemma merge_frames_columns (dfs : list DataFrame) :
  columns (merge_frames dfs) = concat_columns dfs.
Proof.
  unfold merge_frames.
  destruct (has_column "ZaporednaStevilkaPN" (pd_concat dfs) && has_column "year" (pd_concat dfs));
    reflexivity.
Qed.

Lemma merge_frames_sublist (dfs : list DataFrame) :
  sublist (rows (merge_frames dfs)) (rows (pd_concat dfs)).
Proof.
  unfold merge_frames.
  destruct (has_column "ZaporednaStevilkaPN" (pd_concat dfs) && has_column "year" (pd_concat dfs));
    [|reflexivity].
  unfold drop_duplicates, keep_first; cbn [rows]. apply keep_first_aux_sublist.
Qed.

(** X9. The merged frame has each column of each input frame once and no
    other column; its rows are rows of the concatenation in concatenation
    order (duplicate removal drops rows, it neither reorders nor alters
    them); when the merged frame has the two key columns no two of its rows
    have the same (year, ZaporednaStevilkaPN), and when it lacks
    [ZaporednaStevilkaPN] no row is dropped at all. *)
Theorem merge_frames_keeps_order_and_distinct_keys (dfs : list DataFrame) :
  let key := key_of ["year"; "ZaporednaStevilkaPN"] in
  let merged := merge_frames dfs in
  NoDup (columns merged)
  /\ (forall c, In c (columns merged) <-> exists df, In df dfs /\ In c (columns df))
  /\ sublist (rows merged) (rows (pd_concat dfs))
  /\ (has_column "ZaporednaStevilkaPN" merged = true -> has_column "year" merged = true ->
      forall i j r1 r2, rows merged !! i = Some r1 -> rows merged !! j = Some r2 ->
        same_key (key r1) (key r2) = true -> i = j)
  /\ (has_column "ZaporednaStevilkaPN" merged = false ->
      rows merged = List.concat (map (fun df => map (reindex (columns merged)) (rows df)) dfs)).
Proof.
  cbv zeta. rewrite merge_frames_columns.
  split; [apply concat_columns_NoDup|]. split; [apply concat_columns_iff|].
  split; [apply merge_frames_sublist|]. split.
  - unfold has_column at 1 2. rewrite merge_frames_columns.
    change (has_column "ZaporednaStevilkaPN" (pd_concat dfs) = true ->
            has_column "year" (pd_concat dfs) = true ->
            forall i j r1 r2, rows (merge_frames dfs) !! i = Some r1 ->
              rows (merge_frames dfs) !! j = Some r2 ->
              same_key (key_of ["year"; "ZaporednaStevilkaPN"] r1)
                       (key_of ["year"; "ZaporednaStevilkaPN"] r2) = true -> i = j).
    intros H1 H2 i j r1 r2 Hi Hj Hsame.
    rewrite (merge_frames_rows dfs H1 H2) in Hi, Hj.
    pose proof (keep_first_aux_distinct same_key (key_of ["year"; "ZaporednaStevilkaPN"]) []
                  (rows (pd_concat dfs))) as Hd.
    fold (keep_first same_key (key_of ["year"; "ZaporednaStevilkaPN"]) (rows (pd_concat dfs)))
      in Hd.
    destruct (lt_eq_lt_dec i j) as [[Hlt|Heq]|Hlt]; [|exact Heq|].
    + pose proof (StronglySorted_lookup _ _ i j r1 r2 Hd Hlt Hi Hj) as Hne.
      cbv beta in Hne. rewrite same_key_sym in Hne. congruence.
    + pose proof (StronglySorted_lookup _ _ j i r2 r1 Hd Hlt Hj Hi) as Hne.
      cbv beta in Hne. congruence.
  - unfold has_column at 1. rewrite merge_frames_columns.
    change (has_column "ZaporednaStevilkaPN" (pd_concat dfs) = false ->
            rows (merge_frames dfs) = rows (pd_concat dfs)).
    intros H1. unfold merge_frames. now rewrite H1.
Qed.

Lemma reindex_lookup (cols : list string) (r : gmap string cell) (c : string) :
  In c cols -> reindex cols r !! c = Some (cell_at r c).
Proof.
  induction cols as [|c0 cols IH]; simpl; [tauto|].
  intros Hin. destruct (decide (c0 = c)) as [->|Hne].
  - apply lookup_insert_eq.
  - rewrite lookup_insert_ne by exact Hne. destruct Hin as [Heq|Hin]; [congruence|].
    apply IH, Hin.
Qed.

Lemma reindex_lookup_None (cols : list string) (r : gmap string cell) (c : string) :
  ~ In c cols -> reindex cols r !! c = None.
Proof.
  induction cols as [|c0 cols IH]; simpl; [intros _; apply lookup_empty|].
  intros Hin. rewrite lookup_insert_ne by tauto. apply IH. tauto.
Qed.

Lemma reindex_idempotent (cols : list string) (r : gmap string cell) :
  reindex cols (reindex cols r) = reindex cols r.
Proof.
  apply map_eq. intros c. destruct (in_dec string_dec c cols) as [Hin|Hin].
  - rewrite !reindex_lookup by exact Hin. f_equal. now apply reindex_cell_at.
  - now rewrite !reindex_lookup_None.
Qed.

Lemma keep_first_strings_NoDup (l : list string) :
  NoDup l -> keep_first String.eqb (fun c => c) l = l.
Proof.
  intros Hl. unfold keep_first. apply keep_first_aux_fixed; [|reflexivity].
  induction Hl as [|c l Hc Hl IH]; constructor; [exact IH|].
  apply Forall_forall. intros c' Hc'. apply list_elem_of_In in Hc'.
  apply String.eqb_neq. intros ->. apply Hc, list_elem_of_In, Hc'.
Qed.

Lemma pd_concat_rows_reindexed (dfs : list DataFrame) (r : gmap string cell) :
  In r (rows (pd_concat dfs)) ->
  exists df r0, In df dfs /\ In r0 (rows df) /\ r = reindex (concat_columns dfs) r0.
Proof.
  cbn [pd_concat rows]. intros Hin.
  apply List.in_concat in Hin as (rs & Hrs & Hr).
  apply List.in_map_iff in Hrs as (df & <- & Hdf).
  apply List.in_map_iff in Hr as (r0 & <- & Hr0). eauto.
Qed.

(** X10. Merging is idempotent: the merged frame, merged again on its own,
    comes back as it is, columns and rows. What the script writes is already
    laid out on its own columns and free of duplicates. *)
Theorem merge_frames_idempotent (dfs : list DataFrame) :
  dfs <> [] -> merge_frames [merge_frames dfs] = merge_frames dfs.
Proof.
  intros _.
  assert (Hconcat : pd_concat [merge_frames dfs] = merge_frames dfs).
  { unfold pd_concat. cbn [map List.concat]. rewrite !app_nil_r.
    unfold concat_columns. cbn [map List.concat]. rewrite app_nil_r.
    rewrite (merge_frames_columns dfs).
    rewrite (keep_first_strings_NoDup _ (concat_columns_NoDup dfs)).
    rewrite <- (merge_frames_columns dfs) at 1.
    assert (Hrows : map (reindex (concat_columns dfs)) (rows (merge_frames dfs))
                    = rows (merge_frames dfs)).
    { rewrite <- (map_id (rows (merge_frames dfs))) at 2.
      apply map_ext_in. intros r Hr. apply list_elem_of_In in Hr.
      eapply elem_of_sublist in Hr; [|apply merge_frames_sublist].
      apply list_elem_of_In, pd_concat_rows_reindexed in Hr as (df & r0 & _ & _ & ->).
      apply reindex_idempotent. }
    rewrite Hrows. now destruct (merge_frames dfs). }
  unfold merge_frames at 1. rewrite Hconcat.
  destruct (has_column "ZaporednaStevilkaPN" (merge_frames dfs)
            && has_column "year" (merge_frames dfs)) eqn:Hkeys; [|reflexivity].
  assert (Hkeys' : has_column "ZaporednaStevilkaPN" (pd_concat dfs)
                   && has_column "year" (pd_concat dfs) = true).
  { unfold has_column in *. now rewrite merge_frames_columns in Hkeys. }
  unfold merge_frames. rewrite Hkeys'.
  unfold drop_duplicates; cbn [columns rows]. now rewrite keep_first_idempotent.
Qed.

(** ** The rows of the written file *)

Lemma dropna_all (subset : list string) (df : DataFrame) :
  (forall r c, In r (rows df) -> In c subset -> isna (cell_at r c) = false) ->
  dropna subset df = df.
Proof.
  intros Hall. destruct df as [cols rs]. unfold dropna; cbn [columns rows] in *.
  f_equal. induction rs as [|r rs IH]; [reflexivity|]. cbn [List.filter].
  assert (Hr : forallb (fun c => negb (isna (cell_at r c))) subset = true).
  { apply forallb_forall. intros c Hc. now rewrite (Hall r c (or_introl eq_refl) Hc). }
  rewrite Hr. f_equal. apply IH. intros r' c Hr' Hc. apply Hall; [now right | exact Hc].
Qed.

Section Written.
Context {pandas : Pandas} {pyproj : PyProj}.

Lemma convert_coordinates_batch_adds_columns (df : DataFrame) (year : Z) :
  has_column "GeoKoordinataX" df = true ->
  has_column "GeoKoordinataY" df = true ->
  has_column "latitude" (fst (convert_coordinates_batch df year)) = true
  /\ has_column "longitude" (fst (convert_coordinates_batch df year)) = true.
Proof.
  intros HX HY.
  assert (Hblank : has_column "latitude" (blank_coordinates df) = true
                   /\ has_column "longitude" (blank_coordinates df) = true).
  { unfold blank_coordinates. split;
      [apply set_column_keeps_column, set_column_has_column | apply set_column_has_column]. }
  assert (Hloc : forall c mask k values d d', loc_assign mask k values d = Some d' ->
                   has_column c d' = has_column c d).
  { intros c mask k values d d' E. unfold has_column.
    now rewrite (loc_assign_columns _ _ _ _ _ E). }
  rewrite (convert_coordinates_batch_unfold df year HX HY). cbv zeta.
  destruct (mask_sum _ =? 0)%nat; [exact Hblank|].
  destruct (transform _ _) as [e|[lons lats]]; [exact Hblank|].
  destruct (loc_assign _ "longitude" lons (blank_coordinates df)) as [df1|] eqn:E1;
    [|exact Hblank].
  destruct (loc_assign _ "latitude" lats df1) as [df2|] eqn:E2; cbn [fst].
  - now rewrite !(Hloc _ _ _ _ _ _ E2), !(Hloc _ _ _ _ _ _ E1).
  - now rewrite !(Hloc _ _ _ _ _ _ E1).
Qed.

(** The rows of what a run writes, traced back to the file they come from. *)
Lemma written_row_origin (cfg : Config) (folder : list File) (merged : DataFrame)
    (r : gmap string cell) :
  written (merge_all_files cfg (Some folder)) = Some merged ->
  In r (rows merged) ->
  exists csv_file year df log r0,
    In csv_file folder
    /\ get_year_from_filename (file_name csv_file) = Some year
    /\ process_file cfg csv_file year = (Some df, log)
    /\ In r0 (rows df)
    /\ (forall c, In c (columns df) -> In c (columns merged))
    /\ r = reindex (columns merged) r0.
Proof.
  intros Hw Hr.
  destruct (merge_all_files_by_frames cfg folder) as [Hw' _]. cbv zeta in Hw'.
  rewrite Hw' in Hw.
  set (dfs := map snd (omap (processed cfg) (sorted (glob_pn_csv folder)))) in *.
  assert (Hm : merged = merge_frames dfs) by (destruct dfs; congruence).
  subst merged. apply list_elem_of_In in Hr.
  eapply elem_of_sublist in Hr; [|apply merge_frames_sublist].
  apply list_elem_of_In, pd_concat_rows_reindexed in Hr as (df & r0 & Hdf & Hr0 & ->).
  pose proof Hdf as Hdf'. unfold dfs in Hdf'.
  apply in_map_iff in Hdf' as ([y df'] & Hsnd & Hin). cbn in Hsnd. subst df'.
  apply list_elem_of_In, list_elem_of_omap in Hin as (f & Hf & Hp).
  unfold processed in Hp.
  destruct (get_year_from_filename (file_name f)) as [y'|] eqn:Hy; [|discriminate].
  destruct (process_file cfg f y') as [[df'|] log] eqn:Hpf; cbn [fst] in Hp; [|discriminate].
  injection Hp as -> ->.
  exists f, y, df, log, r0. rewrite merge_frames_columns.
  repeat split; try assumption.
  - rewrite sorted_Permutation in Hf. apply list_elem_of_In in Hf.
    unfold glob_pn_csv in Hf. now apply filter_In in Hf as [Hf _].
  - intros c Hc. apply concat_columns_iff. eauto.
Qed.

(** What a run writes has the columns of a frame it processed. *)
Lemma written_frame_origin (cfg : Config) (folder : list File) (merged : DataFrame) :
  written (merge_all_files cfg (Some folder)) = Some merged ->
  exists csv_file year df log,
    In csv_file folder
    /\ process_file cfg csv_file year = (Some df, log)
    /\ forall c, In c (columns df) -> In c (columns merged).
Proof.
  intros Hw.
  destruct (merge_all_files_by_frames cfg folder) as [Hw' _]. cbv zeta in Hw'.
  rewrite Hw' in Hw.
  destruct (omap (processed cfg) (sorted (glob_pn_csv folder))) as [|[y df] rest] eqn:E;
    [discriminate|].
  cbn [map snd] in Hw. injection Hw as <-.
  assert (Hin : (y, df) ∈ omap (processed cfg) (sorted (glob_pn_csv folder))).
  { rewrite E. left. }
  apply list_elem_of_omap in Hin as (f & Hf & Hp).
  unfold processed in Hp.
  destruct (get_year_from_filename (file_name f)) as [y'|] eqn:Hy; [|discriminate].
  destruct (process_file cfg f y') as [[df'|] log] eqn:Hpf; cbn [fst] in Hp; [|discriminate].
  injection Hp as -> ->.
  exists f, y, df, log. split; [|split; [exact Hpf|]].
  - rewrite sorted_Permutation in Hf. apply list_elem_of_In in Hf.
    unfold glob_pn_csv in Hf. now apply filter_In in Hf as [Hf _].
  - intros c Hc. rewrite merge_frames_columns. apply concat_columns_iff.
    exists df. split; [now left | exact Hc].
Qed.

(** X11. Every row of the file a run writes carries, as an integer in its
    [year] cell, the year read from the name of a file of the folder, and that
    year passes the configured filter: no row of a year that was filtered out
    reaches the output. *)
Theorem written_rows_carry_selected_year (cfg : Config) (folder : list File)
    (merged : DataFrame) :
  written (merge_all_files cfg (Some folder)) = Some merged ->
  forall r, In r (rows merged) ->
    exists csv_file year,
      In csv_file folder
      /\ get_year_from_filename (file_name csv_file) = Some year
      /\ year_selected cfg year = true
      /\ r !! "year" = Some (CInt year).
Proof.
  intros Hw r Hr.
  destruct (written_row_origin cfg folder merged r Hw Hr)
    as (f & y & df & log & r0 & Hf & Hy & Hpf & Hr0 & Hcols & ->).
  exists f, y. split; [exact Hf|]. split; [exact Hy|].
  split; [eapply process_file_year_selected; eauto|].
  rewrite reindex_lookup.
  - unfold cell_at. now rewrite (process_file_year_cells _ _ _ _ _ _ Hpf Hr0).
  - apply Hcols, has_column_In. eapply process_file_year_column; eauto.
Qed.

(** X12. When every file of the folder that loads has both coordinate
    columns, every row of the file a run writes has a latitude and a longitude
    that are not missing, and the summary reports all of its rows as rows with
    valid coordinates. *)
Theorem written_rows_have_coordinates (cfg : Config) (folder : list File)
    (merged : DataFrame) :
  (forall csv_file encoding df0, In csv_file folder ->
     read_any_encoding csv_file = Some (encoding, df0) ->
     has_column "GeoKoordinataX" df0 = true /\ has_column "GeoKoordinataY" df0 = true) ->
  written (merge_all_files cfg (Some folder)) = Some merged ->
  (forall r, In r (rows merged) ->
     isna (cell_at r "latitude") = false /\ isna (cell_at r "longitude") = false)
  /\ In (MsgValidCoordinates (length (rows merged)) (length (rows merged)))
        (console (merge_all_files cfg (Some folder))).
Proof.
  intros Hxy Hw.
  assert (Hframe : forall csv_file year df log, In csv_file folder ->
            process_file cfg csv_file year = (Some df, log) ->
            has_column "latitude" df = true /\ has_column "longitude" df = true
            /\ forall r, In r (rows df) ->
                 isna (cell_at r "latitude") = false /\ isna (cell_at r "longitude") = false).
  { intros f y df log Hf Hpf.
    apply process_file_frame in Hpf as (enc & df0 & Hread & Hdf). cbv zeta in Hdf.
    destruct (Hxy f enc df0 Hf Hread) as [HX HY].
    rewrite (set_column_keeps_column "year" _ (CInt y) df0 HX),
            (set_column_keeps_column "year" _ (CInt y) df0 HY) in Hdf. cbn [andb] in Hdf.
    destruct (convert_coordinates_batch_adds_columns (set_column "year" (CInt y) df0) y)
      as [Hlat Hlon]; [now apply set_column_keeps_column..|].
    subst df. split; [exact Hlat|]. split; [exact Hlon|].
    intros r Hr. unfold dropna in Hr; cbn [rows] in Hr.
    apply filter_In in Hr as [_ Hr]. cbn [forallb] in Hr.
    apply andb_true_iff in Hr as [H1 H2]. apply andb_true_iff in H2 as [H2 _].
    apply negb_true_iff in H1, H2. auto. }
  assert (Hcolumns : has_column "latitude" merged = true
                     /\ has_column "longitude" merged = true).
  { destruct (written_frame_origin cfg folder merged Hw) as (f & y & df & log & Hf & Hpf & Hcols).
    destruct (Hframe f y df log Hf Hpf) as (Hlat & Hlon & _).
    split; apply has_column_In, Hcols, has_column_In; assumption. }
  destruct Hcolumns as [Hlat Hlon].
  assert (Hrows : forall r, In r (rows merged) ->
            isna (cell_at r "latitude") = false /\ isna (cell_at r "longitude") = false).
  { intros r Hr.
    destruct (written_row_origin cfg folder merged r Hw Hr)
      as (f & y & df & log & r0 & Hf & Hy & Hpf & Hr0 & Hcols & ->).
    rewrite !reindex_cell_at by now apply has_column_In.
    destruct (Hframe f y df log Hf Hpf) as (_ & _ & Hvalid). now apply Hvalid. }
  split; [exact Hrows|].
  assert (Hdrop : dropna ["latitude"; "longitude"] merged = merged).
  { apply dropna_all. intros r c Hr [<-|[<-|[]]]; now apply Hrows. }
  revert Hw. unfold merge_all_files.
  destruct (sorted (glob_pn_csv folder)) as [|f l]; [discriminate|].
  destruct (process_all cfg (f :: l)) as [[dfs ys] lg].
  destruct dfs as [|df dfs]; [discriminate|].
  cbn [written console]. intros [= Hm]. rewrite Hm.
  right. apply in_or_app. right. right. unfold summary.
  do 3 (apply in_or_app; right).
  rewrite Hlat, Hlon. cbn [andb]. rewrite Hdrop. now left.
Qed.

End Written.

(** ** The exporter on rows that are short or not numbers *)

Lemma nan_is_not_zero (x : float) : is_nan x = true -> (x =? 0)%float = false.
Proof.
  unfold is_nan. rewrite negb_true_iff, !FloatAxioms.eqb_spec.
  destruct (Prim2SF x) as [s|s| |s m e]; try reflexivity.
  - discriminate.
  - unfold SFeqb, SFcompare. destruct s; discriminate.
  - intros Hx. now rewrite SFeqb_finite_refl in Hx.
Qed.

Section ExporterEdges.
Import CsvToJson.
Context `{Builtins} `{JsonGzip}.

Lemma collect_fails_iff (reader : list (gmap string (option string))) :
  (exists e, collect reader = inl e)
  <-> exists row, In row reader /\ exists e, convert_row row = Uncaught e.
Proof.
  induction reader as [|row reader IH]; simpl.
  - split; [intros [e He]; discriminate | intros (row & [] & _)].
  - destruct (convert_row row) as [o| |e] eqn:Hrow.
    + split.
      * intros [e He]. destruct (collect reader) as [e'|data] eqn:Hc; [|discriminate].
        destruct (proj1 IH (ex_intro _ e' eq_refl)) as (row' & Hin & Hrow').
        exists row'. split; [now right | exact Hrow'].
      * intros (row' & [<-|Hin] & e & He); [congruence|].
        destruct (proj2 IH (ex_intro _ row' (conj Hin (ex_intro _ e He)))) as [e' ->].
        eauto.
    + rewrite IH. split.
      * intros (row' & Hin & Hrow'). exists row'. split; [now right | exact Hrow'].
      * intros (row' & [<-|Hin] & e & He); [congruence|]. eauto.
    + split; [|eauto]. intros _. exists row. split; [now left | eauto].
Qed.

(** X13. The export is all or nothing, and what aborts it is a line
    shorter than the header. A row raises out of the loop, with TypeError,
    exactly when the first of latitude, longitude and year that does not
    parse is a field the line did not reach (the fields before it having
    parsed); a short row whose earlier field is no number is passed over like
    any other. The run then ends with that exception and writes nothing, and
    this happens as soon as one row of the file is such a row. *)
Theorem export_fails_exactly_on_short_rows (reader : list (gmap string (option string))) :
  (forall row e, convert_row row = Uncaught e <->
     e = "TypeError"
     /\ (row_get row "latitude" = None
         \/ (exists s_lat lat, row_get row "latitude" = Some s_lat
               /\ py_float s_lat = Some lat /\ row_get row "longitude" = None)
         \/ (exists s_lat lat s_lon lon, row_get row "latitude" = Some s_lat
               /\ py_float s_lat = Some lat /\ row_get row "longitude" = Some s_lon
               /\ py_float s_lon = Some lon /\ row_get row "year" = None)))
  /\ ((exists e, convert_csv_to_compressed_json reader = inl e)
      <-> exists row, In row reader /\ exists e, convert_row row = Uncaught e)
  /\ ((exists file, convert_csv_to_compressed_json reader = inr file)
      <-> forall row, In row reader -> forall e, convert_row row <> Uncaught e).
Proof.
  assert (Hfail : (exists e, convert_csv_to_compressed_json reader = inl e)
                  <-> exists row, In row reader /\ exists e, convert_row row = Uncaught e).
  { rewrite <- collect_fails_iff. unfold convert_csv_to_compressed_json.
    destruct (collect reader) as [e|data]; split; intros [e' He']; try discriminate; eauto. }
  split; [|split; [exact Hfail|]].
  - intros row e. unfold convert_row.
    destruct (row_get row "latitude") as [s_lat|] eqn:Hlat.
    2:{ split; [intros [= <-]; auto | now intros [-> _]]. }
    destruct (py_float s_lat) as [lat|] eqn:Elat.
    2:{ split; [discriminate|].
        intros (_ & [?|[(? & ? & ? & ? & _)|(? & ? & ? & ? & ? & ? & _)]]); congruence. }
    destruct (row_get row "longitude") as [s_lon|] eqn:Hlon.
    2:{ split; [intros [= <-]; split; [reflexivity|]; right; left; eauto | now intros [-> _]]. }
    destruct (py_float s_lon) as [lon|] eqn:Elon.
    2:{ split; [discriminate|].
        intros (_ & [?|[(? & ? & ? & ? & ?)|(? & ? & ? & ? & ? & ? & ? & ? & _)]]);
          congruence. }
    destruct (row_get row "year") as [s_year|] eqn:Hyear.
    2:{ split; [intros [= <-]; split; [reflexivity|]; right; right;
                exists s_lat, lat, s_lon, lon; auto | now intros [-> _]]. }
    split.
    + destruct (py_int s_year); [destruct (_ && _)|]; discriminate.
    + intros (_ & [?|[(? & ? & ? & ? & ?)|(? & ? & ? & ? & ? & ? & ? & ? & ?)]]);
        congruence.
  - split.
    + intros [file Hfile] row Hin e He.
      destruct (proj2 Hfail (ex_intro _ row (conj Hin (ex_intro _ e He)))) as [e' He'].
      congruence.
    + intros Hnone. destruct (convert_csv_to_compressed_json reader) as [e|file] eqn:E;
        [|eauto].
      destruct (proj1 Hfail (ex_intro _ e eq_refl)) as (row & Hin & e' & He').
      now destruct (Hnone row Hin e').
Qed.

Lemma collect_emit (before after : list (gmap string (option string)))
    (row : gmap string (option string)) (o : Accident) (data data' : list Accident) :
  convert_row row = Emit o ->
  collect before = inr data -> collect after = inr data' ->
  collect (before ++ row :: after) = inr (data ++ o :: data').
Proof.
  intros Hrow. revert data. induction before as [|r before IH]; intros data Hb Ha; simpl in *.
  - injection Hb as <-. now rewrite Hrow, Ha.
  - destruct (convert_row r) as [o'| |e]; [|now apply IH|discriminate].
    destruct (collect before) as [e|d] eqn:Hc; [discriminate|].
    injection Hb as <-. now rewrite (IH d eq_refl Ha).
Qed.

(** X14. Not being zero is all the coordinate test asks: a row whose
    latitude or longitude parses to NaN, the other coordinate not being zero
    and the year parsing, is exported, with the rounded NaN as that
    coordinate, at its place among the objects of the rows around it. *)
Theorem nan_coordinate_is_exported (row : gmap string (option string))
    (s_lat s_lon s_year : string) (lat lon : float) (y : Z) :
  row_get row "latitude" = Some s_lat -> py_float s_lat = Some lat ->
  row_get row "longitude" = Some s_lon -> py_float s_lon = Some lon ->
  row_get row "year" = Some s_year -> py_int s_year = Some y ->
  (is_nan lat = true /\ (lon =? 0)%float = false)
  \/ ((lat =? 0)%float = false /\ is_nan lon = true) ->
  exists o, convert_row row = Emit o
    /\ latitude o = py_round lat 6 /\ longitude o = py_round lon 6 /\ year o = y
    /\ forall before after data data',
         collect before = inr data -> collect after = inr data' ->
         collect (before ++ row :: after) = inr (data ++ o :: data').
Proof.
  intros Hlat Elat Hlon Elon Hyear Eyear Hnan.
  assert (Htruthy : PyFloat.truthy lat && PyFloat.truthy lon = true).
  { unfold PyFloat.truthy, PyFloat.neb.
    destruct Hnan as [[Hn Hz]|[Hz Hn]]; apply nan_is_not_zero in Hn; now rewrite Hn, Hz. }
  eexists. split.
  - unfold convert_row. rewrite Hlat, Elat, Hlon, Elon, Hyear, Eyear, Htruthy. reflexivity.
  - cbn [latitude longitude year]. repeat split.
    intros before after data data'. apply collect_emit.
    unfold convert_row. now rewrite Hlat, Elat, Hlon, Elon, Hyear, Eyear, Htruthy.
Qed.

End ExporterEdges.

(** ** UTF-8 written back by the fixer *)

Ltac ndiv := zify; Z.to_euclidean_division_equations; lia.

Ltac split_conditions :=
  repeat match goal with
  | H : (_ && _) = true |- _ => apply andb_true_iff in H as [? ?]
  | H : (_ <? _)%N = true |- _ => apply N.ltb_lt in H
  | H : (_ <? _)%N = false |- _ => apply N.ltb_ge in H
  | H : (_ <=? _)%N = true |- _ => apply N.leb_le in H
  | H : (_ <=? _)%N = false |- _ => apply N.leb_gt in H
  | H : (_ =? _)%N = true |- _ => apply N.eqb_eq in H
  | H : (_ =? _)%N = false |- _ => apply N.eqb_neq in H
  end.

Lemma utf8_encode_char_2 (b0 b1 : N) :
  (194 <= b0 <= 223)%N -> (128 <= b1 <= 191)%N ->
  Codec.utf8_encode_char ((b0 - 192) * 64 + (b1 - 128)) = Some [b0; b1].
Proof.
  intros H0 H1. unfold Codec.utf8_encode_char.
  destruct (N.ltb_spec ((b0 - 192) * 64 + (b1 - 128)) 128); [ndiv|].
  destruct (N.ltb_spec ((b0 - 192) * 64 + (b1 - 128)) 2048); [|ndiv].
  do 2 f_equal; [ndiv|f_equal; ndiv].
Qed.

Lemma utf8_encode_char_3 (b0 b1 b2 : N) :
  (224 <= b0 <= 239)%N ->
  ((if (b0 =? 224)%N then 160 else 128) <= b1
   <= (if (b0 =? 237)%N then 159 else 191))%N ->
  (128 <= b2 <= 191)%N ->
  Codec.utf8_encode_char ((b0 - 224) * 4096 + (b1 - 128) * 64 + (b2 - 128))
  = Some [b0; b1; b2].
Proof.
  intros H0 H1 H2. unfold Codec.utf8_encode_char.
  destruct (b0 =? 224)%N eqn:E224, (b0 =? 237)%N eqn:E237; split_conditions;
    set (c := ((b0 - 224) * 4096 + (b1 - 128) * 64 + (b2 - 128))%N);
    assert (Hc : c = ((b0 - 224) * 4096 + (b1 - 128) * 64 + (b2 - 128))%N) by reflexivity;
    clearbody c;
    (destruct (N.ltb_spec c 128); [ndiv|]);
    (destruct (N.ltb_spec c 2048); [ndiv|]);
    (destruct (N.leb_spec 55296 c), (N.leb_spec c 57343); cbn [andb]; try ndiv);
    (destruct (N.ltb_spec c 65536); [|ndiv]);
    (do 2 f_equal; [ndiv|f_equal; [ndiv|f_equal; ndiv]]).
Qed.

Lemma utf8_encode_char_4 (b0 b1 b2 b3 : N) :
  (240 <= b0 <= 244)%N ->
  ((if (b0 =? 240)%N then 144 else 128) <= b1
   <= (if (b0 =? 244)%N then 143 else 191))%N ->
  (128 <= b2 <= 191)%N -> (128 <= b3 <= 191)%N ->
  Codec.utf8_encode_char
    ((b0 - 240) * 262144 + (b1 - 128) * 4096 + (b2 - 128) * 64 + (b3 - 128))
  = Some [b0; b1; b2; b3].
Proof.
  intros H0 H1 H2 H3. unfold Codec.utf8_encode_char.
  destruct (b0 =? 240)%N eqn:E240, (b0 =? 244)%N eqn:E244; split_conditions;
    set (c := ((b0 - 240) * 262144 + (b1 - 128) * 4096 + (b2 - 128) * 64 + (b3 - 128))%N);
    assert (Hc : c = ((b0 - 240) * 262144 + (b1 - 128) * 4096 + (b2 - 128) * 64
                      + (b3 - 128))%N) by reflexivity;
    clearbody c;
    (destruct (N.ltb_spec c 128); [ndiv|]);
    (destruct (N.ltb_spec c 2048); [ndiv|]);
    (destruct (N.leb_spec 55296 c), (N.leb_spec c 57343); cbn [andb]; try ndiv);
    (destruct (N.ltb_spec c 65536); [ndiv|]);
    (destruct (N.ltb_spec c 1114112); [|ndiv]);
    (do 2 f_equal; [ndiv|f_equal; [ndiv|f_equal; [ndiv|f_equal; ndiv]]]).
Qed.

Lemma utf8_encode_cons (c : N) (text bs rest : list N) :
  Codec.utf8_encode_char c = Some bs -> Codec.utf8_encode text = Some rest ->
  Codec.utf8_encode (c :: text) = Some (bs ++ rest).
Proof. intros Hc Ht. cbn [Codec.utf8_encode]. now rewrite Hc, Ht. Qed.

(** Strictly decoded bytes encode back to themselves. *)
Lemma utf8_decode_encode (bs text : list N) :
  Codec.utf8_decode bs = Some text -> Codec.utf8_encode text = Some bs.
Proof.
  assert (Hall : forall n bs text, (length bs <= n)%nat ->
            Codec.utf8_decode bs = Some text -> Codec.utf8_encode text = Some bs).
  { clear. induction n as [|n IH]; intros [|b0 r0] text Hlen; cbn [length] in Hlen;
      try lia; try (intros [= <-]; reflexivity).
    cbn [Codec.utf8_decode]. unfold Codec.is_continuation.
    destruct (b0 <? 128)%N eqn:E1.
    { destruct (Codec.utf8_decode r0) as [t|] eqn:Hr; [|discriminate].
      intros [= <-]. apply (utf8_encode_cons b0 t [b0] r0).
      - unfold Codec.utf8_encode_char. now rewrite E1.
      - apply IH; [lia | exact Hr]. }
    destruct ((194 <=? b0) && (b0 <=? 223))%N eqn:E2.
    { destruct r0 as [|b1 r1]; [discriminate|].
      destruct ((128 <=? b1) && (b1 <=? 191))%N eqn:C1; [|discriminate].
      destruct (Codec.utf8_decode r1) as [t|] eqn:Hr; [|discriminate].
      intros [= <-]. split_conditions. apply (utf8_encode_cons _ t [b0; b1] r1).
      - apply utf8_encode_char_2; lia.
      - apply IH; [cbn [length] in Hlen; lia | exact Hr]. }
    destruct ((224 <=? b0) && (b0 <=? 239))%N eqn:E3.
    { destruct r0 as [|b1 [|b2 r2]]; try discriminate. cbv zeta.
      destruct (((if (b0 =? 224)%N then 160 else 128) <=? b1)
                && (b1 <=? (if (b0 =? 237)%N then 159 else 191)))%N eqn:C1;
        [|discriminate].
      destruct ((128 <=? b2) && (b2 <=? 191))%N eqn:C2; [|discriminate].
      cbn [andb].
      destruct (Codec.utf8_decode r2) as [t|] eqn:Hr; [|discriminate].
      intros [= <-]. split_conditions. apply (utf8_encode_cons _ t [b0; b1; b2] r2).
      - apply utf8_encode_char_3; lia.
      - apply IH; [cbn [length] in Hlen; lia | exact Hr]. }
    destruct ((240 <=? b0) && (b0 <=? 244))%N eqn:E4; [|discriminate].
    destruct r0 as [|b1 [|b2 [|b3 r3]]]; try discriminate. cbv zeta.
    destruct (((if (b0 =? 240)%N then 144 else 128) <=? b1)
              && (b1 <=? (if (b0 =? 244)%N then 143 else 191)))%N eqn:C1;
      [|discriminate].
    destruct ((128 <=? b2) && (b2 <=? 191))%N eqn:C2; [|discriminate].
    destruct ((128 <=? b3) && (b3 <=? 191))%N eqn:C3; [|discriminate].
    cbn [andb].
    destruct (Codec.utf8_decode r3) as [t|] eqn:Hr; [|discriminate].
    intros [= <-]. split_conditions. apply (utf8_encode_cons _ t [b0; b1; b2; b3] r3).
    - apply utf8_encode_char_4; lia.
    - apply IH; [cbn [length] in Hlen; lia | exact Hr]. }
  apply (Hall (length bs)). lia.
Qed.

Lemma utf8_decode_2 (b0 b1 : N) (rest : list N) :
  (194 <= b0 <= 223)%N -> (128 <= b1 <= 191)%N ->
  Codec.utf8_decode (b0 :: b1 :: rest)
  = option_map (cons ((b0 - 192) * 64 + (b1 - 128))%N) (Codec.utf8_decode rest).
Proof.
  intros H0 H1. cbn [Codec.utf8_decode]. unfold Codec.is_continuation.
  destruct (N.ltb_spec b0 128); [lia|].
  destruct (N.leb_spec 194 b0); [|lia]. destruct (N.leb_spec b0 223); [|lia].
  destruct (N.leb_spec 128 b1); [|lia]. destruct (N.leb_spec b1 191); [|lia].
  reflexivity.
Qed.

Lemma utf8_decode_3 (b0 b1 b2 : N) (rest : list N) :
  (224 <= b0 <= 239)%N ->
  ((if (b0 =? 224)%N then 160 else 128) <= b1
   <= (if (b0 =? 237)%N then 159 else 191))%N ->
  (128 <= b2 <= 191)%N ->
  Codec.utf8_decode (b0 :: b1 :: b2 :: rest)
  = option_map (cons ((b0 - 224) * 4096 + (b1 - 128) * 64 + (b2 - 128))%N)
      (Codec.utf8_decode rest).
Proof.
  intros H0 [H1 H1'] H2. cbn [Codec.utf8_decode]. unfold Codec.is_continuation. cbv zeta.
  apply N.leb_le in H1, H1'. rewrite H1, H1'.
  destruct (N.ltb_spec b0 128); [lia|].
  destruct (N.leb_spec 194 b0); [|lia]. destruct (N.leb_spec b0 223); [lia|].
  destruct (N.leb_spec 224 b0); [|lia]. destruct (N.leb_spec b0 239); [|lia].
  destruct (N.leb_spec 128 b2); [|lia]. destruct (N.leb_spec b2 191); [|lia].
  reflexivity.
Qed.

Lemma utf8_decode_4 (b0 b1 b2 b3 : N) (rest : list N) :
  (240 <= b0 <= 244)%N ->
  ((if (b0 =? 240)%N then 144 else 128) <= b1
   <= (if (b0 =? 244)%N then 143 else 191))%N ->
  (128 <= b2 <= 191)%N -> (128 <= b3 <= 191)%N ->
  Codec.utf8_decode (b0 :: b1 :: b2 :: b3 :: rest)
  = option_map
      (cons ((b0 - 240) * 262144 + (b1 - 128) * 4096 + (b2 - 128) * 64 + (b3 - 128))%N)
      (Codec.utf8_decode rest).
Proof.
  intros H0 [H1 H1'] H2 H3. cbn [Codec.utf8_decode]. unfold Codec.is_continuation. cbv zeta.
  apply N.leb_le in H1, H1'. rewrite H1, H1'.
  destruct (N.ltb_spec b0 128); [lia|].
  destruct (N.leb_spec 194 b0); [|lia]. destruct (N.leb_spec b0 223); [lia|].
  destruct (N.leb_spec 224 b0); [|lia]. destruct (N.leb_spec b0 239); [lia|].
  destruct (N.leb_spec 240 b0); [|lia]. destruct (N.leb_spec b0 244); [|lia].
  destruct (N.leb_spec 128 b2); [|lia]. destruct (N.leb_spec b2 191); [|lia].
  destruct (N.leb_spec 128 b3); [|lia]. destruct (N.leb_spec b3 191); [|lia].
  reflexivity.
Qed.

(** What the encoder gives for one code point decodes to that code point. *)
Lemma utf8_decode_char (c : N) (bs rest : list N) :
  Codec.utf8_encode_char c = Some bs ->
  Codec.utf8_decode (bs ++ rest) = option_map (cons c) (Codec.utf8_decode rest).
Proof.
  unfold Codec.utf8_encode_char.
  destruct (N.ltb_spec c 128) as [H1|H1].
  { intros [= <-]. cbn [app Codec.utf8_decode].
    destruct (N.ltb_spec c 128); [reflexivity | lia]. }
  destruct (N.ltb_spec c 2048) as [H2|H2].
  { intros [= <-]. cbn [app]. rewrite utf8_decode_2 by ndiv. do 2 f_equal. ndiv. }
  assert (H3byte : (c < 55296 \/ 57343 < c)%N -> (c < 65536)%N ->
            Codec.utf8_decode ([224 + c / 4096; 128 + (c / 64) mod 64; 128 + c mod 64]%N
                               ++ rest)
            = option_map (cons c) (Codec.utf8_decode rest)).
  { intros Hs H5. cbn [app]. rewrite utf8_decode_3.
    - do 2 f_equal. ndiv.
    - ndiv.
    - destruct (N.eqb_spec (224 + c / 4096) 224), (N.eqb_spec (224 + c / 4096) 237); ndiv.
    - ndiv. }
  assert (H4byte : (65536 <= c)%N -> (c < 1114112)%N ->
            Codec.utf8_decode ([240 + c / 262144; 128 + (c / 4096) mod 64;
                                128 + (c / 64) mod 64; 128 + c mod 64]%N ++ rest)
            = option_map (cons c) (Codec.utf8_decode rest)).
  { intros H5 H6. cbn [app]. rewrite utf8_decode_4.
    - do 2 f_equal. ndiv.
    - ndiv.
    - destruct (N.eqb_spec (240 + c / 262144) 240), (N.eqb_spec (240 + c / 262144) 244);
        ndiv.
    - ndiv.
    - ndiv. }
  destruct (N.leb_spec 55296 c) as [H3|H3], (N.leb_spec c 57343) as [H4|H4]; cbn [andb];
    try discriminate; try lia;
    (destruct (N.ltb_spec c 65536) as [H5|H5];
     [intros [= <-]; apply H3byte; lia
     |destruct (N.ltb_spec c 1114112) as [H6|H6];
      [intros [= <-]; apply H4byte; lia | discriminate]]).
Qed.

Lemma utf8_encode_decode (text bs : list N) :
  Codec.utf8_encode text = Some bs -> Codec.utf8_decode bs = Some text.
Proof.
  revert bs. induction text as [|c text IH]; intros bs; cbn [Codec.utf8_encode].
  - now intros [= <-].
  - destruct (Codec.utf8_encode_char c) as [cbs|] eqn:Hc; [|discriminate].
    destruct (Codec.utf8_encode text) as [rest|]; [|discriminate].
    intros [= <-]. rewrite (utf8_decode_char c cbs rest Hc), (IH rest eq_refl).
    reflexivity.
Qed.

Lemma utf8_encode_char_scalar (c : N) :
  is_Some (Codec.utf8_encode_char c) <-> Codec.is_scalar c = true.
Proof.
  unfold Codec.utf8_encode_char, Codec.is_scalar.
  destruct (N.ltb_spec c 128), (N.ltb_spec c 2048), (N.leb_spec 55296 c),
    (N.leb_spec c 57343), (N.ltb_spec c 65536), (N.ltb_spec c 1114112),
    (N.ltb_spec c 55296), (N.ltb_spec 57343 c); cbn [andb orb];
    try lia; split; intros Hs; try discriminate; try (destruct Hs; discriminate); eauto.
Qed.

Lemma utf8_encode_scalars (text : list N) :
  is_Some (Codec.utf8_encode text) <-> Forall (fun c => Codec.is_scalar c = true) text.
Proof.
  induction text as [|c text IH]; cbn [Codec.utf8_encode].
  - split; [constructor | eauto].
  - rewrite Forall_cons, <- IH, <- utf8_encode_char_scalar.
    destruct (Codec.utf8_encode_char c), (Codec.utf8_encode text); split;
      try (intros [? ?]); try (intros [[? ?] [? ?]]); try discriminate; eauto.
Qed.

Lemma utf8_encode_char_bytes (c : N) (bs : list N) :
  Codec.utf8_encode_char c = Some bs -> Forall (fun b => (b < 256)%N) bs.
Proof.
  unfold Codec.utf8_encode_char.
  destruct (N.ltb_spec c 128); [intros [= <-]; repeat constructor; lia|].
  destruct (N.ltb_spec c 2048); [intros [= <-]; repeat constructor; ndiv|].
  destruct (N.leb_spec 55296 c), (N.leb_spec c 57343); cbn [andb]; try discriminate;
    (destruct (N.ltb_spec c 65536); [intros [= <-]; repeat constructor; ndiv|]);
    (destruct (N.ltb_spec c 1114112); [intros [= <-]; repeat constructor; ndiv|]);
    discriminate.
Qed.

Lemma utf8_encode_bytes (text bs : list N) :
  Codec.utf8_encode text = Some bs -> Forall (fun b => (b < 256)%N) bs.
Proof.
  revert bs. induction text as [|c text IH]; intros bs; cbn [Codec.utf8_encode].
  - intros [= <-]. constructor.
  - destruct (Codec.utf8_encode_char c) as [cbs|] eqn:Hc; [|discriminate].
    destruct (Codec.utf8_encode text) as [rest|]; [|discriminate].
    intros [= <-]. apply Forall_app. split; [eapply utf8_encode_char_bytes; eauto|].
    now apply IH.
Qed.

Lemma byte_of_to_N (b : Byte.byte) : FixEncoding.byte_of_N (Byte.to_N b) = b.
Proof. unfold FixEncoding.byte_of_N. now rewrite Byte.of_to_N. Qed.

Lemma to_N_byte_of (n : N) : (n < 256)%N -> Byte.to_N (FixEncoding.byte_of_N n) = n.
Proof.
  intros Hn. unfold FixEncoding.byte_of_N.
  destruct (Byte.of_N n) as [b|] eqn:E; [now apply Byte.to_of_N in E|].
  apply Byte.of_N_None_iff in E. lia.
Qed.

Lemma map_byte_of_to_N (raw : list Byte.byte) :
  map FixEncoding.byte_of_N (map Byte.to_N raw) = raw.
Proof.
  rewrite map_map. rewrite <- (map_id raw) at 2. apply map_ext. apply byte_of_to_N.
Qed.

Lemma map_to_N_byte_of (bs : list N) :
  Forall (fun b => (b < 256)%N) bs -> map Byte.to_N (map FixEncoding.byte_of_N bs) = bs.
Proof.
  induction 1 as [|b bs Hb _ IH]; [reflexivity|]. cbn [map].
  now rewrite (to_N_byte_of b Hb), IH.
Qed.

Lemma translate_newlines_posix (text : list N) :
  FixEncoding.translate_newlines FixEncoding.posix_linesep text = text.
Proof.
  unfold FixEncoding.translate_newlines, FixEncoding.posix_linesep.
  induction text as [|c text IH]; [reflexivity|]. cbn [flat_map].
  rewrite IH. destruct (N.eqb_spec c 10) as [->|_]; reflexivity.
Qed.

Lemma try_encodings_Some {A} (attempt : string -> option A) (candidates : list string)
    (encoding : string) (a : A) :
  Codec.try_encodings attempt candidates = Some (encoding, a) ->
  In encoding candidates /\ attempt encoding = Some a.
Proof.
  induction candidates as [|e rest IH]; cbn [Codec.try_encodings]; [discriminate|].
  destruct (attempt e) as [a'|] eqn:E.
  - intros [= <- <-]. split; [now left | exact E].
  - intros Hrest. destruct (IH Hrest). split; [now right | assumption].
Qed.

Lemma decode_utf8 (raw : list Byte.byte) :
  Codec.decode "utf-8" raw = Codec.utf8_decode (map Byte.to_N raw).
Proof. reflexivity. Qed.

Lemma charmap_byte_scalar (table : list (option N)) (b c : N) :
  forallb (fun o => match o with Some cp => Codec.is_scalar cp | None => true end) table = true ->
  Codec.charmap_byte table b = Some c -> Codec.is_scalar c = true.
Proof.
  intros Htable. unfold Codec.charmap_byte.
  destruct (N.ltb_spec b 128) as [Hb|Hb].
  - intros [= <-]. unfold Codec.is_scalar.
    destruct (N.ltb_spec b 55296); [reflexivity | lia].
  - destruct (nth_error table (N.to_nat (b - 128))) as [[cp|]|] eqn:E; try discriminate.
    intros [= <-]. apply nth_error_In in E.
    rewrite forallb_forall in Htable. exact (Htable _ E).
Qed.

Lemma charmap_decode_scalar (table : list (option N)) (bs text : list N) :
  forallb (fun o => match o with Some cp => Codec.is_scalar cp | None => true end) table = true ->
  Codec.charmap_decode table bs = Some text ->
  Forall (fun c => Codec.is_scalar c = true) text.
Proof.
  intros Htable. revert text. induction bs as [|b bs IH]; intros text;
    cbn [Codec.charmap_decode].
  - intros [= <-]. constructor.
  - destruct (Codec.charmap_byte table b) as [cp|] eqn:E; [|discriminate].
    destruct (Codec.charmap_decode table bs) as [t|]; [|discriminate].
    intros [= <-]. constructor; [eapply charmap_byte_scalar; eauto | now apply IH].
Qed.

(** Whatever codec decoded it, the text holds Unicode scalar values only. *)
Lemma decode_scalar (encoding : string) (raw : list Byte.byte) (text : list N) :
  Codec.decode encoding raw = Some text -> Forall (fun c => Codec.is_scalar c = true) text.
Proof.
  unfold Codec.decode.
  destruct (String.eqb encoding "utf-8").
  { intros Hd. apply utf8_encode_scalars. apply utf8_decode_encode in Hd. rewrite Hd. eauto. }
  destruct (String.eqb encoding "iso-8859-2").
  { apply charmap_decode_scalar. vm_compute. reflexivity. }
  destruct (String.eqb encoding "windows-1250" || String.eqb encoding "cp1250");
    [|discriminate].
  apply charmap_decode_scalar. vm_compute. reflexivity.
Qed.

Lemma fix_encoding_simple_decoded (raw : list Byte.byte) :
  exists encoding text,
    FixEncoding.fix_encoding_simple raw = Some (encoding, text)
    /\ Codec.decode encoding raw = Some text.
Proof.
  assert (Hsome : is_Some (FixEncoding.fix_encoding_simple raw)).
  { unfold FixEncoding.fix_encoding_simple, FixEncoding.encodings_to_try.
    cbn [Codec.try_encodings].
    destruct (Codec.decode "utf-8" raw); [eauto|].
    destruct (Codec.decode "windows-1250" raw); [eauto|].
    destruct (iso8859_2_total raw) as [text ->]. eauto. }
  destruct Hsome as [[encoding text] Hfix]. exists encoding, text.
  split; [exact Hfix|]. now apply try_encodings_Some in Hfix as [_ Hd].
Qed.

(** X15. A file that is valid UTF-8 is rewritten byte for byte as it was
    (where the system's line separator is the newline): the fixer can be run
    on files that need no fixing. *)
Theorem utf8_file_is_rewritten_unchanged (raw : list Byte.byte) (text : list N) :
  Codec.decode "utf-8" raw = Some text ->
  FixEncoding.fix_encoding_simple_file FixEncoding.posix_linesep raw
  = FixEncoding.Converted "utf-8" raw.
Proof.
  intros Hd. unfold FixEncoding.fix_encoding_simple_file.
  assert (Hfix : FixEncoding.fix_encoding_simple raw = Some ("utf-8", text)).
  { unfold FixEncoding.fix_encoding_simple, FixEncoding.encodings_to_try.
    cbn [Codec.try_encodings]. now rewrite Hd. }
  rewrite Hfix, translate_newlines_posix.
  rewrite decode_utf8 in Hd. rewrite (utf8_decode_encode _ _ Hd).
  now rewrite map_byte_of_to_N.
Qed.

(** X16. The fixer always rewrites the file (decoding never fails for the
    want of a codec, and encoding the decoded text never raises, so the file
    is never left emptied); what it writes is valid UTF-8 that decodes to the
    text it had decoded; and a second run takes the result as UTF-8 and leaves
    it as it is. *)
Theorem fixer_is_idempotent (raw : list Byte.byte) :
  exists used_encoding text written,
    FixEncoding.fix_encoding_simple raw = Some (used_encoding, text)
    /\ FixEncoding.fix_encoding_simple_file FixEncoding.posix_linesep raw
       = FixEncoding.Converted used_encoding written
    /\ Codec.decode "utf-8" written = Some text
    /\ FixEncoding.fix_encoding_simple_file FixEncoding.posix_linesep written
       = FixEncoding.Converted "utf-8" written.
Proof.
  destruct (fix_encoding_simple_decoded raw) as (encoding & text & Hfix & Hd).
  pose proof (decode_scalar _ _ _ Hd) as Hscalar.
  apply utf8_encode_scalars in Hscalar as [bs Hbs].
  exists encoding, text, (map FixEncoding.byte_of_N bs).
  assert (Hback : Codec.decode "utf-8" (map FixEncoding.byte_of_N bs) = Some text).
  { rewrite decode_utf8, (map_to_N_byte_of bs (utf8_encode_bytes _ _ Hbs)).
    now apply utf8_encode_decode. }
  split; [exact Hfix|]. split; [|split; [exact Hback|]].
  - unfold FixEncoding.fix_encoding_simple_file.
    now rewrite Hfix, translate_newlines_posix, Hbs.
  - assert (Hfix' : FixEncoding.fix_encoding_simple (map FixEncoding.byte_of_N bs)
                    = Some ("utf-8", text)).
    { unfold FixEncoding.fix_encoding_simple, FixEncoding.encodings_to_try.
      cbn [Codec.try_encodings]. now rewrite Hback. }
    unfold FixEncoding.fix_encoding_simple_file.
    now rewrite Hfix', translate_newlines_posix, Hbs.
Qed.

(** ** Which code page the fixer takes *)

Lemma cp1250_byte_undefined (b : Byte.byte) :
  Codec.charmap_byte Codec.cp1250_table (Byte.to_N b) = None
  <-> existsb (N.eqb (Byte.to_N b)) [129; 131; 136; 144; 152]%N = true.
Proof. destruct b; vm_compute; split; intros E; first [reflexivity | discriminate E]. Qed.

Lemma charmap_decode_None (table : list (option N)) (bs : list N) :
  Codec.charmap_decode table bs = None
  <-> exists b, In b bs /\ Codec.charmap_byte table b = None.
Proof.
  induction bs as [|b bs IH]; cbn [Codec.charmap_decode].
  - split; [discriminate | intros (b & [] & _)].
  - destruct (Codec.charmap_byte table b) as [cp|] eqn:E.
    + destruct (Codec.charmap_decode table bs) as [t|]; cbn [option_map].
      * split; [discriminate|]. intros (b' & [<-|Hin] & Hb'); [congruence|].
        assert (Hnone : @None (list N) = None) by reflexivity.
        destruct IH as [_ IH]. discriminate IH. eauto.
      * split; [|reflexivity]. intros _. destruct IH as [IH _].
        destruct (IH eq_refl) as (b' & Hin & Hb'). exists b'. split; [now right | exact Hb'].
    + split; [|reflexivity]. intros _. exists b. split; [now left | exact E].
Qed.

Lemma windows_1250_None (raw : list Byte.byte) :
  Codec.decode "windows-1250" raw = None
  <-> exists b, In b raw /\ In (Byte.to_N b) [129; 131; 136; 144; 152]%N.
Proof.
  change (Codec.decode "windows-1250" raw)
    with (Codec.charmap_decode Codec.cp1250_table (map Byte.to_N raw)).
  rewrite charmap_decode_None. split.
  - intros (n & Hin & Hn). apply in_map_iff in Hin as (b & <- & Hb).
    exists b. split; [exact Hb|]. apply cp1250_byte_undefined in Hn.
    apply existsb_exists in Hn as (u & Hu & Heq). apply N.eqb_eq in Heq. now rewrite Heq.
  - intros (b & Hb & Hu). exists (Byte.to_N b). split; [now apply in_map|].
    apply cp1250_byte_undefined. apply existsb_exists.
    exists (Byte.to_N b). split; [exact Hu | apply N.eqb_refl].
Qed.

(** X17. The Windows code page leaves five bytes undefined (0x81, 0x83,
    0x88, 0x90, 0x98), and decoding with it fails exactly on a file that has
    one of them. So the fixer's choice is settled by the bytes: UTF-8 when the
    file is valid UTF-8; otherwise windows-1250 when none of the five bytes
    occurs; otherwise ISO-8859-2. *)
Theorem fixer_choice_by_bytes (raw : list Byte.byte) :
  let undefined := [129; 131; 136; 144; 152]%N in
  (Codec.decode "windows-1250" raw = None
   <-> exists b, In b raw /\ In (Byte.to_N b) undefined)
  /\ forall used_encoding text,
       FixEncoding.fix_encoding_simple raw = Some (used_encoding, text) ->
       (used_encoding = "utf-8" /\ Codec.decode "utf-8" raw = Some text)
       \/ (used_encoding = "windows-1250"
           /\ Codec.decode "utf-8" raw = None
           /\ (forall b, In b raw -> ~ In (Byte.to_N b) undefined)
           /\ Codec.decode "windows-1250" raw = Some text)
       \/ (used_encoding = "iso-8859-2"
           /\ Codec.decode "utf-8" raw = None
           /\ (exists b, In b raw /\ In (Byte.to_N b) undefined)
           /\ Codec.decode "iso-8859-2" raw = Some text).
Proof.
  cbv zeta. split; [apply windows_1250_None|].
  intros enc text. unfold FixEncoding.fix_encoding_simple, FixEncoding.encodings_to_try.
  cbn [Codec.try_encodings].
  destruct (Codec.decode "utf-8" raw) as [t|] eqn:Hutf; [intros [= <- <-]; auto|].
  destruct (Codec.decode "windows-1250" raw) as [t|] eqn:Hwin.
  - intros [= <- <-]. right. left. repeat split; try reflexivity.
    intros b Hb Hu. assert (Hnone : Codec.decode "windows-1250" raw = None).
    { apply windows_1250_None. eauto. }
    congruence.
  - destruct (Codec.decode "iso-8859-2" raw) as [t|] eqn:Hiso.
    + intros [= <- <-]. right. right. repeat split; try reflexivity.
      now apply windows_1250_None.
    + destruct (iso8859_2_total raw) as [t Ht]. congruence.
Qed.

(** * The embedding on sample inputs *)

Import Demo CsvToJson.

Example get_year_from_filename_samples :
  get_year_from_filename "pn2004.csv" = Some 2004
  /\ get_year_from_filename "accidents_misc.csv" = None
  /\ get_year_from_filename "pn20x4.csv" = None
  /\ get_year_from_filename "old_pn1995_copy.csv" = Some 1995.
Proof. repeat split; reflexivity. Qed.

Example glob_and_sort_sample :
  map file_name (sorted (glob_pn_csv [pn2021_csv; pn2022_csv; pn2010_csv; pnabc_csv; pn2020_csv;
                                      {| file_name := "notes.txt"; file_bytes := [] |}]))
  = ["pn2010.csv"; "pn2020.csv"; "pn2021.csv"; "pn2022.csv"; "pnabc.csv"].
Proof. vm_compute. reflexivity. Qed.

Example strip_samples :
  PyStr.strip "  462000.5 " = "462000.5" /\ PyStr.strip "   " = "" /\ PyStr.strip "a b" = "a b".
Proof. repeat split; reflexivity. Qed.

(** A whole run: the second record 5 of 2020 is dropped as a duplicate, the
    rows without a valid pair are dropped, the row far outside the bounds is
    kept with a warning, and record 5 of 2021 is kept. *)
Example merge_all_files_sample :
  let run := merge_all_files all_years (Some [pn2021_csv; pn2020_csv]) in
  returned run = true
  /\ option_map (fun df => map (key_of ["year"; "ZaporednaStevilkaPN"]) (rows df)) (written run)
     = Some [[CInt 2020; CInt 5]; [CInt 2020; CInt 8]; [CInt 2021; CInt 5]]
  /\ console run
     = [MsgFound 2;
        MsgProcessing "pn2020.csv" 2020; MsgConverting; MsgLoaded 3 2; MsgBoundsWarning 1;
        MsgProcessing "pn2021.csv" 2021; MsgConverting; MsgLoaded 1 0;
        MsgMerging 2; MsgSaved; MsgSummary 3 2020 2021 [2020; 2021];
        MsgValidCoordinates 3 3].
Proof. repeat split; vm_compute; reflexivity. Qed.

Lemma merge_frames_first_occurrence_witness :
  has_column "ZaporednaStevilkaPN" (pd_concat [df2020; df2021]) = true
  /\ map (key_of ["year"; "ZaporednaStevilkaPN"]) (rows (merge_frames [df2020; df2021]))
     = [[CInt 2020; CInt 5]; [CInt 2020; CInt 6]; [CInt 2021; CInt 5]]
  /\ map (fun r => cell_at r "TipNesrece") (rows (merge_frames [df2020; df2021]))
     = [CStr "A"; CStr "B"; NaN]
  /\ (forall r, In r (rows (pd_concat [df2020; df2021])) ->
       exists f, List.find (fun r' => same_key (key_of ["year"; "ZaporednaStevilkaPN"] r')
                                         (key_of ["year"; "ZaporednaStevilkaPN"] r))
                   (rows (pd_concat [df2020; df2021])) = Some f
                 /\ List.filter (fun r' => same_key (key_of ["year"; "ZaporednaStevilkaPN"] r')
                                         (key_of ["year"; "ZaporednaStevilkaPN"] r))
                      (rows (merge_frames [df2020; df2021])) = [f]).
Proof.
  split; [vm_compute; reflexivity|].
  split; [vm_compute; reflexivity|].
  split; [vm_compute; reflexivity|].
  pose proof (merge_frames_first_occurrence [df2020; df2021] eq_refl eq_refl) as Hmerge.
  cbv zeta in Hmerge. destruct Hmerge as (_ & _ & Hfirst & _). exact Hfirst.
Defined.

Lemma merge_all_files_nothing_processed_witness :
  returned (merge_all_files script_config (Some [pn2010_csv; pnabc_csv; pn2022_csv])) = false
  /\ written (merge_all_files script_config (Some [pn2010_csv; pnabc_csv; pn2022_csv])) = None.
Proof.
  apply (merge_all_files_nothing_processed script_config
           (Some [pn2010_csv; pnabc_csv; pn2022_csv])).
  intros folder csv_file year [= <-] Hin Hy.
  vm_compute in Hin.
  destruct Hin as [<-|[<-|[<-|[]]]]; vm_compute in Hy; try discriminate;
    injection Hy as <-; vm_compute; reflexivity.
Defined.

(** The three ways of processing nothing that the specification names. *)
Example merge_all_files_missing_folder :
  merge_all_files script_config None
  = {| returned := false; written := None; console := [MsgFolderNotFound] |}.
Proof. reflexivity. Qed.

Example merge_all_files_no_matching_file :
  merge_all_files script_config
    (Some [ {| file_name := "accidents_misc.csv"; file_bytes := [] |};
            {| file_name := "pn2020.txt"; file_bytes := [] |} ])
  = {| returned := false; written := None; console := [MsgNoFilesFound] |}.
Proof. vm_compute. reflexivity. Qed.

Example merge_all_files_all_fail :
  merge_all_files script_config (Some [pn2010_csv; pnabc_csv; pn2022_csv])
  = {| returned := false; written := None;
       console := [MsgFound 3; MsgProcessing "pn2022.csv" 2022; MsgCouldNotRead;
                   MsgSkipping "pnabc.csv"; MsgNoneProcessed] |}.
Proof. vm_compute. reflexivity. Qed.

(** The run of the specification's example: with the explicit year 2010 and
    the range 2015..2020, neither the 2010 file nor any other is processed. *)
Example explicit_year_and_range_run :
  merge_all_files year_2010_and_range (Some [pn2010_csv; pn2020_csv])
  = {| returned := false; written := None;
       console := [MsgFound 2; MsgNoneProcessed] |}.
Proof. vm_compute. reflexivity. Qed.

(** On the sample frame the second row (X is zero) stays missing and the
    first row (a valid pair) receives the outputs of the transformer. *)
Lemma invalid_pairs_stay_missing_witness :
  (exists r', rows (fst (convert_coordinates_batch coordinates_frame 2020)) !! 1%nat = Some r'
     /\ r' !! "latitude" = Some NaN /\ r' !! "longitude" = Some NaN)
  /\ (exists r', rows (fst (convert_coordinates_batch coordinates_frame 2020)) !! 0%nat = Some r'
       /\ r' !! "longitude" = Some (CFloat (lon_of_easting 500000))
       /\ r' !! "latitude" = Some (CFloat (lat_of_northing 100000))).
Proof.
  split.
  - destruct (invalid_pairs_stay_missing coordinates_frame 2020 1
                {[ "GeoKoordinataX" := CInt 0; "GeoKoordinataY" := CInt 500000 ]}
                eq_refl eq_refl eq_refl) as (_ & r' & Hr' & _ & Hinvalid & _).
    exists r'. split; [exact Hr'|]. apply Hinvalid. left. vm_compute. reflexivity.
  - destruct (invalid_pairs_stay_missing coordinates_frame 2020 0
                {[ "GeoKoordinataX" := CInt 100000; "GeoKoordinataY" := CInt 500000 ]}
                eq_refl eq_refl eq_refl) as (_ & r' & Hr' & _ & _ & Hvalid).
    exists r'. split; [exact Hr'|].
    destruct Hvalid as (_ & Hout).
    { intros [Hz|[Hz|[Hz|Hz]]]; vm_compute in Hz; discriminate. }
    destruct (Hout [lon_of_easting 500000] [lat_of_northing 100000])
      as (lon & lat & Hlon & Hlat & Hrlon & Hrlat);
      [vm_compute; reflexivity | vm_compute; reflexivity | vm_compute; reflexivity |].
    vm_compute in Hlon, Hlat. injection Hlon as <-. injection Hlat as <-.
    split; [exact Hrlon | exact Hrlat].
Defined.

Lemma easting_is_Y_northing_is_X_witness :
  valid_pair 100000 500000 = true
  /\ exists r', rows (fst (convert_coordinates_batch coordinates_frame 2020)) !! 0%nat = Some r'
    /\ r' !! "longitude" = Some (CFloat (lon_of_easting 500000))
    /\ r' !! "latitude" = Some (CFloat (lat_of_northing 100000)).
Proof.
  split; [vm_compute; reflexivity|].
  pose proof (easting_is_Y_northing_is_X coordinates_frame 2020 0
                {[ "GeoKoordinataX" := CInt 100000; "GeoKoordinataY" := CInt 500000 ]}
                eq_refl eq_refl eq_refl eq_refl) as Hswap.
  cbv zeta in Hswap. destruct Hswap as (_ & _ & _ & Hpoint).
  exact (Hpoint project (fun _ _ => eq_refl)).
Defined.

(** Against C2 as stated: with a transformer that raises, the first row of
    the sample frame, a valid pair (100000, 500000), is left with missing
    latitude and longitude. *)
Lemma valid_pair_left_missing_when_transform_raises :
  numeric_column "GeoKoordinataX" coordinates_frame !! 0%nat = Some 100000%float
  /\ numeric_column "GeoKoordinataY" coordinates_frame !! 0%nat = Some 500000%float
  /\ valid_pair 100000 500000 = true
  /\ column "latitude"
       (fst (convert_coordinates_batch (pyproj := failing_pyproj) coordinates_frame 2020))
     = [NaN; NaN; NaN]
  /\ column "longitude"
       (fst (convert_coordinates_batch (pyproj := failing_pyproj) coordinates_frame 2020))
     = [NaN; NaN; NaN].
Proof. repeat split; vm_compute; reflexivity. Qed.

Example convert_coordinates_batch_sample :
  column "latitude" (fst (convert_coordinates_batch coordinates_frame 2020))
  = [CFloat (lat_of_northing 100000); NaN; NaN]
  /\ column "longitude" (fst (convert_coordinates_batch coordinates_frame 2020))
     = [CFloat (lon_of_easting 500000); NaN; NaN].
Proof. split; vm_compute; reflexivity. Qed.

(** Against C4 as stated: [pn2020.csv] has coordinate columns and three
    valid pairs; when the transformer raises, the run succeeds and writes a
    merged file, and that file has no row at all. *)
Lemma no_row_survives_failed_transform :
  let run := merge_all_files (pyproj := failing_pyproj) all_years (Some [pn2020_csv]) in
  option_map
    (fun '(_, df0) =>
       valid_mask_of (numeric_column "GeoKoordinataX" df0) (numeric_column "GeoKoordinataY" df0))
    (read_any_encoding pn2020_csv)
  = Some [true; false; true; false; true]
  /\ returned run = true
  /\ In (MsgTransformError "ProjError") (console run)
  /\ option_map rows (written run) = Some [].
Proof. repeat split; vm_compute; auto 10. Qed.

Lemma transform_failure_drops_every_row_witness :
  read_any_encoding pn2020_csv = Some ("utf-8", loaded_2020)
  /\ length (rows loaded_2020) = 5%nat
  /\ exists df log,
       process_file (pyproj := failing_pyproj) all_years pn2020_csv 2020 = (Some df, log)
       /\ In (MsgTransformError "ProjError") log
       /\ rows df = [].
Proof.
  split; [vm_compute; reflexivity|]. split; [vm_compute; reflexivity|].
  destruct (transform_failure_drops_every_row (H0 := failing_pyproj)
              all_years pn2020_csv 2020 "utf-8" loaded_2020 "ProjError")
    as (_ & _ & df & log & Hpf & Hlog & _ & Hrows & _).
  - vm_compute; reflexivity.
  - vm_compute; reflexivity.
  - vm_compute; reflexivity.
  - vm_compute; reflexivity.
  - vm_compute; discriminate.
  - reflexivity.
  - exists df, log. auto.
Defined.

Lemma bounds_check_only_warns_witness :
  read_any_encoding pn2020_csv = Some ("utf-8", loaded_2020)
  /\ exists log,
       process_file all_years pn2020_csv 2020
       = (Some (dropna ["latitude"; "longitude"]
                  (fst (convert_coordinates_batch
                          (set_column "year" (CInt 2020) loaded_2020) 2020))), log)
       /\ In (MsgBoundsWarning 1) log.
Proof.
  split; [vm_compute; reflexivity|].
  destruct (bounds_check_only_warns all_years pn2020_csv 2020 "utf-8" loaded_2020)
    as (log & Hpf & Hwarn & _).
  - vm_compute; reflexivity.
  - vm_compute; reflexivity.
  - vm_compute; reflexivity.
  - vm_compute; reflexivity.
  - exists log. split; [exact Hpf|].
    set (kept := dropna ["latitude"; "longitude"]
                   (fst (convert_coordinates_batch
                           (set_column "year" (CInt 2020) loaded_2020) 2020))) in *.
    assert (Hone : length (List.filter outside_bounds (rows kept)) = 1%nat)
      by (vm_compute; reflexivity).
    rewrite Hone in Hwarn.
    apply (Hwarn (nth 2 (rows kept) ∅)).
    + vm_compute. right. right. left. reflexivity.
    + vm_compute. reflexivity.
Defined.

Lemma export_round_trip_witness :
  Forall rectangular reader_rows
  /\ exists file data,
       convert_csv_to_compressed_json reader_rows = inr file
       /\ read_export file = Some data
       /\ map (fun o => (year o, latitude o, longitude o)) data
          = [(2020, 46.25%float, 14.5%float)].
Proof.
  assert (Hrect : Forall rectangular reader_rows).
  { repeat constructor; vm_compute; discriminate. }
  split; [exact Hrect|].
  destruct (export_round_trip reader_rows Hrect) as (_ & _ & file & data & Hfile & Hread & Htriples).
  - intros data Hdata. vm_compute in Hdata. injection Hdata as <-. vm_compute. reflexivity.
  - exists file, data. split; [exact Hfile|]. split; [exact Hread|].
    rewrite Htriples. vm_compute. reflexivity.
Defined.

Lemma zero_coordinate_is_excluded_witness :
  convert_row ({[ "latitude" := Some "0.0"; "longitude" := Some "14.5";
                  "year" := Some "2020"; "TipNesrece" := Some "B" ]}
               : gmap string (option string)) = Skip
  /\ option_map (fun x => (x =? 0)%float) (py_float "0.0") = Some true.
Proof.
  split; [|vm_compute; reflexivity].
  apply (zero_coordinate_is_excluded _ "0.0" "14.5").
  - vm_compute; reflexivity.
  - vm_compute; reflexivity.
  - vm_compute; discriminate.
  - left. exists 0%float. split; vm_compute; reflexivity.
Defined.

Example export_sample :
  collect reader_rows
  = inr [ {| latitude := 46.25; longitude := 14.5; year := 2020;
             KlasifikacijaNesrece := Some ""; TipNesrece := Some "A";
             VremenskeOkoliscine := Some ""; StanjePrometa := Some "";
             StanjeVozisca := Some ""; VNaselju := Some "";
             TekstCesteNaselja := Some ""; DatumPN := Some ""; UraPN := Some "" |} ].
Proof. vm_compute. reflexivity. Qed.

(** A line shorter than the header ends the export with an uncaught
    TypeError: nothing is written. *)
Example export_short_line :
  convert_csv_to_compressed_json
    [ {[ "latitude" := Some "46.25"; "longitude" := None; "year" := None ]} ]
  = inl "TypeError".
Proof. vm_compute. reflexivity. Qed.

(** Against C9 as stated: on a file holding the byte 0x80 the loader
    selects ISO-8859-2 (the character U+0080) and the fixer windows-1250 (the
    euro sign, U+20AC). *)
Lemma loader_and_fixer_select_different_encodings :
  option_map fst (read_any_encoding latin_csv) = Some "iso-8859-2"
  /\ FixEncoding.fix_encoding_simple (file_bytes latin_csv)
     = Some ("windows-1250", [118; 10; 8364; 10]%N)
  /\ Codec.decode "iso-8859-2" (file_bytes latin_csv) = Some [118; 10; 128; 10]%N
  /\ option_map (fun '(_, df) => column "v" df) (read_any_encoding latin_csv)
     = Some [CStr (String (ascii_of_N 128) EmptyString)].
Proof. repeat split; vm_compute; reflexivity. Qed.

(** On a file that is valid UTF-8 the two agree. *)
Example loader_and_fixer_agree_on_utf8 :
  option_map fst (read_any_encoding pn2021_csv) = Some "utf-8"
  /\ option_map fst (FixEncoding.fix_encoding_simple (file_bytes pn2021_csv)) = Some "utf-8".
Proof. split; vm_compute; reflexivity. Qed.

(** An empty file: the fixer accepts UTF-8, the loader fails with every
    encoding because nothing parses. *)
Example loader_fails_where_fixer_succeeds :
  read_any_encoding pn2022_csv = None
  /\ FixEncoding.fix_encoding_simple (file_bytes pn2022_csv) = Some ("utf-8", []).
Proof. split; vm_compute; reflexivity. Qed.

(** ** Further properties on sample inputs *)

Lemma get_year_from_filename_four_digits_witness :
  0 <= 2020 <= 9999
  /\ exists before after,
       "pn2020.csv" = (before ++ after)%string /\ match_pn_year after = Some 2020.
Proof. exact (get_year_from_filename_four_digits "pn2020.csv" 2020 eq_refl). Defined.

Lemma get_year_from_filename_of_year_witness :
  get_year_from_filename ("pn" ++ pretty 2020 ++ ".csv") = Some 2020.
Proof. apply get_year_from_filename_of_year. lia. Defined.

(** A file whose name has no year changes nothing. *)
Lemma skipped_file_changes_nothing_witness :
  written (merge_all_files all_years (Some [pnabc_csv; pn2020_csv]))
  = written (merge_all_files all_years (Some [pn2020_csv]))
  /\ returned (merge_all_files all_years (Some [pnabc_csv; pn2020_csv]))
     = returned (merge_all_files all_years (Some [pn2020_csv])).
Proof.
  apply (skipped_file_changes_nothing all_years [pn2020_csv] pnabc_csv).
  left. vm_compute. reflexivity.
Defined.

Lemma processed_years_ascending_witness :
  StronglySorted Z.le
    (snd (fst (process_all all_years (sorted (glob_pn_csv [pn2021_csv; pn2020_csv])))))
  /\ snd (fst (process_all all_years (sorted (glob_pn_csv [pn2021_csv; pn2020_csv]))))
     = [2020; 2021].
Proof.
  split; [|vm_compute; reflexivity].
  apply (processed_years_ascending all_years [pn2021_csv; pn2020_csv]).
  change (glob_pn_csv [pn2021_csv; pn2020_csv]) with [pn2021_csv; pn2020_csv].
  repeat constructor; vm_compute; eauto.
Defined.

Lemma process_file_rows_carry_year_witness :
  exists df log,
    process_file all_years pn2020_csv 2020 = (Some df, log)
    /\ year_selected all_years 2020 = true
    /\ has_column "year" df = true
    /\ forall r, In r (rows df) -> r !! "year" = Some (CInt 2020).
Proof.
  destruct (process_file all_years pn2020_csv 2020) as [[df|] log] eqn:E;
    [|vm_compute in E; discriminate].
  exists df, log. split; [reflexivity|].
  exact (process_file_rows_carry_year all_years pn2020_csv 2020 df log E).
Defined.

Lemma process_file_rows_have_coordinates_witness :
  exists df log,
    process_file all_years pn2020_csv 2020 = (Some df, log)
    /\ length (rows df) = 3%nat
    /\ (forall r, In r (rows df) ->
          isna (cell_at r "latitude") = false /\ isna (cell_at r "longitude") = false)
    /\ In (MsgLoaded 3 2) log.
Proof.
  destruct (process_file all_years pn2020_csv 2020) as [[df|] log] eqn:E;
    [|vm_compute in E; discriminate].
  exists df, log. split; [reflexivity|].
  assert (Hlen : length (rows df) = 3%nat).
  { apply (f_equal (fun p => option_map (fun d => length (rows d)) (fst p))) in E.
    vm_compute in E. injection E as E. symmetry. exact E. }
  assert (HX : has_column "GeoKoordinataX" df = true).
  { apply (f_equal (fun p => option_map (has_column "GeoKoordinataX") (fst p))) in E.
    vm_compute in E. injection E as E. symmetry. exact E. }
  assert (HY : has_column "GeoKoordinataY" df = true).
  { apply (f_equal (fun p => option_map (has_column "GeoKoordinataY") (fst p))) in E.
    vm_compute in E. injection E as E. symmetry. exact E. }
  destruct (process_file_rows_have_coordinates all_years pn2020_csv 2020 df log E HX HY)
    as (Hrows & enc & df0 & Hread & _ & Hlog & _).
  split; [exact Hlen|]. split; [exact Hrows|].
  assert (Hfile : length (rows df0) = 5%nat).
  { apply (f_equal (option_map (fun p => length (rows (snd p))))) in Hread.
    vm_compute in Hread. injection Hread as Hread. symmetry. exact Hread. }
  now rewrite Hlen, Hfile in Hlog.
Defined.

(** A file with no valid pair: an empty frame, whatever the transformer. *)
Lemma file_without_valid_pair_gives_empty_frame_witness :
  length (rows loaded_2018) = 2%nat
  /\ process_file (pyproj := failing_pyproj) all_years pn2018_csv 2018
     = (Some {| columns := columns (blank_coordinates
                                      (set_column "year" (CInt 2018) loaded_2018));
                rows := [] |},
        [MsgProcessing "pn2018.csv" 2018; MsgConverting; MsgNoValidCoordinates;
         MsgLoaded 0 (length (rows loaded_2018))]).
Proof.
  split; [vm_compute; reflexivity|].
  apply (file_without_valid_pair_gives_empty_frame all_years pn2018_csv 2018 "utf-8"
           loaded_2018).
  - vm_compute; reflexivity.
  - vm_compute; reflexivity.
  - vm_compute; reflexivity.
  - vm_compute; reflexivity.
  - intros r Hr. vm_compute in Hr. destruct Hr as [<-|[<-|[]]]; vm_compute; reflexivity.
Defined.

Example merge_frames_columns_sample :
  columns (merge_frames [df2020; df2021]) = ["ZaporednaStevilkaPN"; "TipNesrece"; "year"].
Proof. vm_compute. reflexivity. Qed.

Lemma merge_frames_idempotent_witness :
  merge_frames [merge_frames [df2020; df2021]] = merge_frames [df2020; df2021].
Proof. apply merge_frames_idempotent. discriminate. Defined.

Lemma written_rows_carry_selected_year_witness :
  exists merged,
    written (merge_all_files all_years (Some [pn2021_csv; pn2020_csv])) = Some merged
    /\ forall r, In r (rows merged) ->
         exists csv_file year,
           In csv_file [pn2021_csv; pn2020_csv]
           /\ get_year_from_filename (file_name csv_file) = Some year
           /\ year_selected all_years year = true
           /\ r !! "year" = Some (CInt year).
Proof.
  destruct (written (merge_all_files all_years (Some [pn2021_csv; pn2020_csv])))
    as [merged|] eqn:E; [|vm_compute in E; discriminate].
  exists merged. split; [reflexivity|].
  exact (written_rows_carry_selected_year all_years [pn2021_csv; pn2020_csv] merged E).
Defined.

Lemma written_rows_have_coordinates_witness :
  exists merged,
    written (merge_all_files all_years (Some [pn2021_csv; pn2020_csv])) = Some merged
    /\ (forall r, In r (rows merged) ->
          isna (cell_at r "latitude") = false /\ isna (cell_at r "longitude") = false)
    /\ In (MsgValidCoordinates (length (rows merged)) (length (rows merged)))
          (console (merge_all_files all_years (Some [pn2021_csv; pn2020_csv]))).
Proof.
  destruct (written (merge_all_files all_years (Some [pn2021_csv; pn2020_csv])))
    as [merged|] eqn:E; [|vm_compute in E; discriminate].
  exists merged. split; [reflexivity|].
  apply (written_rows_have_coordinates all_years [pn2021_csv; pn2020_csv] merged);
    [|exact E].
  intros csv_file encoding df0 [<-|[<-|[]]] Hread;
    vm_compute in Hread; injection Hread as <- <-; split; vm_compute; reflexivity.
Defined.

(** A short line after a good one: the run ends with TypeError, although the
    first row had given an object. *)
Example export_short_line_after_good_row :
  convert_csv_to_compressed_json
    (reader_rows ++ [ {[ "latitude" := Some "46.25"; "longitude" := Some "14.5";
                         "year" := None ]} ])
  = inl "TypeError"
  /\ convert_row ({[ "latitude" := Some "x"; "longitude" := None; "year" := None ]}
                  : gmap string (option string)) = Skip.
Proof. split; vm_compute; reflexivity. Qed.

(** A latitude that reads as NaN is exported. *)
Lemma nan_coordinate_is_exported_witness :
  exists o,
    convert_row (builtins := builtins_with_nan)
      ({[ "latitude" := Some "nan"; "longitude" := Some "14.5"; "year" := Some "2020" ]}
       : gmap string (option string)) = Emit o
    /\ is_nan (latitude o) = true /\ longitude o = 14.5%float /\ year o = 2020.
Proof.
  destruct (@nan_coordinate_is_exported builtins_with_nan
              ({[ "latitude" := Some "nan"; "longitude" := Some "14.5";
                  "year" := Some "2020" ]} : gmap string (option string))
              "nan" "14.5" "2020" nan 14.5%float 2020)
    as (o & Ho & Hlat & Hlon & Hyear & _).
  - vm_compute; reflexivity.
  - vm_compute; reflexivity.
  - vm_compute; reflexivity.
  - vm_compute; reflexivity.
  - vm_compute; reflexivity.
  - vm_compute; reflexivity.
  - left. split; vm_compute; reflexivity.
  - exists o. split; [exact Ho|]. rewrite Hlat, Hlon, Hyear.
    repeat split; vm_compute; reflexivity.
Defined.

Lemma utf8_file_is_rewritten_unchanged_witness :
  Codec.decode "utf-8" utf8_bytes = Some [118; 10; 269; 10]%N
  /\ FixEncoding.fix_encoding_simple_file FixEncoding.posix_linesep utf8_bytes
     = FixEncoding.Converted "utf-8" utf8_bytes.
Proof.
  split; [vm_compute; reflexivity|].
  apply (utf8_file_is_rewritten_unchanged utf8_bytes [118; 10; 269; 10]%N).
  vm_compute; reflexivity.
Defined.

(** The byte 0x80 is read as the euro sign and written as its three bytes
    of UTF-8; the byte 0x81, which the Windows code page leaves undefined,
    sends the fixer to ISO-8859-2. *)
Example fixer_samples :
  FixEncoding.fix_encoding_simple_file FixEncoding.posix_linesep (file_bytes latin_csv)
  = FixEncoding.Converted "windows-1250"
      (bytes_of ("v" ++ newline) ++ [Byte.xe2; Byte.x82; Byte.xac] ++ bytes_of newline)
  /\ FixEncoding.fix_encoding_simple_file FixEncoding.posix_linesep [Byte.x81]
     = FixEncoding.Converted "iso-8859-2" [Byte.xc2; Byte.x81]
  /\ Codec.utf8_encode [55296%N] = None.
Proof. repeat split; vm_compute; reflexivity. Qed.
